(** * plugin-cryptoagent: market data cache, asset resolver, portfolio ledger

    A shallow embedding of the TypeScript sources

      - [service.ts]   ([apiRequest], [getTopCryptos], [getCryptoByIdOrSymbol]),
      - [portfolio.ts] ([portfolioService]),
      - [actions/cryptoAction.ts] (the ADD_TO_PORTFOLIO and VIEW_PORTFOLIO
        handlers),

    and the properties of the specification that concern them.

    Modelling choices.
      - A JavaScript [number] that carries a price or a quantity is an IEEE 754
        binary64 value: Rocq's primitive [float], whose operations are the ones
        the JavaScript engine performs.  Timestamps ([Date.now()]) are integers
        (milliseconds) and are kept in [Z].
      - The module-level [cache] object is a [gmap string CacheEntry.t].
      - The code is asynchronous but every [await] is sequential; one call is
        modelled as a state transformer over a [World] (cache, database table,
        and the counters of what has been asked from the outside).  Thrown
        exceptions are the [Throw] results of the monad [M]; state changes made
        before a throw are kept, as in JavaScript.
      - Everything that comes from outside the process (the clock, the HTTP
        responses of the price source, [uuidv4]) is read from an [Env] of
        oracles, so that a theorem quantified over [Env] covers every behaviour
        of the outside.
      - [toLowerCase]/[toUpperCase] act on the ASCII letters; other bytes are
        left as they are. *)

From Stdlib Require Import ZArith String Ascii List Lia Bool.
From Stdlib Require Import Floats.PrimFloat.
From Stdlib Require Import Numbers.DecimalString Numbers.DecimalN.
From stdpp Require Import base option list gmap strings.

Local Open Scope string_scope.
Local Open Scope Z_scope.

(* ===================================================================== *)
(** * Strings                                                             *)
(* ===================================================================== *)

Definition lowerChar (c : ascii) : ascii :=
  let n := nat_of_ascii c in
  if (Nat.leb 65 n && Nat.leb n 90)%bool then ascii_of_nat (n + 32) else c.

Definition upperChar (c : ascii) : ascii :=
  let n := nat_of_ascii c in
  if (Nat.leb 97 n && Nat.leb n 122)%bool then ascii_of_nat (n - 32) else c.

Fixpoint mapString (f : ascii -> ascii) (s : string) : string :=
  match s with
  | EmptyString => EmptyString
  | String c s' => String (f c) (mapString f s')
  end.

(** [String.prototype.toLowerCase] *)
Definition toLowerCase (s : string) : string := mapString lowerChar s.

(** [String.prototype.toUpperCase] *)
Definition toUpperCase (s : string) : string := mapString upperChar s.

(** White space as [String.prototype.trim] sees it, within ASCII: space, tab,
    line feed, vertical tab, form feed, carriage return. *)
Definition isSpace (c : ascii) : bool :=
  let n := nat_of_ascii c in
  (Nat.eqb n 32 || (Nat.leb 9 n && Nat.leb n 13))%bool.

Fixpoint trimStart (s : string) : string :=
  match s with
  | String c s' => if isSpace c then trimStart s' else s
  | EmptyString => EmptyString
  end.

Fixpoint trimEnd (s : string) : string :=
  match s with
  | EmptyString => EmptyString
  | String c s' =>
      match trimEnd s' with
      | EmptyString => if isSpace c then EmptyString else String c EmptyString
      | t => String c t
      end
  end.

(** [String.prototype.trim]; the sources never call it, the specification's
    resolver does. *)
Definition trim (s : string) : string := trimEnd (trimStart s).

(** Template-literal rendering of a non-negative integer, [`${count}`]. *)
Definition showN (n : N) : string := NilZero.string_of_uint (N.to_uint n).

Definition isHexDigit (c : ascii) : bool :=
  let n := nat_of_ascii c in
  ((Nat.leb 48 n && Nat.leb n 57)
   || (Nat.leb 97 n && Nat.leb n 102)
   || (Nat.leb 65 n && Nat.leb n 70))%bool.

(** [n] hexadecimal digits, then the rest of the string. *)
Fixpoint takeHex (n : nat) (s : string) : option string :=
  match n with
  | O => Some s
  | S n' =>
      match s with
      | String c s' => if isHexDigit c then takeHex n' s' else None
      | EmptyString => None
      end
  end.

Definition dashThen (k : string -> bool) (r : option string) : bool :=
  match r with
  | Some (String "-"%char s) => k s
  | _ => false
  end.

(** The test of [ensureUUID]:
    [/^[0-9a-f]{8}-[0-9a-f]{4}-[0-9a-f]{4}-[0-9a-f]{4}-[0-9a-f]{12}$/i]. *)
Definition isUUID (s : string) : bool :=
  dashThen (fun s1 =>
  dashThen (fun s2 =>
  dashThen (fun s3 =>
  dashThen (fun s4 =>
    match takeHex 12 s4 with
    | Some EmptyString => true
    | _ => false
    end) (takeHex 4 s3)) (takeHex 4 s2)) (takeHex 4 s1)) (takeHex 8 s).

(* ===================================================================== *)
(** * Data model                                                          *)
(* ===================================================================== *)

(** [interface CryptoPrice] of service.ts: one row of the ranked list. *)
Module CryptoPrice.
Record t : Type := mk {
  id : string;
  symbol : string;
  name : string;
  current_price : float;
  market_cap : float;
  market_cap_rank : float;
  price_change_percentage_24h : float;
  price_change_percentage_7d : option float;
  price_change_percentage_30d : option float;
  high_24h : float;
  low_24h : float;
  last_updated : string
}.
End CryptoPrice.

(** What [response.json()] can deliver.  The code casts it to the expected type
    without a check ([data as T]); [PCoins] is a JSON array of coin rows,
    [POther] any other JSON value (a detail record, an error object, ...). *)
Inductive Payload : Type :=
  | PCoins (coins : list CryptoPrice.t)
  | POther.

(** One slot of the module-level [cache] object: [{ data, timestamp }]. *)
Module CacheEntry.
Record t : Type := mk { data : Payload; timestamp : Z }.
End CacheEntry.

(** [interface PortfolioItem] of portfolio.ts. *)
Module PortfolioItem.
Record t : Type := mk {
  coinId : string;
  symbol : string;
  name : string;
  quantity : float;
  purchasePrice : float;
  purchaseDate : Z
}.
End PortfolioItem.

(** [interface PortfolioContent], the [content] of a stored memory, taken as
    the object it is when this code wrote it (a [content] kept as JSON text is
    parsed to the same object); [items] is [content.items || []].  A memory
    that is not a portfolio has another [action]. *)
Module Content.
Record t : Type := mk {
  action : string;
  userId : string;
  items : list PortfolioItem.t;
  lastUpdated : Z;
  text : string
}.
End Content.

(** The fields of a [Memory] of the hosting runtime that the code reads or
    writes. *)
Module Memory.
Record t : Type := mk {
  id : string;
  userId : string;
  roomId : string;
  agentId : string;
  content : Content.t;
  createdAt : Z
}.
End Memory.

(** [IAgentRuntime]: the agent's id; its [databaseAdapter] is the [db] table of
    the [World]. *)
Module Runtime.
Record t : Type := mk { agentId : string }.
End Runtime.

(** An item as [getPortfolio] returns it:
    [PortfolioItem & { currentPrice?: number, priceChange24h?: number }].
    [live = Some (currentPrice, priceChange24h)] when the two optional fields
    are present. *)
Module ViewItem.
Record t : Type := mk {
  item : PortfolioItem.t;
  live : option (float * float)
}.
End ViewItem.

(** The result of [getPortfolio]. *)
Module PortfolioView.
Record t : Type := mk { items : list ViewItem.t; lastUpdated : Z }.
End PortfolioView.

(* ===================================================================== *)
(** * The outside world and the state of the process                      *)
(* ===================================================================== *)

Inductive Error : Type :=
  | NetworkError                 (* [fetch] rejected *)
  | ApiError (status : Z)        (* [throw new Error(`API error: ...`)] *)
  | SyntaxError                  (* [response.json()] rejected *)
  | TypeError.                   (* a property of a wrong-shaped value *)

(** The outcome of one [fetch(url)]: the promise rejects, or a response arrives
    with a status and a body that parses as JSON ([Some]) or not ([None]). *)
Inductive FetchOutcome : Type :=
  | FetchRejected
  | Response (status : Z) (body : option Payload).

(** [response.ok] *)
Definition ok (status : Z) : bool := (200 <=? status) && (status <=? 299).

(** The oracles: the [n]-th reading of the clock, the outcome of the [n]-th
    external call (which may depend on the URL), the [n]-th [uuidv4()]. *)
Record Env : Type := mkEnv {
  clock : nat -> Z;
  network : nat -> string -> FetchOutcome;
  uuidgen : nat -> string
}.

Record World : Type := mkWorld {
  cache : gmap string CacheEntry.t;  (* service.ts, [const cache] *)
  db : list Memory.t;                (* the table "memories" *)
  ticks : nat;                       (* readings of [Date.now()] so far *)
  fetched : list string;             (* URLs fetched so far, oldest first *)
  draws : nat                        (* calls of [uuidv4()] so far *)
}.

(** ** The monad of one asynchronous call *)

Inductive Res (A : Type) : Type :=
  | Ret (a : A)
  | Throw (e : Error).
Arguments Ret {A} a.
Arguments Throw {A} e.

Definition M (A : Type) : Type := World -> Res A * World.

Definition ret {A} (a : A) : M A := fun w => (Ret a, w).

Definition throw {A} (e : Error) : M A := fun w => (Throw e, w).

Definition bind {A B} (c : M A) (k : A -> M B) : M B :=
  fun w =>
    match c w with
    | (Ret a, w') => k a w'
    | (Throw e, w') => (Throw e, w')
    end.

(** [try { c } catch (error) { h error }] *)
Definition try_catch {A} (c : M A) (h : Error -> M A) : M A :=
  fun w =>
    match c w with
    | (Ret a, w') => (Ret a, w')
    | (Throw e, w') => h e w'
    end.

Declare Scope js_scope.
Delimit Scope js_scope with js.
Notation "'let*' x ':=' c 'in' k" := (bind c (fun x => k))
  (at level 10, x name, c at level 100, k at level 200) : js_scope.
Notation "'run' c 'in' k" := (bind c (fun _ => k))
  (at level 10, c at level 100, k at level 200) : js_scope.
Local Open Scope js_scope.

(* ===================================================================== *)
(** * service.ts                                                          *)
(* ===================================================================== *)

Definition API_BASE_URL : string := "https://api.coingecko.com/api/v3".

(** [const CACHE_DURATION = 60000; // 1 minute cache] *)
Definition CACHE_DURATION : Z := 60000.

Section Service.

Variable env : Env.

(** [Date.now()] *)
Definition dateNow : M Z :=
  fun w =>
    (Ret (clock env (ticks w)),
     mkWorld (cache w) (db w) (S (ticks w)) (fetched w) (draws w)).

(** [uuidv4()] *)
Definition uuidv4 : M string :=
  fun w =>
    (Ret (uuidgen env (draws w)),
     mkWorld (cache w) (db w) (ticks w) (fetched w) (S (draws w))).

(** [await fetch(url)]: one external call, recorded in [fetched]. *)
Definition fetch (url : string) : M (Z * option Payload) :=
  fun w =>
    let w' := mkWorld (cache w) (db w) (ticks w) (fetched w ++ [url]) (draws w) in
    match network env (length (fetched w)) url with
    | FetchRejected => (Throw NetworkError, w')
    | Response status body => (Ret (status, body), w')
    end.

(** [await response.json()] *)
Definition json (body : option Payload) : M Payload :=
  match body with
  | Some data => ret data
  | None => throw SyntaxError
  end.

(** [cache[endpoint]] *)
Definition cacheGet (endpoint : string) : M (option CacheEntry.t) :=
  fun w => (Ret (cache w !! endpoint), w).

(** [cache[endpoint] = entry] *)
Definition cacheSet (endpoint : string) (entry : CacheEntry.t) : M unit :=
  fun w =>
    (Ret tt,
     mkWorld (<[endpoint := entry]> (cache w)) (db w) (ticks w) (fetched w) (draws w)).

(** The test that guards the cached return:
    [cache[endpoint] && now - cache[endpoint].timestamp < CACHE_DURATION],
    with the payload it lets through. *)
Definition cacheHit (slot : option CacheEntry.t) (now : Z) : option Payload :=
  match slot with
  | Some entry =>
      if now - CacheEntry.timestamp entry <? CACHE_DURATION
      then Some (CacheEntry.data entry)
      else None
  | None => None
  end.

(** [async function apiRequest<T>(endpoint: string): Promise<T>] *)
Definition apiRequest (endpoint : string) : M Payload :=
  let url := API_BASE_URL ++ endpoint in
  let* now := dateNow in
  let* slot := cacheGet endpoint in
  match cacheHit slot now with
  | Some data => ret data
  | None =>
      try_catch
        (let* response := fetch url in
         if negb (ok (fst response)) then throw (ApiError (fst response))
         else
           let* data := json (snd response) in
           run cacheSet endpoint (CacheEntry.mk data now) in
           ret data)
        (fun error => throw error)
  end.

(** The endpoint of [getTopCryptos]. *)
Definition marketsEndpoint (count : N) (currency : string) : string :=
  "/coins/markets?vs_currency=" ++ currency
    ++ "&order=market_cap_desc&per_page=" ++ showN count
    ++ "&page=1&sparkline=false".

(** [export async function getTopCryptos(count = 10, currency = 'usd')] *)
Definition getTopCryptos (count : N) (currency : string) : M Payload :=
  apiRequest (marketsEndpoint count currency).

(** [topCoins.find(pred)]: a [TypeError] when the payload is no array. *)
Definition arrayFind (pred : CryptoPrice.t -> bool) (topCoins : Payload)
  : M (option CryptoPrice.t) :=
  match topCoins with
  | PCoins coins => ret (List.find pred coins)
  | POther => throw TypeError
  end.

(** The predicate of the search:
    [c => c.id === normalized || c.symbol.toLowerCase() === normalized]. *)
Definition matches (normalized : string) (c : CryptoPrice.t) : bool :=
  String.eqb (CryptoPrice.id c) normalized
  || String.eqb (toLowerCase (CryptoPrice.symbol c)) normalized.

(** [export async function getCryptoByIdOrSymbol(idOrSymbol, currency = 'usd')]
    The result [None] is the code's [null]. *)
Definition getCryptoByIdOrSymbol (idOrSymbol : string) (currency : string)
  : M (option CryptoPrice.t) :=
  let normalized := toLowerCase idOrSymbol in
  try_catch
    (let* topCoins := getTopCryptos 100 currency in
     let* coin := arrayFind (matches normalized) topCoins in
     ret coin)
    (fun error => ret None).

(* =================================================================== *)
(** ** portfolio.ts                                                     *)
(* =================================================================== *)

(** [function ensureUUID(value: string)]: the value when it has the shape of
    a UUID, a fresh [uuidv4()] otherwise. *)
Definition ensureUUID (value : string) : M string :=
  if isUUID value then ret value else uuidv4.

(** *** The database adapter of the hosting runtime

    The adapter belongs to the runtime, not to this plugin.  It is taken as
    an in-memory table: [getMemories] returns, in table order, at most
    [count] memories of the room and agent asked for; [updateMemory] replaces
    the memory that has the given id; [createMemory] appends. *)

Definition getMemories (roomId agentId : string) (count : nat)
  : M (list Memory.t) :=
  fun w =>
    (Ret (take count
            (List.filter
               (fun m => String.eqb (Memory.roomId m) roomId
                         && String.eqb (Memory.agentId m) agentId)
               (db w))),
     w).

Definition updateMemory (id : string) (memory : Memory.t) : M unit :=
  fun w =>
    (Ret tt,
     mkWorld (cache w)
       (List.map (fun m => if String.eqb (Memory.id m) id then memory else m) (db w))
       (ticks w) (fetched w) (draws w)).

Definition createMemory (memory : Memory.t) : M unit :=
  fun w =>
    (Ret tt,
     mkWorld (cache w) (db w ++ [memory]) (ticks w) (fetched w) (draws w)).

(** *** [portfolioService] *)

(** The agent id written into [getPortfolioMemory] and [savePortfolio]. *)
Definition PORTFOLIO_AGENT : string := "b850bc30-45f8-0041-a00a-83df46d8555d".

(** The callback of [memories.filter]:
    [content.action === "CRYPTO_PORTFOLIO" && content.userId === userId]. *)
Definition isPortfolioOf (userId : string) (memory : Memory.t) : bool :=
  String.eqb (Content.action (Memory.content memory)) "CRYPTO_PORTFOLIO"
  && String.eqb (Content.userId (Memory.content memory)) userId.

(** One step of [sortNewestFirst]: [m] stood before all of [l] in the
    array, so it stays before the memories that are not newer than it. *)
Fixpoint insertNewestFirst (m : Memory.t) (l : list Memory.t) : list Memory.t :=
  match l with
  | [] => [m]
  | x :: l' =>
      if Memory.createdAt x <=? Memory.createdAt m
      then m :: x :: l'
      else x :: insertNewestFirst m l'
  end.

(** [.sort((a, b) => b.createdAt - a.createdAt)]; [Array.prototype.sort] is
    stable. *)
Definition sortNewestFirst (l : list Memory.t) : list Memory.t :=
  List.fold_right insertNewestFirst [] l.

(** [async getPortfolioMemory(runtime, userId): Promise<Memory | null>] *)
Definition getPortfolioMemory (runtime : Runtime.t) (userId : string)
  : M (option Memory.t) :=
  try_catch
    (let* roomId := ensureUUID userId in
     let* memories := getMemories roomId PORTFOLIO_AGENT 100 in
     let portfolioMemories :=
       sortNewestFirst (List.filter (isPortfolioOf userId) memories) in
     ret (head portfolioMemories))
    (fun error => ret None).

(** [async savePortfolio(runtime, userId, portfolio): Promise<void>] *)
Definition savePortfolio (runtime : Runtime.t) (userId : string)
    (portfolio : list PortfolioItem.t) : M unit :=
  try_catch
    (let* roomId := ensureUUID userId in
     let* existingMemory := getPortfolioMemory runtime userId in
     match existingMemory with
     | Some existingMemory =>
         let content := Memory.content existingMemory in
         let* now := dateNow in
         let updatedMemory :=
           Memory.mk (Memory.id existingMemory) (Memory.userId existingMemory)
             (Memory.roomId existingMemory) (Memory.agentId existingMemory)
             (Content.mk (Content.action content) userId portfolio now
                (Content.text content))
             (Memory.createdAt existingMemory) in
         updateMemory (Memory.id existingMemory) updatedMemory
     | None =>
         let* fresh := uuidv4 in
         let* id := ensureUUID fresh in
         let* lastUpdated := dateNow in
         let* createdAt := dateNow in
         let portfolioMemory :=
           Memory.mk id PORTFOLIO_AGENT roomId (Runtime.agentId runtime)
             (Content.mk "CRYPTO_PORTFOLIO" userId portfolio lastUpdated "")
             createdAt in
         createMemory portfolioMemory
     end)
    (fun error => throw error).

(** [portfolio.findIndex(pred)]; [None] is the code's [-1]. *)
Fixpoint findIndex {A} (pred : A -> bool) (l : list A) : option nat :=
  match l with
  | [] => None
  | x :: l' => if pred x then Some O else option_map S (findIndex pred l')
  end.

(** [async addToPortfolio(runtime, userId, coinId, quantity, purchasePrice)]
    The result [None] is the code's [null]. *)
Definition addToPortfolio (runtime : Runtime.t) (userId coinId : string)
    (quantity purchasePrice : float) : M (option PortfolioItem.t) :=
  try_catch
    (let* coin := getCryptoByIdOrSymbol coinId "usd" in
     match coin with
     | None => ret None
     | Some coin =>
         let* portfolioMemory := getPortfolioMemory runtime userId in
         let portfolio :=
           match portfolioMemory with
           | Some memory => Content.items (Memory.content memory)
           | None => []
           end in
         let* purchaseDate := dateNow in
         let newItem :=
           PortfolioItem.mk (CryptoPrice.id coin)
             (toUpperCase (CryptoPrice.symbol coin)) (CryptoPrice.name coin)
             quantity purchasePrice purchaseDate in
         match findIndex
                 (fun item => String.eqb (PortfolioItem.coinId item) (CryptoPrice.id coin))
                 portfolio with
         | Some existingItemIndex =>
             match portfolio !! existingItemIndex with
             | None => throw TypeError
             | Some existingItem =>
                 let totalQuantity :=
                   (PortfolioItem.quantity existingItem + quantity)%float in
                 let totalValue :=
                   (PortfolioItem.quantity existingItem
                      * PortfolioItem.purchasePrice existingItem
                    + quantity * purchasePrice)%float in
                 let newAveragePrice := (totalValue / totalQuantity)%float in
                 let* latest := dateNow in
                 let portfolio' :=
                   <[existingItemIndex :=
                       PortfolioItem.mk (PortfolioItem.coinId existingItem)
                         (PortfolioItem.symbol existingItem)
                         (PortfolioItem.name existingItem)
                         totalQuantity newAveragePrice latest]> portfolio in
                 run savePortfolio runtime userId portfolio' in
                 ret (portfolio' !! existingItemIndex)
             end
         | None =>
             let portfolio' := (portfolio ++ [newItem])%list in
             run savePortfolio runtime userId portfolio' in
             ret (Some newItem)
         end
     end)
    (fun error => ret None).

(** The body of the loop of [getPortfolio] for the item at index [i]: the
    live price is attached when the coin resolves, the item is kept as it is
    otherwise. *)
Definition updatePrice (i : nat) (item : ViewItem.t) (items : list ViewItem.t)
  : M (list ViewItem.t) :=
  try_catch
    (let* coin := getCryptoByIdOrSymbol
                    (PortfolioItem.coinId (ViewItem.item item)) "usd" in
     match coin with
     | Some coin =>
         ret (<[i := ViewItem.mk (ViewItem.item item)
                       (Some (CryptoPrice.current_price coin,
                              CryptoPrice.price_change_percentage_24h coin))]>
                items)
     | None => ret items
     end)
    (fun error => ret items).

(** [for (let i = 0; i < result.items.length; i++) { ... }], entered at index
    [i] with [n] iterations allowed; the loop also ends when [i] leaves the
    array. *)
Fixpoint updatePrices (n i : nat) (items : list ViewItem.t) : M (list ViewItem.t) :=
  match n with
  | O => ret items
  | S n' =>
      match items !! i with
      | None => ret items
      | Some item =>
          let* items' := updatePrice i item items in
          updatePrices n' (S i) items'
      end
  end.

(** [async getPortfolio(runtime, userId)]; [None] is the code's [null]. *)
Definition getPortfolio (runtime : Runtime.t) (userId : string)
  : M (option PortfolioView.t) :=
  try_catch
    (let* portfolioMemory := getPortfolioMemory runtime userId in
     match portfolioMemory with
     | None => ret None
     | Some memory =>
         let portfolio := Content.items (Memory.content memory) in
         if Nat.eqb (length portfolio) 0 then ret None
         else
           let* lastUpdated := dateNow in
           let items := List.map (fun item => ViewItem.mk item None) portfolio in
           let* items' := updatePrices (length items) 0 items in
           ret (Some (PortfolioView.mk items' lastUpdated))
     end)
    (fun error => ret None).

(** [async hasPortfolio(runtime, userId): Promise<boolean>] *)
Definition hasPortfolio (runtime : Runtime.t) (userId : string) : M bool :=
  try_catch
    (let* portfolioMemory := getPortfolioMemory runtime userId in
     match portfolioMemory with
     | None => ret false
     | Some memory =>
         ret (Nat.ltb 0 (length (Content.items (Memory.content memory))))
     end)
    (fun error => ret false).

End Service.

(* ===================================================================== *)
(** * actions/cryptoAction.ts                                             *)
(* ===================================================================== *)

(** [haystack.includes(needle)] *)
Fixpoint includes (haystack needle : string) : bool :=
  String.prefix needle haystack
  || match haystack with
     | String _ rest => includes rest needle
     | EmptyString => false
     end.

(** The [cryptoMap] of [extractCoinPurchaseData], in the order of its
    entries. *)
Definition cryptoMap : list (string * string) :=
  [ ("bitcoin", "bitcoin"); ("btc", "bitcoin");
    ("ethereum", "ethereum"); ("eth", "ethereum");
    ("binance", "binancecoin"); ("bnb", "binancecoin");
    ("xrp", "ripple"); ("ripple", "ripple");
    ("cardano", "cardano"); ("ada", "cardano");
    ("solana", "solana"); ("sol", "solana");
    ("dogecoin", "dogecoin"); ("doge", "dogecoin");
    ("polkadot", "polkadot"); ("dot", "polkadot") ].

(** The first loop of [extractCoinPurchaseData]: the id of the first entry
    whose term occurs in the text, the empty string when there is none. *)
Fixpoint detectCoin (entries : list (string * string)) (normalizedText : string)
  : string :=
  match entries with
  | [] => ""
  | (term, id) :: rest =>
      if includes normalizedText term then id else detectCoin rest normalizedText
  end.

(** The message a handler receives: [message.userId] and
    [message.content.text || ""]. *)
Module Message.
Record t : Type := mk { userId : string; text : string }.
End Message.

(** The locals of one turn of the loop of the VIEW_PORTFOLIO handler. *)
Module Valuation.
Record t : Type := mk {
  invested : float;
  currentValue : float;
  profitLoss : float;
  profitLossPercent : float
}.
End Valuation.

(** What the VIEW_PORTFOLIO handler has computed when it renders its answer:
    one line per item that carries a live price, and the summary. *)
Module Report.
Record t : Type := mk {
  lines : list (ViewItem.t * Valuation.t);
  totalInvested : float;
  totalCurrentValue : float;
  totalProfitLoss : float;
  totalProfitLossPercent : float;
  lastUpdated : Z
}.
End Report.

(** The texts handed to [callback], by kind; rendering is left out. *)
Inductive Reply : Type :=
  | AskForPurchaseDetails
  | CoinNotFound (coinId : string)
  | PurchaseAdded (item : PortfolioItem.t) (totalSpent : float)
  | AddFailed
  | NoPortfolioYet
  | PortfolioUnavailable
  | PortfolioReport (report : Report.t)
  | ViewFailed.

(** [const invested = ...; const currentValue = ...; const profitLoss = ...;
     const profitLossPercent = ...] *)
Definition valuate (item : PortfolioItem.t) (currentPrice : float) : Valuation.t :=
  let invested :=
    (PortfolioItem.quantity item * PortfolioItem.purchasePrice item)%float in
  let currentValue := (PortfolioItem.quantity item * currentPrice)%float in
  let profitLoss := (currentValue - invested)%float in
  let profitLossPercent := (profitLoss / invested * 100)%float in
  Valuation.mk invested currentValue profitLoss profitLossPercent.

(** The running state of the loop: [totalInvested], [totalCurrentValue] and
    the lines appended to [response]. *)
Module Running.
Record t : Type := mk {
  totalInvested : float;
  totalCurrentValue : float;
  lines : list (ViewItem.t * Valuation.t)
}.
End Running.

(** One turn of [for (const item of portfolio.items)]; an item without
    [currentPrice] is skipped ([continue]). *)
Definition reportStep (acc : Running.t) (item : ViewItem.t) : Running.t :=
  match ViewItem.live item with
  | None => acc
  | Some (currentPrice, _) =>
      let v := valuate (ViewItem.item item) currentPrice in
      Running.mk
        (Running.totalInvested acc + Valuation.invested v)%float
        (Running.totalCurrentValue acc + Valuation.currentValue v)%float
        (Running.lines acc ++ [(item, v)])
  end.

(** The loop and the summary that follows it. *)
Definition buildReport (portfolio : PortfolioView.t) : Report.t :=
  let acc :=
    List.fold_left reportStep (PortfolioView.items portfolio)
      (Running.mk 0%float 0%float []) in
  let totalProfitLoss :=
    (Running.totalCurrentValue acc - Running.totalInvested acc)%float in
  let totalProfitLossPercent :=
    (totalProfitLoss / Running.totalInvested acc * 100)%float in
  Report.mk (Running.lines acc) (Running.totalInvested acc)
    (Running.totalCurrentValue acc) totalProfitLoss totalProfitLossPercent
    (PortfolioView.lastUpdated portfolio).

Section Actions.

Variable env : Env.

(** The regular-expression tests of the handlers are inputs of the model:
    whether one of [portfolioAddPatterns] / [portfolioViewPatterns] matches
    the lower-cased text, and the number that [parseFloat] reads from the
    first capture of the first matching pattern of [quantityPatterns] /
    [pricePatterns] ([None] when no pattern matches). *)
Variable addPatternsMatch : string -> bool.
Variable viewPatternsMatch : string -> bool.
Variable quantityPatternsMatch : string -> option float.
Variable pricePatternsMatch : string -> option float.


(** [function detectPortfolioRequest(text: string): boolean] *)
Definition detectPortfolioRequest (text : string) : bool :=
  viewPatternsMatch (toLowerCase text).

(** [function extractCoinPurchaseData(text)]; [None] is the code's [null]. *)
Definition extractCoinPurchaseData (text : string)
  : option (string * float * float) :=
  let normalizedText := toLowerCase text in
  let coinId := detectCoin cryptoMap normalizedText in
  if String.eqb coinId "" then None
  else
    let quantity :=
      match quantityPatternsMatch normalizedText with
      | Some q => q
      | None => 0%float
      end in
    if PrimFloat.leb quantity 0 then None
    else
      let price :=
        match pricePatternsMatch normalizedText with
        | Some p => p
        | None => 0%float
        end in
      if PrimFloat.leb price 0 then None
      else Some (coinId, quantity, price).


(** [viewPortfolioAction.handler] *)
Definition viewPortfolioHandler (runtime : Runtime.t) (message : Message.t)
  : M (bool * option Reply) :=
  try_catch
    (let input := Message.text message in
     if negb (detectPortfolioRequest input) then ret (false, None)
     else
       let* has := hasPortfolio env runtime (Message.userId message) in
       if negb has then ret (true, Some NoPortfolioYet)
       else
         let* portfolio := getPortfolio env runtime (Message.userId message) in
         match portfolio with
         | None => ret (false, Some PortfolioUnavailable)
         | Some portfolio =>
             if Nat.eqb (length (PortfolioView.items portfolio)) 0
             then ret (false, Some PortfolioUnavailable)
             else ret (true, Some (PortfolioReport (buildReport portfolio)))
         end)
    (fun error => ret (false, Some ViewFailed)).

End Actions.

(* ===================================================================== *)
(** * service.ts, continued: the detail record                            *)
(* ===================================================================== *)

(** The endpoint of [getCryptoDetails]. *)
Definition detailsEndpoint (id : string) : string :=
  "/coins/" ++ id
    ++ "?localization=false&tickers=false&market_data=true&community_data=false&developer_data=false".

(** [try { return c } catch (error) { h error }] in an [async] function, where
    [c] is a call of another [async] function that is returned without
    [await]: the [try] block has been left when the returned promise settles,
    so a rejection of [c] passes to the caller and [h] never runs. *)
Definition try_return {A} (c : M A) (h : Error -> M A) : M A := c.

(** [export async function getCryptoDetails(id: string):
    Promise<CryptoDetails | null>]; [Some data] is the detail record as the
    price source sent it, [None] the [null] of the [catch]. *)
Definition getCryptoDetails (env : Env) (id : string) : M (option Payload) :=
  try_return
    (let* data := apiRequest env (detailsEndpoint id) in ret (Some data))
    (fun error => ret None).

(* ===================================================================== *)
(** * Mentions of coins in a message, and the provider                    *)
(* ===================================================================== *)

(** [\w], without the [u] flag: an ASCII letter, a digit or the underscore. *)
Definition isWordChar (c : ascii) : bool :=
  let n := nat_of_ascii c in
  ((Nat.leb 48 n && Nat.leb n 57)
   || (Nat.leb 65 n && Nat.leb n 90)
   || (Nat.leb 97 n && Nat.leb n 122)
   || Nat.eqb n 95)%bool.

(** [text.split(/\W+/)], read from left to right: [word] is the piece being
    read, [inSeparator] tells that the last character belonged to a run of
    separators.  A text that begins or ends with a separator gives an empty
    first or last piece, the empty text gives one empty piece. *)
Fixpoint splitFrom (inSeparator : bool) (word : string) (text : string)
  : list string :=
  match text with
  | EmptyString => [word]
  | String c rest =>
      if isWordChar c then splitFrom false (word ++ String c EmptyString) rest
      else if inSeparator then splitFrom true word rest
      else word :: splitFrom true EmptyString rest
  end.

Definition splitNonWord (text : string) : list string :=
  splitFrom false EmptyString text.

(** The [cryptoMap] of [extractCryptoMentions] (the same in the action, the
    provider and the evaluator). *)
Definition mentionMap : list (string * string) :=
  [ ("bitcoin", "bitcoin"); ("btc", "bitcoin");
    ("ethereum", "ethereum"); ("eth", "ethereum");
    ("binance", "binancecoin"); ("bnb", "binancecoin");
    ("xrp", "ripple"); ("ripple", "ripple");
    ("cardano", "cardano"); ("ada", "cardano");
    ("solana", "solana"); ("sol", "solana");
    ("dogecoin", "dogecoin"); ("doge", "dogecoin");
    ("polkadot", "polkadot"); ("dot", "polkadot");
    ("polygon", "polygon"); ("matic", "polygon");
    ("litecoin", "litecoin"); ("ltc", "litecoin");
    ("tether", "tether"); ("usdt", "tether");
    ("shiba", "shiba-inu"); ("shib", "shiba-inu") ].

(** What [cryptoMap[word]] can be when it is truthy: the id written in the
    map, or, the map being a plain object, a member it inherits from
    [Object.prototype]. *)
Inductive Mention : Type :=
  | Coin (id : string)
  | Inherited (key : string).

Fixpoint ownEntry (entries : list (string * string)) (word : string)
  : option string :=
  match entries with
  | [] => None
  | (term, id) :: rest =>
      if String.eqb term word then Some id else ownEntry rest word
  end.

(** The members of [Object.prototype] whose names are words in lower case;
    the other names ([toString], [valueOf], [hasOwnProperty], ...) have a
    capital and cannot be a piece of a lower-cased text. *)
Definition inheritedKeys : list string := ["constructor"; "__proto__"].

(** [cryptoMap[word]], [None] when it is [undefined]. *)
Definition lookupMention (word : string) : option Mention :=
  match ownEntry mentionMap word with
  | Some id => Some (Coin id)
  | None =>
      if existsb (String.eqb word) inheritedKeys then Some (Inherited word)
      else None
  end.

Definition sameMention (a b : Mention) : bool :=
  match a, b with
  | Coin x, Coin y => String.eqb x y
  | Inherited x, Inherited y => String.eqb x y
  | _, _ => false
  end.

(** [detectedCoins.add(value)] on a [Set], kept in insertion order. *)
Definition setAdd (value : Mention) (detectedCoins : list Mention) : list Mention :=
  if existsb (sameMention value) detectedCoins then detectedCoins
  else detectedCoins ++ [value].

(** [function extractCryptoMentions(text: string): string[]] *)
Definition extractCryptoMentions (text : string) : list Mention :=
  let normalizedText := toLowerCase text in
  let words := splitNonWord normalizedText in
  List.fold_left
    (fun detectedCoins word =>
       match lookupMention word with
       | Some value => setAdd value detectedCoins
       | None => detectedCoins
       end)
    words [].

(** [getCryptoByIdOrSymbol(coinId)] for a detected mention: an inherited
    member is no string, and [idOrSymbol.toLowerCase()], which stands before
    the [try] of the resolver, throws. *)
Definition resolveMention (env : Env) (coinId : Mention) : M (option CryptoPrice.t) :=
  match coinId with
  | Coin id => getCryptoByIdOrSymbol env id "usd"
  | Inherited _ => throw TypeError
  end.

(** ['up' | 'down'] *)
Inductive Direction : Type := Up | Down.

(** One element of [coinData] in the provider; the three texts made with
    [toFixed(2)] are kept as the numbers they render. *)
Module CoinDatum.
Record t : Type := mk {
  name : string;
  symbol : string;
  price : float;
  change_24h : float;
  market_cap : float;
  direction : Direction;
  change_abs : float
}.
End CoinDatum.

Inductive ContextType : Type := Informational | DirectRequest | Recommendation.

(** [state.cryptoData] as the provider writes it. *)
Module CryptoStateData.
Record t : Type := mk {
  coins : list CoinDatum.t;
  contextType : ContextType;
  timestamp : Z
}.
End CryptoStateData.

(** What the provider returns: the coins its text lists and whether the
    advice paragraph is appended; [None] is the empty string. *)
Module ContextInfo.
Record t : Type := mk { coins : list CoinDatum.t; advice : bool }.
End ContextInfo.

(** The object pushed on [coinData] for a resolved coin. *)
Definition coinDatum (coin : CryptoPrice.t) : CoinDatum.t :=
  CoinDatum.mk (CryptoPrice.name coin) (toUpperCase (CryptoPrice.symbol coin))
    (CryptoPrice.current_price coin)
    (CryptoPrice.price_change_percentage_24h coin)
    (CryptoPrice.market_cap coin / 1000000000)%float
    (if PrimFloat.leb 0 (CryptoPrice.price_change_percentage_24h coin)
     then Up else Down)
    (PrimFloat.abs (CryptoPrice.price_change_percentage_24h coin)).

(** One turn of the loop of the provider:
    [try { const coin = await getCryptoByIdOrSymbol(coinId);
           if (coin) { coinData.push({...}) } } catch (error) { }] *)
Definition collectOne (env : Env) (coinId : Mention) (coinData : list CoinDatum.t)
  : M (list CoinDatum.t) :=
  try_catch
    (let* coin := resolveMention env coinId in
     match coin with
     | Some coin => ret (coinData ++ [coinDatum coin])%list
     | None => ret coinData
     end)
    (fun error => ret coinData).

(** [for (const coinId of detectedCoins.slice(0, 3)) { ... }] *)
Fixpoint collectCoinData (env : Env) (coinIds : list Mention)
    (coinData : list CoinDatum.t) : M (list CoinDatum.t) :=
  match coinIds with
  | [] => ret coinData
  | coinId :: rest =>
      let* coinData' := collectOne env coinId coinData in
      collectCoinData env rest coinData'
  end.

Section Provider.

Variable env : Env.

(** The two regular-expression tests of the provider, on the lower-cased
    text: [detectDirectCryptoRequest] and [detectRecommendationRequest]. *)
Variable directPatternMatch : string -> bool.
Variable recommendationPatternMatch : string -> bool.

(** [cryptoProvider.get(runtime, message, state?)].  [state] is [None] when
    no state object is passed, else the [cryptoData] it holds; the result is
    the returned context and the state afterwards. *)
Definition cryptoProviderGet (runtime : Runtime.t) (message : Message.t)
    (state : option (option CryptoStateData.t))
  : M (option ContextInfo.t * option (option CryptoStateData.t)) :=
  try_catch
    (let text := Message.text message in
     if String.eqb (Message.userId message) (Runtime.agentId runtime)
     then ret (None, state)
     else
       let detectedCoins := extractCryptoMentions text in
       if Nat.eqb (length detectedCoins) 0 then ret (None, state)
       else
         let* coinData := collectCoinData env (take 3 detectedCoins) [] in
         if Nat.eqb (length coinData) 0 then ret (None, state)
         else
           let isRecommendationRequest :=
             recommendationPatternMatch (toLowerCase text) in
           let* state' :=
             match state with
             | Some _ =>
                 let isDirectRequest := directPatternMatch (toLowerCase text) in
                 let contextType :=
                   if isRecommendationRequest then Recommendation
                   else if isDirectRequest then DirectRequest
                   else Informational in
                 let* timestamp := dateNow env in
                 ret (Some (Some (CryptoStateData.mk coinData contextType timestamp)))
             | None => ret None
             end in
           ret (Some (ContextInfo.mk coinData isRecommendationRequest), state'))
    (fun error => ret (None, state)).

End Provider.

(* ===================================================================== *)
(** * actions/cryptoAction.ts, continued: the CRYPTO_PRICE handler         *)
(* ===================================================================== *)

(** How a payload that is no list of coins fares as a detail record: it is
    falsy ([null], [false], [0], the empty string), or an object that
    [formatCryptoDetailedSummary] can render, or a value on which that
    function throws for want of [market_data], [description], ... *)
Inductive DetailShape : Type := Falsy | Renderable | Unrenderable.

(** The texts the CRYPTO_PRICE handler hands to [callback], by kind. *)
Inductive PriceReply : Type :=
  | TopList (count : N) (coins : list CryptoPrice.t)
  | TopUnavailable
  | TopFailed
  | Recommendation_ (coin : CoinDatum.t)
  | Mentioned (coin : CoinDatum.t)
  | UnknownCoin (coinId : Mention)
  | Detailed (details : Payload)
  | Summary (coin : CryptoPrice.t)
  | DetailsFailed
  | GenericHelp
  | PriceFailed.

Section PriceAction.

Variable env : Env.

(** The regular-expression test of the handler is an input of the model:
    [Some count] when [/top\s+(\d+)\s+cryptocurrencies/i] or
    [/top\s+(\d+)\s+crypto/i] matches the text, [count] being what
    [parseInt] reads from the digits after the first "top" (a natural number,
    exact below 2^53). *)
Variable topPatternMatch : string -> option N.

(** A payload that is no list of coins, taken for one: either the test
    [!topCoins || topCoins.length === 0] holds of it, or [topCoins.forEach]
    throws. *)
Variable otherIsEmptyLike : bool.

(** The shape of a payload that is no list, as a detail record. *)
Variable otherShape : DetailShape.

Definition detailShape (details : Payload) : DetailShape :=
  match details with
  | PCoins _ => Unrenderable   (* an array: truthy, without [market_data] *)
  | POther => otherShape
  end.

(** [state.cryptoData.coins[0]], then a property of it: a [TypeError] when the
    array is empty. *)
Definition firstCoin (coins : list CoinDatum.t) : M CoinDatum.t :=
  match coins with
  | coin :: _ => ret coin
  | [] => throw TypeError
  end.

(** The "top N" branch. *)
Definition answerTop (count : N) : M (bool * option PriceReply) :=
  try_catch
    (let* topCoins := getTopCryptos env count "usd" in
     match topCoins with
     | PCoins [] => ret (false, Some TopUnavailable)
     | PCoins coins => ret (true, Some (TopList count coins))
     | POther =>
         if otherIsEmptyLike then ret (false, Some TopUnavailable)
         else throw TypeError
     end)
    (fun error => ret (false, Some TopFailed)).

(** The branch of a direct request about the first mentioned coin. *)
Definition answerDirect (coinId : Mention) : M (bool * option PriceReply) :=
  try_catch
    (let* coin := resolveMention env coinId in
     match coin with
     | None => ret (false, Some (UnknownCoin coinId))
     | Some coin =>
         let* details := getCryptoDetails env (CryptoPrice.id coin) in
         match details with
         | Some data =>
             match detailShape data with
             | Falsy => ret (true, Some (Summary coin))
             | Renderable => ret (true, Some (Detailed data))
             | Unrenderable => throw TypeError
             end
         | None => ret (true, Some (Summary coin))
         end
     end)
    (fun error => ret (false, Some DetailsFailed)).

(** The branch of a mention without data of the provider. *)
Definition answerMention (coinId : Mention) : M (bool * option PriceReply) :=
  try_catch
    (let* coin := resolveMention env coinId in
     match coin with
     | None => ret (false, Some (UnknownCoin coinId))
     | Some coin => ret (true, Some (Summary coin))
     end)
    (fun error => ret (true, Some GenericHelp)).

(** What follows the branches on [state.cryptoData]. *)
Definition answerWithoutState (input : string) : M (bool * option PriceReply) :=
  match extractCryptoMentions input with
  | coinId :: _ => answerMention coinId
  | [] => ret (false, None)
  end.

(** [cryptoAction.handler]: the boolean it returns and what it hands to
    [callback], if anything.  [state] is the [cryptoData] of the state object
    the handler is given, [None] when that object has none. *)
Definition cryptoActionHandler (message : Message.t)
    (state : option CryptoStateData.t) : M (bool * option PriceReply) :=
  try_catch
    (let input := Message.text message in
     match topPatternMatch input with
     | Some count => answerTop count
     | None =>
         match state with
         | Some cryptoData =>
             match CryptoStateData.contextType cryptoData with
             | Recommendation =>
                 let* coin := firstCoin (CryptoStateData.coins cryptoData) in
                 ret (true, Some (Recommendation_ coin))
             | DirectRequest =>
                 match extractCryptoMentions input with
                 | coinId :: _ => answerDirect coinId
                 | [] => answerWithoutState input
                 end
             | Informational =>
                 let* coin := firstCoin (CryptoStateData.coins cryptoData) in
                 ret (true, Some (Mentioned coin))
             end
         | None => answerWithoutState input
         end
     end)
    (fun error => ret (false, Some PriceFailed)).

End PriceAction.

(* ===================================================================== *)
(** * Vocabulary of the properties                                        *)
(* ===================================================================== *)

(** The world after one reading of the clock. *)
Definition ticked (w : World) : World :=
  mkWorld (cache w) (db w) (S (ticks w)) (fetched w) (draws w).

(** The world after one reading of the clock and one external call. *)
Definition called (url : string) (w : World) : World :=
  mkWorld (cache w) (db w) (S (ticks w)) (fetched w ++ [url]) (draws w).

(** The world after a successful refresh of [endpoint]. *)
Definition refreshed (endpoint : string) (data : Payload) (now : Z) (w : World)
  : World :=
  mkWorld (<[endpoint := CacheEntry.mk data now]> (cache w)) (db w) (S (ticks w))
    (fetched w ++ [API_BASE_URL ++ endpoint]) (draws w).

(** The external call failed: the promise of [fetch] rejected, the status is
    not a success status, or the body does not parse. *)
Definition failed (outcome : FetchOutcome) : Prop :=
  match outcome with
  | FetchRejected => True
  | Response status body => ok status = false \/ body = None
  end.

(** [identifier] names the asset [c]: it is its id, or its symbol in lower
    case.  Equality of strings, nothing weaker. *)
Definition Matches (identifier : string) (c : CryptoPrice.t) : Prop :=
  CryptoPrice.id c = identifier \/ toLowerCase (CryptoPrice.symbol c) = identifier.

(** [r] is the first asset of the list that [identifier] names, [None] when it
    names none. *)
Inductive FirstMatch (identifier : string)
  : list CryptoPrice.t -> option CryptoPrice.t -> Prop :=
  | FirstMatch_none : FirstMatch identifier [] None
  | FirstMatch_here c rest :
      Matches identifier c -> FirstMatch identifier (c :: rest) (Some c)
  | FirstMatch_later c rest r :
      ~ Matches identifier c ->
      FirstMatch identifier rest r ->
      FirstMatch identifier (c :: rest) r.

(** The resolver in the words of the specification: the identifier is put in
    lower case and trimmed, then looked up among the top 100 assets. *)
Definition resolveAsSpecified (env : Env) (identifier : string)
  : M (option CryptoPrice.t) :=
  let normalized := trim (toLowerCase identifier) in
  try_catch
    (let* topCoins := getTopCryptos env 100 "usd" in
     arrayFind (matches normalized) topCoins)
    (fun error => ret None).

(** The positions the ledger sees for an owner: the [portfolio] that
    [addToPortfolio] and [getPortfolio] read from the owner's memory. *)
Definition holdings (env : Env) (runtime : Runtime.t) (userId : string)
    (w : World) : list PortfolioItem.t :=
  match fst (getPortfolioMemory env runtime userId w) with
  | Ret (Some memory) => Content.items (Memory.content memory)
  | _ => []
  end.

(** The [lastUpdated] stored with the owner's portfolio, if there is one. *)
Definition storedLastUpdated (env : Env) (runtime : Runtime.t) (userId : string)
    (w : World) : option Z :=
  match fst (getPortfolioMemory env runtime userId w) with
  | Ret (Some memory) => Some (Content.lastUpdated (Memory.content memory))
  | _ => None
  end.

(** The live quotes of a list of assets, asked one after the other from the
    world [w]: [None] where the resolver gives nothing. *)
Fixpoint quotes (env : Env) (coinIds : list string) (w : World)
  : list (option CryptoPrice.t) :=
  match coinIds with
  | [] => []
  | coinId :: rest =>
      let result := getCryptoByIdOrSymbol env coinId "usd" w in
      match fst result with
      | Ret coin => coin :: quotes env rest (snd result)
      | Throw _ => None :: quotes env rest (snd result)
      end
  end.

(** The live fields a quote gives to an item. *)
Definition liveFields (quote : option CryptoPrice.t) : option (float * float) :=
  match quote with
  | Some coin =>
      Some (CryptoPrice.current_price coin, CryptoPrice.price_change_percentage_24h coin)
  | None => None
  end.

(** The line of the report for an item, when it carries a live price. *)
Definition reportLine (item : ViewItem.t) : option (ViewItem.t * Valuation.t) :=
  match ViewItem.live item with
  | Some (currentPrice, _) => Some (item, valuate (ViewItem.item item) currentPrice)
  | None => None
  end.

(** Left-to-right sum, from zero, as the handler accumulates its totals. *)
Definition total (xs : list float) : float :=
  List.fold_left PrimFloat.add xs 0%float.

(** The world after one call of [uuidv4()]. *)
Definition drawn (w : World) : World :=
  mkWorld (cache w) (db w) (ticks w) (fetched w) (S (draws w)).

(** The room [ensureUUID] gives to a user in the world [w], and the world it
    leaves. *)
Definition roomOf (env : Env) (userId : string) (w : World) : string :=
  if isUUID userId then userId else uuidgen env (draws w).

Definition afterRoom (userId : string) (w : World) : World :=
  if isUUID userId then w else drawn w.

(** What [getMemories] selects: the room and the agent. *)
Definition inRoom (roomId agentId : string) (m : Memory.t) : bool :=
  String.eqb (Memory.roomId m) roomId && String.eqb (Memory.agentId m) agentId.

(** The memory [getPortfolioMemory] picks from a table. *)
Definition newestPortfolio (userId roomId : string) (table : list Memory.t)
  : option Memory.t :=
  head (sortNewestFirst
          (List.filter (isPortfolioOf userId)
             (take 100 (List.filter (inRoom roomId PORTFOLIO_AGENT) table)))).

(** The memory [savePortfolio] writes over [existingMemory]. *)
Definition rewritten (existingMemory : Memory.t) (userId : string)
    (portfolio : list PortfolioItem.t) (now : Z) : Memory.t :=
  Memory.mk (Memory.id existingMemory) (Memory.userId existingMemory)
    (Memory.roomId existingMemory) (Memory.agentId existingMemory)
    (Content.mk (Content.action (Memory.content existingMemory)) userId
       portfolio now (Content.text (Memory.content existingMemory)))
    (Memory.createdAt existingMemory).

(** The table after [updateMemory]. *)
Definition replaceById (id : string) (memory : Memory.t) (table : list Memory.t)
  : list Memory.t :=
  List.map (fun m => if String.eqb (Memory.id m) id then memory else m) table.

(** The position that results from merging a purchase into [existingItem]. *)
Definition mergedItem (existingItem : PortfolioItem.t) (quantity purchasePrice : float)
    (latest : Z) : PortfolioItem.t :=
  PortfolioItem.mk (PortfolioItem.coinId existingItem)
    (PortfolioItem.symbol existingItem) (PortfolioItem.name existingItem)
    (PortfolioItem.quantity existingItem + quantity)%float
    ((PortfolioItem.quantity existingItem * PortfolioItem.purchasePrice existingItem
      + quantity * purchasePrice)
     / (PortfolioItem.quantity existingItem + quantity))%float
    latest.

(** The item of the view after its quote has been asked. *)
Definition attach (item : ViewItem.t) (quote : option CryptoPrice.t) : ViewItem.t :=
  match quote with
  | Some coin => ViewItem.mk (ViewItem.item item) (liveFields (Some coin))
  | None => item
  end.

(** The world after the quotes of a list of assets have been asked. *)
Fixpoint quotesWorld (env : Env) (coinIds : list string) (w : World) : World :=
  match coinIds with
  | [] => w
  | coinId :: rest =>
      quotesWorld env rest (snd (getCryptoByIdOrSymbol env coinId "usd" w))
  end.

(** The asset an item of the view stands for. *)
Definition coinOf (item : ViewItem.t) : string :=
  PortfolioItem.coinId (ViewItem.item item).

(** A stored position as the view starts with it: no live fields yet. *)
Definition unpriced (item : PortfolioItem.t) : ViewItem.t := ViewItem.mk item None.

(** The readings of the clock numbered [lo] to [hi] lie within one window of
    the cache: none is [CACHE_DURATION] or more after an earlier one. *)
Definition steady (env : Env) (lo hi : nat) : Prop :=
  forall i j : nat,
    (lo <= i)%nat -> (i <= j)%nat -> (j <= hi)%nat ->
    clock env j - clock env i < CACHE_DURATION.

(** What every branch of the handler that asks the price source does: it
    returns with a reply, keeps the table and the generator of ids, and makes
    at most [calls] external calls. *)
Definition answers (calls : nat) (c : M (bool * option PriceReply)) (w : World)
  : Prop :=
  exists handled reply w',
    c w = (Ret (handled, Some reply), w')
    /\ db w' = db w /\ draws w' = draws w
    /\ (length (fetched w') <= length (fetched w) + calls)%nat.

(** The memories among which [getPortfolioMemory] chooses. *)
Definition candidates (userId roomId : string) (table : list Memory.t)
  : list Memory.t :=
  List.filter (isPortfolioOf userId)
    (take 100 (List.filter (inRoom roomId PORTFOLIO_AGENT) table)).

(** The memory [savePortfolio] creates for an owner who has none. *)
Definition created (runtime : Runtime.t) (userId roomId id : string)
    (portfolio : list PortfolioItem.t) (lastUpdated createdAt : Z) : Memory.t :=
  Memory.mk id PORTFOLIO_AGENT roomId (Runtime.agentId runtime)
    (Content.mk "CRYPTO_PORTFOLIO" userId portfolio lastUpdated "")
    createdAt.

(** The position [addToPortfolio] makes for a coin the owner does not hold. *)
Definition newPosition (coin : CryptoPrice.t) (quantity purchasePrice : float)
    (purchaseDate : Z) : PortfolioItem.t :=
  PortfolioItem.mk (CryptoPrice.id coin) (toUpperCase (CryptoPrice.symbol coin))
    (CryptoPrice.name coin) quantity purchasePrice purchaseDate.

(** The test of [addToPortfolio] for "the user already owns this coin". *)
Definition holdsCoin (coin : CryptoPrice.t) (item : PortfolioItem.t) : bool :=
  String.eqb (PortfolioItem.coinId item) (CryptoPrice.id coin).

(* ===================================================================== *)
(** * Concrete runs                                                       *)
(* ===================================================================== *)

(** A ranked list of two assets, a price source that always delivers it, a
    clock that advances one second per reading, and an owner whose id has the
    shape of a UUID. *)
Module Fixture.

Definition bitcoin : CryptoPrice.t :=
  CryptoPrice.mk "bitcoin" "btc" "Bitcoin" 150 1000000 1 2 None None 160 140
    "2025-01-01T00:00:00Z".

Definition ethereum : CryptoPrice.t :=
  CryptoPrice.mk "ethereum" "eth" "Ethereum" 50 500000 2 (-1) None None 60 40
    "2025-01-01T00:00:00Z".

Definition topCoins : Payload := PCoins [bitcoin; ethereum].

Definition seconds (n : nat) : Z := 1000 + 1000 * Z.of_nat n.

Definition freshId (n : nat) : string := "00000000-0000-4000-8000-000000000001".

(** Every external call succeeds. *)
Definition online : Env :=
  mkEnv seconds (fun _ _ => Response 200 (Some topCoins)) freshId.

(** Every external call is rejected. *)
Definition offline : Env :=
  mkEnv seconds (fun _ _ => FetchRejected) freshId.

(** Every external call is answered with status 429. *)
Definition throttled : Env :=
  mkEnv seconds (fun _ _ => Response 429 (Some POther)) freshId.

Definition owner : string := "11111111-1111-4111-8111-111111111111".

Definition runtime : Runtime.t := Runtime.mk PORTFOLIO_AGENT.

(** Empty cache, empty table. *)
Definition start : World := mkWorld ∅ [] 0 [] 0.

Definition markets : string := marketsEndpoint 100 "usd".

(** A cache whose entry for the ranked list is older than the window at every
    reading of [seconds] made below. *)
Definition stale : World :=
  mkWorld (<[markets := CacheEntry.mk (PCoins [ethereum]) (-100000)]> ∅)
    [] 0 [] 0.

(** The owner after a first purchase of 1 bitcoin at 100. *)
Definition funded : World :=
  snd (addToPortfolio online runtime owner "btc" 1 100 start).

(** The owner after a single purchase of 2 bitcoin at 100. *)
Definition twoBitcoin : World :=
  snd (addToPortfolio online runtime owner "bitcoin" 2 100 start).

(** The owner after 2 bitcoin at 100 and then 10 ethereum at 40. *)
Definition twoAssets : World :=
  snd (addToPortfolio online runtime owner "ethereum" 10 40 twoBitcoin).

(** A later day on which every reading of the clock is 100 seconds after the
    one before, so that no cache entry is ever fresh, and on which only the
    second external call of the process is answered. *)
Definition degraded : Env :=
  mkEnv (fun n => 1000000 + 100000 * Z.of_nat n)
    (fun n _ => match n with
                | 1%nat => Response 200 (Some topCoins)
                | _ => FetchRejected
                end)
    freshId.

(** A message of the owner. *)
Definition says (text : string) : Message.t := Message.mk owner text.

End Fixture.

(** Further runs: a second owner, an owner whose id is no UUID, a runtime
    whose agent is not the one written in portfolio.ts, and a generator of
    ids that gives a new id at each call. *)
Module Scenario.

Definition ids (n : nat) : string :=
  match n with
  | O => "00000000-0000-4000-8000-000000000001"
  | 1%nat => "00000000-0000-4000-8000-000000000002"
  | 2%nat => "00000000-0000-4000-8000-000000000003"
  | _ => "00000000-0000-4000-8000-000000000004"
  end.

Definition online : Env :=
  mkEnv Fixture.seconds (fun _ _ => Response 200 (Some Fixture.topCoins)) ids.

Definition offline : Env :=
  mkEnv Fixture.seconds (fun _ _ => FetchRejected) ids.

Definition other : string := "22222222-2222-4222-8222-222222222222".

Definition alice : string := "alice".

Definition foreign : Runtime.t :=
  Runtime.mk "33333333-3333-4333-8333-333333333333".

(** The two owners after one purchase each: 1 bitcoin at 100 for the first,
    10 ethereum at 40 for the second. *)
Definition shared : World :=
  snd (addToPortfolio online Fixture.runtime other "eth" 10 40
         (snd (addToPortfolio online Fixture.runtime Fixture.owner "btc" 1 100
                 Fixture.start))).

(** A price source that answers the first call and rejects the others. *)
Definition listingOnly : Env :=
  mkEnv Fixture.seconds
    (fun n _ =>
       match n with
       | O => Response 200 (Some Fixture.topCoins)
       | _ => FetchRejected
       end)
    ids.

(** A message of somebody who is not the agent. *)
Definition says (text : string) : Message.t := Message.mk other text.

(** The table of the owner of 2 bitcoin and 10 ethereum, in a process that has
    just started: nothing cached, nothing fetched. *)
Definition cold : World := mkWorld ∅ (db Fixture.twoAssets) 0 [] 0.

(** A cache that holds the list of the ten top assets and nothing else. *)
Definition topTen : World :=
  snd (getTopCryptos online 10 "usd" Fixture.start).

End Scenario.

(* ===================================================================== *)
(** * The market data cache                                               *)
(* ===================================================================== *)

Section CacheFacts.

Variable env : Env.

(** [apiRequest], case by case. *)
Lemma apiRequest_cases (endpoint : string) (w : World) :
  apiRequest env endpoint w =
    let now := clock env (ticks w) in
    let url := API_BASE_URL ++ endpoint in
    match cacheHit (cache w !! endpoint) now with
    | Some data => (Ret data, ticked w)
    | None =>
        match network env (length (fetched w)) url with
        | FetchRejected => (Throw NetworkError, called url w)
        | Response status body =>
            if ok status then
              match body with
              | Some data => (Ret data, refreshed endpoint data now w)
              | None => (Throw SyntaxError, called url w)
              end
            else (Throw (ApiError status), called url w)
        end
    end.
Proof.
  unfold apiRequest, bind, dateNow, cacheGet; cbn.
  destruct (cacheHit (cache w !! endpoint) (clock env (ticks w))); [reflexivity|].
  unfold try_catch, bind, fetch; cbn.
  destruct (network env (length (fetched w)) (API_BASE_URL ++ endpoint))
    as [|status body]; [reflexivity|].
  cbn. destruct (ok status); cbn; [|reflexivity].
  destruct body; reflexivity.
Qed.

Lemma cacheHit_fresh (entry : CacheEntry.t) (now : Z) :
  now - CacheEntry.timestamp entry < CACHE_DURATION ->
  cacheHit (Some entry) now = Some (CacheEntry.data entry).
Proof.
  intros H. unfold cacheHit.
  destruct (Z.ltb_spec (now - CacheEntry.timestamp entry) CACHE_DURATION);
    [reflexivity | lia].
Qed.

Lemma cacheHit_stale (entry : CacheEntry.t) (now : Z) :
  CACHE_DURATION <= now - CacheEntry.timestamp entry ->
  cacheHit (Some entry) now = None.
Proof.
  intros H. unfold cacheHit.
  destruct (Z.ltb_spec (now - CacheEntry.timestamp entry) CACHE_DURATION);
    [lia | reflexivity].
Qed.

(** A hit: the cached payload, no external call, the cache as it was. *)
Lemma apiRequest_hit (endpoint : string) (w : World) (entry : CacheEntry.t) :
  cache w !! endpoint = Some entry ->
  clock env (ticks w) - CacheEntry.timestamp entry < CACHE_DURATION ->
  apiRequest env endpoint w = (Ret (CacheEntry.data entry), ticked w).
Proof.
  intros Hslot Hfresh. rewrite apiRequest_cases; cbn zeta.
  rewrite Hslot, (cacheHit_fresh _ _ Hfresh). reflexivity.
Qed.

(** No usable entry: one external call, whatever its outcome. *)
Lemma apiRequest_miss_calls (endpoint : string) (w : World) :
  cacheHit (cache w !! endpoint) (clock env (ticks w)) = None ->
  fetched (snd (apiRequest env endpoint w))
    = (fetched w ++ [(API_BASE_URL ++ endpoint)%string])%list.
Proof.
  intros Hmiss. rewrite apiRequest_cases; cbn zeta. rewrite Hmiss.
  destruct (network env _ _) as [|status body]; [reflexivity|].
  destruct (ok status); [|reflexivity]. destruct body; reflexivity.
Qed.

(** No usable entry and a successful call: the payload is returned and
    stored under the time read at the start of the request. *)
Lemma apiRequest_miss_stores (endpoint : string) (w : World) (data : Payload) :
  cacheHit (cache w !! endpoint) (clock env (ticks w)) = None ->
  fst (apiRequest env endpoint w) = Ret data ->
  apiRequest env endpoint w
    = (Ret data, refreshed endpoint data (clock env (ticks w)) w).
Proof.
  intros Hmiss. rewrite apiRequest_cases; cbn zeta. rewrite Hmiss.
  destruct (network env _ _) as [|status body]; [discriminate|].
  destruct (ok status); [|discriminate].
  destruct body; [|discriminate].
  cbn. intros [= ->]. reflexivity.
Qed.

(** A failed call throws and leaves the cache as it was. *)
Lemma apiRequest_failed (endpoint : string) (w : World) :
  cacheHit (cache w !! endpoint) (clock env (ticks w)) = None ->
  failed (network env (length (fetched w)) (API_BASE_URL ++ endpoint)) ->
  exists error,
    apiRequest env endpoint w
      = (Throw error, called (API_BASE_URL ++ endpoint) w).
Proof.
  intros Hmiss Hfail. rewrite apiRequest_cases; cbn zeta. rewrite Hmiss.
  destruct (network env _ _) as [|status body]; cbn in Hfail.
  - eauto.
  - destruct (ok status) eqn:Hok.
    + destruct Hfail as [Hko | ->]; [discriminate | eauto].
    + eauto.
Qed.

(** Whatever happens, [apiRequest] touches neither the table nor the
    generator of ids, and reads the clock once. *)
Lemma apiRequest_frame (endpoint : string) (w : World) :
  let w' := snd (apiRequest env endpoint w) in
  db w' = db w /\ draws w' = draws w /\ ticks w' = S (ticks w).
Proof.
  rewrite apiRequest_cases; cbn zeta.
  destruct (cacheHit _ _); [now cbn|].
  destruct (network env _ _) as [|status body]; [now cbn|].
  destruct (ok status); [|now cbn]. destruct body; now cbn.
Qed.

(** C3. For every request key: a request whose entry is younger than the
    window of 60 seconds returns the cached payload, makes no external call
    and leaves the cache as it was; a request on a miss or on an entry of
    age 60 seconds or more makes exactly one external call, and when that
    call succeeds its payload is returned and stored under the current
    time; hence of two requests for the same key less than 60 seconds
    apart, the first of which had to call, the first makes one external call
    and the second none. *)
Theorem cache_freshness (endpoint : string) (w : World) :
  let now := clock env (ticks w) in
  let url := API_BASE_URL ++ endpoint in
  CACHE_DURATION = 60 * 1000
  /\ (forall entry,
      cache w !! endpoint = Some entry ->
      now - CacheEntry.timestamp entry < CACHE_DURATION ->
      exists w',
        apiRequest env endpoint w = (Ret (CacheEntry.data entry), w')
        /\ cache w' = cache w /\ fetched w' = fetched w /\ db w' = db w)
  /\ (cache w !! endpoint = None
       \/ (exists entry,
             cache w !! endpoint = Some entry
             /\ CACHE_DURATION <= now - CacheEntry.timestamp entry) ->
      fetched (snd (apiRequest env endpoint w)) = (fetched w ++ [url])%list
      /\ (forall status data,
             network env (length (fetched w)) url = Response status (Some data) ->
             ok status = true ->
             fst (apiRequest env endpoint w) = Ret data)
      /\ (forall data,
             fst (apiRequest env endpoint w) = Ret data ->
             cache (snd (apiRequest env endpoint w))
               = <[endpoint := CacheEntry.mk data now]> (cache w)))
  /\ (forall data w1 w2,
        cacheHit (cache w !! endpoint) now = None ->
        apiRequest env endpoint w = (Ret data, w1) ->
        cache w2 !! endpoint = cache w1 !! endpoint ->
        clock env (ticks w2) - now < CACHE_DURATION ->
        fetched w1 = (fetched w ++ [url])%list
        /\ exists w3,
            apiRequest env endpoint w2 = (Ret data, w3)
            /\ cache w3 = cache w2
            /\ fetched w3 = fetched w2).
Proof.
  intros now url. split; [reflexivity|]. split; [|split].
  - intros entry Hslot Hfresh.
    exists (ticked w). rewrite (apiRequest_hit _ _ _ Hslot Hfresh). auto.
  - intros Hmiss.
    assert (Hnone : cacheHit (cache w !! endpoint) now = None).
    { destruct Hmiss as [-> | (entry & -> & Hold)];
        [reflexivity | now apply cacheHit_stale]. }
    split; [now apply apiRequest_miss_calls|]. split.
    + intros status data Hnet Hok.
      rewrite apiRequest_cases; cbn zeta. fold now url.
      rewrite Hnone, Hnet, Hok. reflexivity.
    + intros data Hret.
      rewrite (apiRequest_miss_stores _ _ _ Hnone Hret). reflexivity.
  - intros data w1 w2 Hnone Hfirst Hsame Hsoon.
    assert (Hw1 : w1 = refreshed endpoint data now w).
    { pose proof (apiRequest_miss_stores endpoint w data Hnone) as H.
      rewrite Hfirst in H. specialize (H eq_refl).
      injection H as Hw. exact Hw. }
    assert (Hslot : cache w2 !! endpoint = Some (CacheEntry.mk data now)).
    { rewrite Hsame, Hw1. cbn. apply lookup_insert_eq. }
    split; [rewrite Hw1; reflexivity|].
    exists (ticked w2). rewrite (apiRequest_hit _ _ _ Hslot Hsoon). auto.
Qed.

(** C5. For every request key, when the request reaches the external call
    and that call fails (the promise rejects, the status is not a success
    status, or the body does not parse), the request ends in a thrown error,
    not in a payload, and the cache is exactly what it was: an old entry is
    neither evicted nor changed. *)
Theorem failed_call_keeps_cache (endpoint : string) (w : World) :
  cacheHit (cache w !! endpoint) (clock env (ticks w)) = None ->
  failed (network env (length (fetched w)) (API_BASE_URL ++ endpoint)) ->
  exists error w',
    apiRequest env endpoint w = (Throw error, w')
    /\ cache w' = cache w.
Proof.
  intros Hmiss Hfail.
  destruct (apiRequest_failed _ _ Hmiss Hfail) as [error Hrun].
  exists error, (called (API_BASE_URL ++ endpoint) w). auto.
Qed.

End CacheFacts.

(** The first request of a cold cache calls the price source and stores the
    list at time 1000; the request that follows is served from the cache. *)
Lemma cache_freshness_witness :
  let w1 := snd (apiRequest Fixture.online Fixture.markets Fixture.start) in
  fetched w1 = [(API_BASE_URL ++ Fixture.markets)%string]
  /\ cache w1 !! Fixture.markets = Some (CacheEntry.mk Fixture.topCoins 1000)
  /\ exists w2,
       apiRequest Fixture.online Fixture.markets w1 = (Ret Fixture.topCoins, w2)
       /\ fetched w2 = [(API_BASE_URL ++ Fixture.markets)%string].
Proof.
  destruct (cache_freshness Fixture.online Fixture.markets Fixture.start)
    as (_ & _ & Hmiss & Htwo).
  destruct Hmiss as (Hcalls & _ & Hstore); [left; reflexivity|].
  split; [exact Hcalls|]. split.
  - cbn zeta. rewrite (Hstore Fixture.topCoins eq_refl). apply lookup_insert_eq.
  - destruct (Htwo Fixture.topCoins
                (snd (apiRequest Fixture.online Fixture.markets Fixture.start))
                (snd (apiRequest Fixture.online Fixture.markets Fixture.start)))
      as (Hone & w3 & Hrun & _ & Hsame); try reflexivity.
    exists w3. split; [exact Hrun|]. rewrite Hsame. exact Hone.
Defined.

(** With the price source unreachable, or answering 429, a request over a
    stale entry throws and the stale entry stays. *)
Lemma failed_call_keeps_cache_witness :
  (exists w',
      apiRequest Fixture.offline Fixture.markets Fixture.stale
        = (Throw NetworkError, w')
      /\ cache w' !! Fixture.markets
          = Some (CacheEntry.mk (PCoins [Fixture.ethereum]) (-100000)))
  /\ (exists w',
        apiRequest Fixture.throttled Fixture.markets Fixture.stale
          = (Throw (ApiError 429), w')
        /\ cache w' !! Fixture.markets
            = Some (CacheEntry.mk (PCoins [Fixture.ethereum]) (-100000))).
Proof.
  split.
  - destruct (failed_call_keeps_cache Fixture.offline Fixture.markets Fixture.stale)
      as (error & w' & Hrun & Hcache); [reflexivity | exact I |].
    exists w'. rewrite Hcache. split; [|reflexivity].
    rewrite Hrun. f_equal.
    vm_compute in Hrun. injection Hrun as <- _. reflexivity.
  - destruct (failed_call_keeps_cache Fixture.throttled Fixture.markets Fixture.stale)
      as (error & w' & Hrun & Hcache); [reflexivity | left; reflexivity |].
    exists w'. rewrite Hcache. split; [|reflexivity].
    rewrite Hrun. f_equal.
    vm_compute in Hrun. injection Hrun as <- _. reflexivity.
Defined.

(* ===================================================================== *)
(** * The asset resolver                                                  *)
(* ===================================================================== *)

Lemma matches_Matches (identifier : string) (c : CryptoPrice.t) :
  matches identifier c = true <-> Matches identifier c.
Proof.
  unfold matches, Matches.
  rewrite orb_true_iff, !String.eqb_eq. reflexivity.
Qed.

Lemma find_FirstMatch (identifier : string) (coins : list CryptoPrice.t) :
  FirstMatch identifier coins (List.find (matches identifier) coins).
Proof.
  induction coins as [|c rest IH]; cbn.
  - constructor.
  - destruct (matches identifier c) eqn:Hc.
    + apply FirstMatch_here, matches_Matches, Hc.
    + apply FirstMatch_later; [|exact IH].
      rewrite <- matches_Matches, Hc. discriminate.
Qed.

Lemma find_no_match (identifier : string) (coins : list CryptoPrice.t) :
  Forall (fun c => ~ Matches identifier c) coins ->
  List.find (matches identifier) coins = None.
Proof.
  induction 1 as [|c rest Hc _ IH]; cbn; [reflexivity|].
  destruct (matches identifier c) eqn:Hm; [|exact IH].
  apply matches_Matches in Hm. contradiction.
Qed.

Section ResolverFacts.

Variable env : Env.

(** [getCryptoByIdOrSymbol], case by case on what the cache delivers. *)
Lemma getCryptoByIdOrSymbol_cases (idOrSymbol currency : string) (w : World) :
  getCryptoByIdOrSymbol env idOrSymbol currency w =
    let listing := apiRequest env (marketsEndpoint 100 currency) w in
    match fst listing with
    | Ret (PCoins coins) =>
        (Ret (List.find (matches (toLowerCase idOrSymbol)) coins), snd listing)
    | Ret POther => (Ret None, snd listing)
    | Throw _ => (Ret None, snd listing)
    end.
Proof.
  unfold getCryptoByIdOrSymbol, getTopCryptos, try_catch, bind; cbn zeta.
  destruct (apiRequest env (marketsEndpoint 100 currency) w) as [[[coins|]|e] w'];
    reflexivity.
Qed.

(** The resolver returns; it never throws. *)
Lemma getCryptoByIdOrSymbol_returns (idOrSymbol currency : string) (w : World) :
  exists r,
    getCryptoByIdOrSymbol env idOrSymbol currency w
      = (Ret r, snd (apiRequest env (marketsEndpoint 100 currency) w)).
Proof.
  rewrite getCryptoByIdOrSymbol_cases; cbn zeta.
  destruct (fst (apiRequest env (marketsEndpoint 100 currency) w))
    as [[coins|]|e]; eauto.
Qed.

(** The resolver reads the clock once and leaves the table and the generator
    of ids alone. *)
Lemma getCryptoByIdOrSymbol_frame (idOrSymbol currency : string) (w : World) :
  let w' := snd (getCryptoByIdOrSymbol env idOrSymbol currency w) in
  db w' = db w /\ draws w' = draws w /\ ticks w' = S (ticks w).
Proof.
  destruct (getCryptoByIdOrSymbol_returns idOrSymbol currency w) as [r ->].
  apply apiRequest_frame.
Qed.

(** C4, as the code has it. For every identifier, the resolver puts the
    identifier in lower case (it does not trim it), asks the cache for the 100
    top-ranked assets, and returns the first asset whose id equals the
    lower-cased identifier or whose lower-cased symbol equals it; when no asset
    of that list matches, or the list cannot be had, the result is null. *)
Theorem resolver_first_exact_match (identifier : string) (w : World) :
  let normalized := toLowerCase identifier in
  let listing :=
    apiRequest env
      "/coins/markets?vs_currency=usd&order=market_cap_desc&per_page=100&page=1&sparkline=false"
      w in
  exists r,
    getCryptoByIdOrSymbol env identifier "usd" w = (Ret r, snd listing)
    /\ match fst listing with
        | Ret (PCoins coins) => FirstMatch normalized coins r
        | _ => r = None
        end.
Proof.
  intros normalized listing.
  rewrite getCryptoByIdOrSymbol_cases; cbn zeta.
  change (marketsEndpoint 100 "usd") with
    "/coins/markets?vs_currency=usd&order=market_cap_desc&per_page=100&page=1&sparkline=false".
  fold listing.
  destruct (fst listing) as [[coins|]|e]; eexists; split; try reflexivity.
  apply find_FirstMatch.
Qed.

End ResolverFacts.

(** C4, as stated, fails. With bitcoin (symbol btc) in the ranked list, the
    identifier [" btc"] resolves to bitcoin once trimmed and lower-cased, but
    the code, which only lower-cases, finds nothing. *)
Lemma resolver_does_not_trim :
  fst (resolveAsSpecified Fixture.online " btc" Fixture.start)
    = Ret (Some Fixture.bitcoin)
  /\ fst (getCryptoByIdOrSymbol Fixture.online " btc" "usd" Fixture.start)
      = Ret None
  /\ fst (getCryptoByIdOrSymbol Fixture.online " btc" "usd" Fixture.start)
      <> fst (resolveAsSpecified Fixture.online " btc" Fixture.start).
Proof.
  repeat split; try (vm_compute; reflexivity).
  vm_compute. discriminate.
Qed.

(* ===================================================================== *)
(** * The portfolio ledger: reading and writing the owner's memory        *)
(* ===================================================================== *)

Section StoreFacts.

Variable env : Env.

Lemma ensureUUID_cases (value : string) (w : World) :
  ensureUUID env value w = (Ret (roomOf env value w), afterRoom value w).
Proof.
  unfold ensureUUID, roomOf, afterRoom. destruct (isUUID value); reflexivity.
Qed.

(** [getPortfolioMemory] returns, and what it returns is read off the table. *)
Lemma getPortfolioMemory_cases (runtime : Runtime.t) (userId : string) (w : World) :
  getPortfolioMemory env runtime userId w
    = (Ret (newestPortfolio userId (roomOf env userId w) (db w)),
       afterRoom userId w).
Proof.
  unfold getPortfolioMemory, try_catch, bind. rewrite ensureUUID_cases.
  unfold getMemories, newestPortfolio, inRoom, afterRoom.
  destruct (isUUID userId); reflexivity.
Qed.

Lemma afterRoom_frame (userId : string) (w : World) :
  db (afterRoom userId w) = db w
  /\ ticks (afterRoom userId w) = ticks w
  /\ cache (afterRoom userId w) = cache w
  /\ fetched (afterRoom userId w) = fetched w.
Proof. unfold afterRoom. destruct (isUUID userId); auto. Qed.

(** The positions an owner holds depend on the table and on the generator of
    ids only. *)
Lemma holdings_frame (runtime : Runtime.t) (userId : string) (w w' : World) :
  db w' = db w -> draws w' = draws w ->
  holdings env runtime userId w' = holdings env runtime userId w.
Proof.
  intros Hdb Hdraws. unfold holdings.
  rewrite !getPortfolioMemory_cases. cbn.
  unfold roomOf. rewrite Hdb, Hdraws. reflexivity.
Qed.

End StoreFacts.

(** ** The table under [updateMemory] *)

Section TableFacts.

Lemma insertNewestFirst_elem (m x : Memory.t) (l : list Memory.t) :
  x ∈ insertNewestFirst m l <-> x = m \/ x ∈ l.
Proof.
  induction l as [|y l IH]; cbn.
  - rewrite list_elem_of_singleton, elem_of_nil. tauto.
  - destruct (Memory.createdAt y <=? Memory.createdAt m).
    + rewrite elem_of_cons. reflexivity.
    + rewrite !elem_of_cons, IH. tauto.
Qed.

Lemma sortNewestFirst_elem (x : Memory.t) (l : list Memory.t) :
  x ∈ sortNewestFirst l <-> x ∈ l.
Proof.
  induction l as [|y l IH]; [reflexivity|].
  change (x ∈ insertNewestFirst y (sortNewestFirst l) <-> x ∈ y :: l).
  rewrite insertNewestFirst_elem, elem_of_cons, IH. reflexivity.
Qed.

Lemma elem_of_bool_filter {A} (pred : A -> bool) (x : A) (l : list A) :
  x ∈ List.filter pred l <-> x ∈ l /\ pred x = true.
Proof. rewrite !list_elem_of_In. apply filter_In. Qed.

(** The memory that is picked is in the table, in the room, and a portfolio of
    the user. *)
Lemma newestPortfolio_elem (userId roomId : string) (table : list Memory.t)
    (m : Memory.t) :
  newestPortfolio userId roomId table = Some m ->
  m ∈ table /\ inRoom roomId PORTFOLIO_AGENT m = true /\ isPortfolioOf userId m = true.
Proof.
  unfold newestPortfolio. intros Hhead.
  assert (Hin : m ∈ sortNewestFirst
                  (List.filter (isPortfolioOf userId)
                     (take 100 (List.filter (inRoom roomId PORTFOLIO_AGENT) table)))).
  { destruct (sortNewestFirst _) as [|y l]; [discriminate|].
    injection Hhead as ->. left. }
  apply sortNewestFirst_elem, elem_of_bool_filter in Hin as [Hin Hmine].
  apply elem_of_take in Hin as (j & Hin & _).
  apply list_elem_of_lookup_2, elem_of_bool_filter in Hin as [Hin Hroom]. auto.
Qed.

Variable g : Memory.t -> Memory.t.

Lemma filter_map_agree (pred : Memory.t -> bool) (l : list Memory.t) :
  Forall (fun x => pred (g x) = pred x) l ->
  List.filter pred (List.map g l) = List.map g (List.filter pred l).
Proof.
  induction 1 as [|x l Hx _ IH]; cbn; [reflexivity|].
  rewrite Hx, IH. destruct (pred x); reflexivity.
Qed.

Lemma Forall_bool_filter {A} (P : A -> Prop) (pred : A -> bool) (l : list A) :
  Forall P l -> Forall P (List.filter pred l).
Proof.
  rewrite !Forall_forall. intros H x Hx.
  apply elem_of_bool_filter in Hx as [Hx _]. auto.
Qed.

Lemma insertNewestFirst_map (m : Memory.t) (l : list Memory.t) :
  Memory.createdAt (g m) = Memory.createdAt m ->
  Forall (fun x => Memory.createdAt (g x) = Memory.createdAt x) l ->
  insertNewestFirst (g m) (List.map g l) = List.map g (insertNewestFirst m l).
Proof.
  intros Hm. induction 1 as [|x l Hx _ IH]; cbn; [reflexivity|].
  rewrite Hx, Hm, IH.
  destruct (Memory.createdAt x <=? Memory.createdAt m); reflexivity.
Qed.

Lemma sortNewestFirst_map (l : list Memory.t) :
  Forall (fun x => Memory.createdAt (g x) = Memory.createdAt x) l ->
  sortNewestFirst (List.map g l) = List.map g (sortNewestFirst l).
Proof.
  induction 1 as [|x l Hx Hl IH]; [reflexivity|].
  change (insertNewestFirst (g x) (sortNewestFirst (List.map g l))
          = List.map g (insertNewestFirst x (sortNewestFirst l))).
  rewrite IH. apply insertNewestFirst_map; [exact Hx|].
  rewrite Forall_forall in *. intros y Hy.
  apply Hl, sortNewestFirst_elem, Hy.
Qed.

(** A rewriting of the table that keeps room, agent, owner and creation time
    of every memory keeps the choice of [newestPortfolio], up to the
    rewriting. *)
Lemma newestPortfolio_map (userId roomId : string) (table : list Memory.t) :
  Forall (fun x => inRoom roomId PORTFOLIO_AGENT (g x) = inRoom roomId PORTFOLIO_AGENT x
                   /\ isPortfolioOf userId (g x) = isPortfolioOf userId x
                   /\ Memory.createdAt (g x) = Memory.createdAt x) table ->
  newestPortfolio userId roomId (List.map g table)
    = option_map g (newestPortfolio userId roomId table).
Proof.
  intros Hkeep. unfold newestPortfolio.
  rewrite filter_map_agree by (eapply Forall_impl; [exact Hkeep | cbn; tauto]).
  rewrite firstn_map.
  rewrite filter_map_agree.
  2:{ apply Forall_take, Forall_bool_filter.
      eapply Forall_impl; [exact Hkeep | cbn; tauto]. }
  rewrite sortNewestFirst_map.
  2:{ apply Forall_bool_filter, Forall_take, Forall_bool_filter.
      eapply Forall_impl; [exact Hkeep | cbn; tauto]. }
  destruct (sortNewestFirst _); reflexivity.
Qed.

End TableFacts.

Lemma NoDup_ids_same (table : list Memory.t) (x y : Memory.t) :
  NoDup (List.map Memory.id table) ->
  x ∈ table -> y ∈ table -> Memory.id x = Memory.id y -> x = y.
Proof.
  induction table as [|z table IH]; cbn; intros Hnd Hx Hy Hid.
  - inversion Hx.
  - apply NoDup_cons in Hnd as [Hz Hnd].
    assert (Hmem : forall u, u ∈ table -> Memory.id u ∈ List.map Memory.id table).
    { intros u Hu. apply list_elem_of_In, in_map, list_elem_of_In, Hu. }
    apply elem_of_cons in Hx as [-> | Hx]; apply elem_of_cons in Hy as [-> | Hy].
    + reflexivity.
    + exfalso. apply Hz. rewrite Hid. auto.
    + exfalso. apply Hz. rewrite <- Hid. auto.
    + auto.
Qed.

(** Writing over the memory that was picked: it is picked again, rewritten. *)
Lemma newestPortfolio_rewritten (userId roomId : string) (table : list Memory.t)
    (m : Memory.t) (portfolio : list PortfolioItem.t) (now : Z) :
  NoDup (List.map Memory.id table) ->
  newestPortfolio userId roomId table = Some m ->
  newestPortfolio userId roomId
    (replaceById (Memory.id m) (rewritten m userId portfolio now) table)
    = Some (rewritten m userId portfolio now).
Proof.
  intros Hnd Hpick.
  destruct (newestPortfolio_elem _ _ _ _ Hpick) as (Hin & Hroom & Hmine).
  unfold replaceById.
  rewrite newestPortfolio_map.
  - rewrite Hpick. cbn. rewrite String.eqb_refl. reflexivity.
  - apply Forall_forall. intros x Hx.
    destruct (String.eqb (Memory.id x) (Memory.id m)) eqn:Hid; [|auto].
    apply String.eqb_eq in Hid.
    assert (x = m) as -> by (eapply NoDup_ids_same; eauto).
    rewrite Hroom, Hmine. split; [exact Hroom|]. split; [|reflexivity].
    unfold isPortfolioOf in *. cbn.
    apply andb_true_iff in Hmine as [Haction _].
    rewrite Haction, String.eqb_refl. reflexivity.
Qed.

(* ===================================================================== *)
(** * The portfolio ledger: merging a purchase                            *)
(* ===================================================================== *)

Section LedgerFacts.

Variable env : Env.
Variable runtime : Runtime.t.

(** [savePortfolio] returns: the table of the model does not fail. *)
Lemma savePortfolio_returns (userId : string) (portfolio : list PortfolioItem.t)
    (w : World) :
  fst (savePortfolio env runtime userId portfolio w) = Ret tt.
Proof.
  unfold savePortfolio, try_catch, bind.
  rewrite ensureUUID_cases, getPortfolioMemory_cases.
  destruct (newestPortfolio _ _ _) as [m|]; cbn; [reflexivity|].
  rewrite ensureUUID_cases. reflexivity.
Qed.

(** [savePortfolio] for an owner whose id is a UUID and who has a memory: the
    memory is written over, with the time of the write as [lastUpdated]. *)
Lemma savePortfolio_rewrites (userId : string) (portfolio : list PortfolioItem.t)
    (w : World) (m : Memory.t) :
  isUUID userId = true ->
  newestPortfolio userId userId (db w) = Some m ->
  savePortfolio env runtime userId portfolio w
    = (Ret tt,
       mkWorld (cache w)
         (replaceById (Memory.id m)
            (rewritten m userId portfolio (clock env (ticks w))) (db w))
         (S (ticks w)) (fetched w) (draws w)).
Proof.
  intros Huuid Hpick.
  unfold savePortfolio, try_catch, bind.
  rewrite ensureUUID_cases, getPortfolioMemory_cases.
  unfold roomOf, afterRoom. rewrite Huuid. cbn.
  rewrite ?Huuid, Hpick. reflexivity.
Qed.

(** After that write the owner holds what was saved, stamped with the time
    of the write. *)
Lemma savePortfolio_read_back (userId : string) (portfolio : list PortfolioItem.t)
    (w : World) :
  isUUID userId = true ->
  NoDup (List.map Memory.id (db w)) ->
  storedLastUpdated env runtime userId w <> None ->
  let w' := snd (savePortfolio env runtime userId portfolio w) in
  holdings env runtime userId w' = portfolio
  /\ storedLastUpdated env runtime userId w' = Some (clock env (ticks w)).
Proof.
  intros Huuid Hnd Hsome.
  unfold storedLastUpdated in Hsome.
  rewrite getPortfolioMemory_cases in Hsome. cbn in Hsome.
  unfold roomOf in Hsome. rewrite Huuid in Hsome.
  destruct (newestPortfolio userId userId (db w)) as [m|] eqn:Hpick;
    [clear Hsome | contradiction].
  rewrite (savePortfolio_rewrites _ _ _ _ Huuid Hpick). cbn.
  unfold holdings, storedLastUpdated.
  rewrite !getPortfolioMemory_cases. cbn.
  unfold roomOf. rewrite Huuid. cbn.
  rewrite (newestPortfolio_rewritten _ _ _ _ portfolio (clock env (ticks w)) Hnd Hpick).
  cbn. auto.
Qed.

(** [addToPortfolio], case by case. *)
Lemma addToPortfolio_cases (userId coinId : string) (quantity purchasePrice : float)
    (w : World) :
  addToPortfolio env runtime userId coinId quantity purchasePrice w =
    let resolved := getCryptoByIdOrSymbol env coinId "usd" w in
    let w1 := snd resolved in
    match fst resolved with
    | Ret (Some coin) =>
        let portfolio := holdings env runtime userId w1 in
        let w2 := afterRoom userId w1 in
        let w3 := ticked w2 in
        match findIndex
                (fun item => String.eqb (PortfolioItem.coinId item) (CryptoPrice.id coin))
                portfolio with
        | Some i =>
            match portfolio !! i with
            | Some existingItem =>
                let merged :=
                  mergedItem existingItem quantity purchasePrice (clock env (ticks w3)) in
                let portfolio' := <[i := merged]> portfolio in
                (Ret (portfolio' !! i),
                 snd (savePortfolio env runtime userId portfolio' (ticked w3)))
            | None => (Ret None, w3)
            end
        | None =>
            let newItem :=
              PortfolioItem.mk (CryptoPrice.id coin)
                (toUpperCase (CryptoPrice.symbol coin)) (CryptoPrice.name coin)
                quantity purchasePrice (clock env (ticks w2)) in
            (Ret (Some newItem),
             snd (savePortfolio env runtime userId (portfolio ++ [newItem]) w3))
        end
    | _ => (Ret None, w1)
    end.
Proof.
  unfold addToPortfolio, try_catch, bind, holdings; cbn zeta.
  destruct (getCryptoByIdOrSymbol env coinId "usd" w) as [[[coin|]|e] w1];
    cbn; try reflexivity.
  rewrite !getPortfolioMemory_cases. cbn.
  destruct (findIndex _ _) as [i|].
  - destruct (_ !! i) as [existingItem|]; [|reflexivity].
    unfold mergedItem, ticked. cbn.
    match goal with
    | |- context [savePortfolio env runtime userId ?p ?w'] =>
        pose proof (savePortfolio_returns userId p w') as Hsave;
        destruct (savePortfolio env runtime userId p w') as [[[]|e] w4];
        [reflexivity | discriminate]
    end.
  - unfold ticked. cbn.
    match goal with
    | |- context [savePortfolio env runtime userId ?p ?w'] =>
        pose proof (savePortfolio_returns userId p w') as Hsave;
        destruct (savePortfolio env runtime userId p w') as [[[]|e] w4];
        [reflexivity | discriminate]
    end.
Qed.




(** C8. For every owner and every purchase whose asset does not resolve (the
    resolver gives null), the merge returns its failure value, null, and the
    table is what it was: nothing is written, the owner's stored portfolio is
    unchanged. *)
Theorem unresolved_asset_aborts_merge (userId coinId : string)
    (quantity purchasePrice : float) (w : World) :
  fst (getCryptoByIdOrSymbol env coinId "usd" w) = Ret None ->
  exists w',
    addToPortfolio env runtime userId coinId quantity purchasePrice w = (Ret None, w')
    /\ db w' = db w
    /\ holdings env runtime userId w' = holdings env runtime userId w.
Proof.
  intros Hnone.
  destruct (getCryptoByIdOrSymbol_frame env coinId "usd" w) as (Hdb & Hdraws & _).
  rewrite addToPortfolio_cases; cbn zeta. rewrite Hnone.
  eexists. split; [reflexivity|]. split; [exact Hdb|].
  apply holdings_frame; assumption.
Qed.

(** C10. The resolver never throws: for every identifier it returns.  It
    returns null both when the fetch of the ranked list fails and when no
    asset of the list matches, and in both cases a merge returns null as
    well, with the same value for an outage as for an unknown asset. *)
Theorem resolver_hides_outage :
  (forall identifier currency w,
      exists r w', getCryptoByIdOrSymbol env identifier currency w = (Ret r, w'))
  /\ (forall identifier currency w error,
        fst (apiRequest env (marketsEndpoint 100 currency) w) = Throw error ->
        fst (getCryptoByIdOrSymbol env identifier currency w) = Ret None)
  /\ (forall identifier currency w coins,
        fst (apiRequest env (marketsEndpoint 100 currency) w) = Ret (PCoins coins) ->
        Forall (fun c => ~ Matches (toLowerCase identifier) c) coins ->
        fst (getCryptoByIdOrSymbol env identifier currency w) = Ret None)
  /\ (forall userId coinId quantity purchasePrice w,
        fst (getCryptoByIdOrSymbol env coinId "usd" w) = Ret None ->
        fst (addToPortfolio env runtime userId coinId quantity purchasePrice w)
          = Ret None).
Proof.
  repeat split.
  - intros identifier currency w.
    destruct (getCryptoByIdOrSymbol_returns env identifier currency w) as [r Hr].
    eauto.
  - intros identifier currency w error Hthrow.
    rewrite getCryptoByIdOrSymbol_cases; cbn zeta. rewrite Hthrow. reflexivity.
  - intros identifier currency w coins Hlist Hnone.
    rewrite getCryptoByIdOrSymbol_cases; cbn zeta. rewrite Hlist. cbn.
    rewrite (find_no_match _ _ Hnone). reflexivity.
  - intros userId coinId quantity purchasePrice w Hnone.
    rewrite addToPortfolio_cases; cbn zeta. rewrite Hnone. reflexivity.
Qed.

End LedgerFacts.


(** Dogecoin is not in the ranked list: the merge gives null and the owner
    holds what was held before. *)
Lemma unresolved_asset_aborts_merge_witness :
  exists w',
    addToPortfolio Fixture.online Fixture.runtime Fixture.owner "dogecoin" 5 1
      Fixture.funded = (Ret None, w')
    /\ db w' = db Fixture.funded
    /\ holdings Fixture.online Fixture.runtime Fixture.owner w'
        = [PortfolioItem.mk "bitcoin" "BTC" "Bitcoin" 1 100 2000].
Proof.
  destruct (unresolved_asset_aborts_merge Fixture.online Fixture.runtime
              Fixture.owner "dogecoin" 5 1 Fixture.funded)
    as (w' & Hrun & Hdb & Hheld).
  - vm_compute. reflexivity.
  - exists w'. split; [exact Hrun|]. split; [exact Hdb|].
    rewrite Hheld. vm_compute. reflexivity.
Defined.

(** A purchase of bitcoin while the price source is down and a purchase of an
    unknown coin while it is up end the same way. *)
Lemma resolver_hides_outage_witness :
  fst (addToPortfolio Fixture.offline Fixture.runtime Fixture.owner "bitcoin"
         1 100 Fixture.start) = Ret None
  /\ fst (addToPortfolio Fixture.online Fixture.runtime Fixture.owner
            "not-a-real-coin-xyz" 1 100 Fixture.start) = Ret None.
Proof.
  split.
  - destruct (resolver_hides_outage Fixture.offline Fixture.runtime)
      as (_ & Hthrow & _ & Hmerge).
    apply Hmerge, (Hthrow _ _ _ NetworkError). vm_compute. reflexivity.
  - destruct (resolver_hides_outage Fixture.online Fixture.runtime)
      as (_ & _ & Hnone & Hmerge).
    apply Hmerge, (Hnone _ _ _ [Fixture.bitcoin; Fixture.ethereum]).
    + vm_compute. reflexivity.
    + repeat constructor; intros [H | H]; vm_compute in H; discriminate.
Defined.


Section PurchaseGate.

Variable env : Env.
Variable addPatternsMatch : string -> bool.
Variable quantityPatternsMatch : string -> option float.
Variable pricePatternsMatch : string -> option float.


End PurchaseGate.


(** C9, as stated, fails. The merge does set the stored [lastUpdated]: the
    owner's portfolio was stamped 3000 by the first purchase, and the second
    purchase stamps it 8000, the time of its own write. *)
Lemma merge_stamps_stored_lastUpdated :
  let before := Fixture.funded in
  let after :=
    snd (addToPortfolio Fixture.online Fixture.runtime Fixture.owner "bitcoin"
           3 140 Fixture.funded) in
  storedLastUpdated Fixture.online Fixture.runtime Fixture.owner before = Some 3000
  /\ storedLastUpdated Fixture.online Fixture.runtime Fixture.owner after = Some 8000
  /\ storedLastUpdated Fixture.online Fixture.runtime Fixture.owner after
      <> storedLastUpdated Fixture.online Fixture.runtime Fixture.owner before.
Proof.
  cbv zeta. repeat split; try (vm_compute; reflexivity).
  vm_compute. discriminate.
Qed.

(* ===================================================================== *)
(** * The portfolio ledger: valuation                                     *)
(* ===================================================================== *)

Section ValuationFacts.

Variable env : Env.

Lemma quotes_length (coinIds : list string) (w : World) :
  length (quotes env coinIds w) = length coinIds.
Proof.
  revert w. induction coinIds as [|coinId rest IH]; intros w; cbn; [reflexivity|].
  destruct (fst (getCryptoByIdOrSymbol env coinId "usd" w)); cbn; rewrite IH;
    reflexivity.
Qed.

(** One turn of the loop: the item at [i] gets its quote attached; a failed
    quote leaves the array as it is. *)
Lemma updatePrice_cases (i : nat) (item : ViewItem.t) (items : list ViewItem.t)
    (w : World) :
  items !! i = Some item ->
  updatePrice env i item items w =
    let asked := getCryptoByIdOrSymbol env (coinOf item) "usd" w in
    match fst asked with
    | Ret quote => (Ret (<[i := attach item quote]> items), snd asked)
    | Throw _ => (Ret items, snd asked)
    end.
Proof.
  intros Hitem. unfold updatePrice, try_catch, bind, coinOf; cbn zeta.
  destruct (getCryptoByIdOrSymbol env _ "usd" w) as [[[coin|]|e] w']; cbn;
    try reflexivity.
  rewrite (list_insert_id _ _ _ Hitem). reflexivity.
Qed.

(** The loop, from index [i] on: the items before [i] are kept, each item from
    [i] on gets the quote asked for it, in order. *)
Lemma updatePrices_run (n i : nat) (items : list ViewItem.t) (w : World) :
  (length items <= i + n)%nat ->
  updatePrices env n i items w =
    (Ret (take i items
          ++ zip_with attach (drop i items)
               (quotes env (List.map coinOf (drop i items)) w))%list,
     quotesWorld env (List.map coinOf (drop i items)) w).
Proof.
  revert i items w. induction n as [|n IH]; intros i items w Hfuel.
  - cbn. rewrite drop_ge, take_ge by lia. cbn. rewrite app_nil_r. reflexivity.
  - cbn. destruct (items !! i) as [item|] eqn:Hitem.
    + unfold bind. rewrite (updatePrice_cases _ _ _ _ Hitem); cbn zeta.
      pose proof (lookup_lt_Some _ _ _ Hitem) as Hlt.
      rewrite (drop_S _ _ _ Hitem). cbn.
      fold (coinOf item).
      destruct (getCryptoByIdOrSymbol_returns env (coinOf item) "usd" w)
        as [quote Hasked].
      rewrite Hasked. cbn.
      rewrite IH by (rewrite length_insert; lia).
      rewrite drop_insert_lt by lia.
      rewrite (take_S_r _ _ (attach item quote))
        by (apply list_lookup_insert_eq; exact Hlt).
      rewrite take_insert_ge by lia.
      rewrite <- app_assoc. reflexivity.
    + apply lookup_ge_None in Hitem.
      rewrite drop_ge, take_ge by lia. cbn. rewrite app_nil_r. reflexivity.
Qed.

(** [getPortfolio], case by case on what the owner holds. *)
Lemma getPortfolio_cases (runtime : Runtime.t) (userId : string) (w : World) :
  getPortfolio env runtime userId w =
    let stored := holdings env runtime userId w in
    let w1 := afterRoom userId w in
    match stored with
    | [] => (Ret None, w1)
    | _ :: _ =>
        let asked := quotes env (List.map PortfolioItem.coinId stored) (ticked w1) in
        (Ret (Some (PortfolioView.mk
                      (zip_with attach (List.map unpriced stored) asked)
                      (clock env (ticks w)))),
         quotesWorld env (List.map PortfolioItem.coinId stored) (ticked w1))
    end.
Proof.
  unfold getPortfolio, holdings, try_catch, bind.
  rewrite getPortfolioMemory_cases. cbn.
  destruct (newestPortfolio _ _ _) as [memory|]; [|reflexivity].
  destruct (Content.items (Memory.content memory)) as [|item rest] eqn:Hitems;
    [reflexivity|].
  cbn [length Nat.eqb].
  rewrite updatePrices_run by lia.
  destruct (afterRoom_frame userId w) as (_ & Hticks & _).
  rewrite <- Hticks, drop_0, take_0.
  rewrite List.map_map. reflexivity.
Qed.

Lemma attached_items (stored : list PortfolioItem.t) (asked : list (option CryptoPrice.t)) :
  length asked = length stored ->
  List.map ViewItem.item (zip_with attach (List.map unpriced stored) asked) = stored
  /\ List.map ViewItem.live (zip_with attach (List.map unpriced stored) asked)
      = List.map liveFields asked.
Proof.
  revert asked. induction stored as [|item rest IH]; intros [|quote asked] Hlen;
    try discriminate; cbn; [auto|].
  injection Hlen as Hlen. destruct (IH asked Hlen) as [-> ->].
  destruct quote; auto.
Qed.

(** The loop of the report: the lines are those of the priced items, the two
    totals are what was there plus the values of those lines, added from left
    to right. *)
Lemma report_loop (items : list ViewItem.t) (acc : Running.t) :
  List.fold_left reportStep items acc =
    let lines := omap reportLine items in
    Running.mk
      (List.fold_left PrimFloat.add
         (List.map (fun line => Valuation.invested (snd line)) lines)
         (Running.totalInvested acc))
      (List.fold_left PrimFloat.add
         (List.map (fun line => Valuation.currentValue (snd line)) lines)
         (Running.totalCurrentValue acc))
      (Running.lines acc ++ lines).
Proof.
  revert acc. induction items as [|item items IH]; intros acc; cbn.
  - rewrite app_nil_r. destruct acc; reflexivity.
  - rewrite IH. unfold reportStep, reportLine.
    destruct (ViewItem.live item) as [[currentPrice change]|]; cbn.
    + rewrite <- app_assoc. reflexivity.
    + reflexivity.
Qed.

Lemma buildReport_lines (portfolio : PortfolioView.t) :
  let report := buildReport portfolio in
  Report.lines report = omap reportLine (PortfolioView.items portfolio)
  /\ Report.totalInvested report
      = total (List.map (fun line => Valuation.invested (snd line))
                 (Report.lines report))
  /\ Report.totalCurrentValue report
      = total (List.map (fun line => Valuation.currentValue (snd line))
                 (Report.lines report))
  /\ Report.totalProfitLoss report
      = (Report.totalCurrentValue report - Report.totalInvested report)%float.
Proof.
  unfold buildReport. rewrite report_loop. cbn. auto.
Qed.

(** C7. For every owner who holds positions, whatever the price source does,
    [getPortfolio] returns a portfolio with every stored position, in order;
    a position carries the live price fields exactly when the quote asked for
    it came back, and none when it failed; and the report built from that
    portfolio has one line per position with a live price, its totals
    (invested, current value, profit or loss) being sums over those lines
    only. *)
Theorem partial_degradation (runtime : Runtime.t) (userId : string) (w : World) :
  let stored := holdings env runtime userId w in
  let asked :=
    quotes env (List.map PortfolioItem.coinId stored) (ticked (afterRoom userId w)) in
  stored <> [] ->
  exists portfolio w',
    getPortfolio env runtime userId w = (Ret (Some portfolio), w')
    /\ List.map ViewItem.item (PortfolioView.items portfolio) = stored
    /\ List.map ViewItem.live (PortfolioView.items portfolio)
        = List.map liveFields asked
    /\ Report.lines (buildReport portfolio)
        = omap reportLine (PortfolioView.items portfolio)
    /\ Report.totalInvested (buildReport portfolio)
        = total (List.map (fun line => Valuation.invested (snd line))
                   (Report.lines (buildReport portfolio)))
    /\ Report.totalCurrentValue (buildReport portfolio)
        = total (List.map (fun line => Valuation.currentValue (snd line))
                   (Report.lines (buildReport portfolio)))
    /\ Report.totalProfitLoss (buildReport portfolio)
        = (Report.totalCurrentValue (buildReport portfolio)
           - Report.totalInvested (buildReport portfolio))%float.
Proof.
  intros stored asked Hheld.
  rewrite getPortfolio_cases; cbn zeta. fold stored. fold asked.
  destruct stored as [|item rest] eqn:Hstored; [contradiction|].
  eexists _, _. split; [reflexivity|].
  destruct (attached_items (item :: rest) asked) as [Hitems Hlive].
  { unfold asked. rewrite quotes_length, length_map. reflexivity. }
  cbn [PortfolioView.items].
  split; [exact Hitems|]. split; [exact Hlive|].
  apply buildReport_lines.
Qed.

(** C9, as the code has it. The [lastUpdated] of the portfolio that a
    successful valuation returns is the time read by that valuation, whatever
    is stored.  A stored [lastUpdated] exists as well and is set at mutation
    time: when an owner, whose id is a UUID, has a portfolio in a table with
    distinct ids, saving it stamps the stored [lastUpdated] with the time of
    the write. *)
Theorem lastUpdated_is_valuation_time (runtime : Runtime.t) (userId : string) :
  (forall w portfolio w',
      getPortfolio env runtime userId w = (Ret (Some portfolio), w') ->
      PortfolioView.lastUpdated portfolio = clock env (ticks w))
  /\ (forall w items,
        isUUID userId = true ->
        NoDup (List.map Memory.id (db w)) ->
        storedLastUpdated env runtime userId w <> None ->
        storedLastUpdated env runtime userId
          (snd (savePortfolio env runtime userId items w))
          = Some (clock env (ticks w))).
Proof.
  split.
  - intros w portfolio w'. rewrite getPortfolio_cases; cbn zeta.
    destruct (holdings env runtime userId w); [discriminate|].
    intros [= <- _]. reflexivity.
  - intros w items Huuid Hnd Hsome.
    apply savePortfolio_read_back; assumption.
Qed.

End ValuationFacts.

(** The example of the specification: the bitcoin quote comes back, the
    ethereum quote fails; both positions are returned, bitcoin alone carries a
    price, and the totals count bitcoin alone. *)
Lemma partial_degradation_witness :
  exists portfolio w',
    getPortfolio Fixture.degraded Fixture.runtime Fixture.owner Fixture.twoAssets
      = (Ret (Some portfolio), w')
    /\ List.map ViewItem.item (PortfolioView.items portfolio)
        = [PortfolioItem.mk "bitcoin" "BTC" "Bitcoin" 2 100 2000;
           PortfolioItem.mk "ethereum" "ETH" "Ethereum" 10 40 6000]
    /\ List.map ViewItem.live (PortfolioView.items portfolio)
        = [Some (150%float, 2%float); None]
    /\ Report.totalInvested (buildReport portfolio) = 200%float
    /\ Report.totalCurrentValue (buildReport portfolio) = 300%float
    /\ Report.totalProfitLoss (buildReport portfolio) = 100%float.
Proof.
  destruct (partial_degradation Fixture.degraded Fixture.runtime Fixture.owner
              Fixture.twoAssets)
    as (portfolio & w' & Hrun & Hitems & Hlive & _).
  - vm_compute. discriminate.
  - exists portfolio, w'. split; [exact Hrun|].
    split; [rewrite Hitems; vm_compute; reflexivity|].
    split; [rewrite Hlive; vm_compute; reflexivity|].
    vm_compute in Hrun. injection Hrun as <- _.
    repeat split; vm_compute; reflexivity.
Defined.

(** The owner's portfolio, stamped 3000 in the table, is valued at the fifth
    reading of the clock: the valuation says 5000; and saving it then stamps
    the table with 5000. *)
Lemma lastUpdated_is_valuation_time_witness :
  (exists portfolio,
      fst (getPortfolio Fixture.online Fixture.runtime Fixture.owner
             Fixture.funded)
        = Ret (Some portfolio)
      /\ PortfolioView.lastUpdated portfolio = 5000)
  /\ storedLastUpdated Fixture.online Fixture.runtime Fixture.owner
        (snd (savePortfolio Fixture.online Fixture.runtime Fixture.owner []
                Fixture.funded))
      = Some 5000.
Proof.
  destruct (lastUpdated_is_valuation_time Fixture.online Fixture.runtime Fixture.owner)
    as [Hread Hsave].
  split.
  - destruct (getPortfolio Fixture.online Fixture.runtime Fixture.owner
                Fixture.funded) as [r w'] eqn:Hrun.
    assert (Hshape : exists portfolio, r = Ret (Some portfolio)).
    { vm_compute in Hrun. injection Hrun as <- _. eauto. }
    destruct Hshape as [portfolio ->].
    exists portfolio. split; [reflexivity|].
    rewrite (Hread _ _ _ Hrun). reflexivity.
  - rewrite Hsave; [reflexivity | reflexivity | | vm_compute; discriminate].
    vm_compute. repeat constructor. intros H; inversion H.
Defined.

(* ===================================================================== *)
(** * The VIEW_PORTFOLIO handler                                          *)
(* ===================================================================== *)

Section ViewFacts.

Variable env : Env.
Variable viewPatternsMatch : string -> bool.

Lemma hasPortfolio_cases (runtime : Runtime.t) (userId : string) (w : World) :
  hasPortfolio env runtime userId w
    = (Ret (Nat.ltb 0 (length (holdings env runtime userId w))), afterRoom userId w).
Proof.
  unfold hasPortfolio, holdings, try_catch, bind.
  rewrite getPortfolioMemory_cases. cbn.
  destruct (newestPortfolio _ _ _); reflexivity.
Qed.

(** The handler, for a request to view, of an owner whose id is a UUID and who
    holds something: it answers with the report of what [getPortfolio]
    returns. *)
Lemma viewPortfolioHandler_reports (runtime : Runtime.t) (message : Message.t)
    (w : World) :
  viewPatternsMatch (toLowerCase (Message.text message)) = true ->
  isUUID (Message.userId message) = true ->
  holdings env runtime (Message.userId message) w <> [] ->
  exists portfolio w',
    getPortfolio env runtime (Message.userId message) w = (Ret (Some portfolio), w')
    /\ viewPortfolioHandler env viewPatternsMatch runtime message w
        = (Ret (true, Some (PortfolioReport (buildReport portfolio))), w').
Proof.
  intros Hview Huuid Hheld.
  pose proof (getPortfolio_cases env runtime (Message.userId message) w) as Hrun.
  cbn zeta in Hrun.
  unfold viewPortfolioHandler, try_catch, bind, detectPortfolioRequest.
  rewrite Hview. cbn [negb]. cbv beta.
  rewrite hasPortfolio_cases.
  unfold afterRoom in *. rewrite Huuid in *.
  destruct (holdings env runtime (Message.userId message) w) as [|item rest] eqn:Hh;
    [contradiction|].
  match type of Hrun with
  | _ = (Ret (Some ?p), ?w') => set (portfolio := p) in *; exists portfolio, w'
  end.
  split; [exact Hrun|].
  cbn [length Nat.ltb Nat.leb negb]. rewrite Hrun.
  assert (Hlen : length (PortfolioView.items portfolio) = S (length rest)).
  { unfold portfolio. cbn [PortfolioView.items].
    rewrite length_zip_with, quotes_length, !length_map. cbn. lia. }
  destruct (PortfolioView.items portfolio); [discriminate|]. reflexivity.
Qed.

(** C6. For every stored position whose live quote is available, the report
    of the VIEW_PORTFOLIO handler has a line for that position with
    [invested = quantity * averageCost],
    [currentValue = quantity * currentPrice],
    [profitLoss = currentValue - invested] and
    [profitLossPercent = profitLoss / invested * 100], in the arithmetic of
    JavaScript numbers. *)
Theorem valuation_arithmetic (runtime : Runtime.t) (message : Message.t)
    (w : World) (i : nat) (position : PortfolioItem.t) (coin : CryptoPrice.t) :
  let userId := Message.userId message in
  let stored := holdings env runtime userId w in
  let asked := quotes env (List.map PortfolioItem.coinId stored) (ticked w) in
  let quantity := PortfolioItem.quantity position in
  let averageCost := PortfolioItem.purchasePrice position in
  let currentPrice := CryptoPrice.current_price coin in
  viewPatternsMatch (toLowerCase (Message.text message)) = true ->
  isUUID userId = true ->
  stored !! i = Some position ->
  asked !! i = Some (Some coin) ->
  exists report w' item v,
    viewPortfolioHandler env viewPatternsMatch runtime message w
      = (Ret (true, Some (PortfolioReport report)), w')
    /\ (item, v) ∈ Report.lines report
    /\ ViewItem.item item = position
    /\ Valuation.invested v = (quantity * averageCost)%float
    /\ Valuation.currentValue v = (quantity * currentPrice)%float
    /\ Valuation.profitLoss v
        = (quantity * currentPrice - quantity * averageCost)%float
    /\ Valuation.profitLossPercent v
        = ((quantity * currentPrice - quantity * averageCost)
           / (quantity * averageCost) * 100)%float.
Proof.
  intros userId stored asked quantity averageCost currentPrice
    Hview Huuid Hposition Hquote.
  assert (Hheld : stored <> []).
  { intros Hnil. rewrite Hnil in Hposition. discriminate. }
  destruct (viewPortfolioHandler_reports runtime message w Hview Huuid Hheld)
    as (portfolio & w' & Hrun & Hhandler).
  rewrite getPortfolio_cases in Hrun; cbn zeta in Hrun.
  fold userId in Hrun. fold stored in Hrun.
  unfold afterRoom in Hrun. rewrite Huuid in Hrun. fold asked in Hrun.
  destruct stored as [|item0 rest] eqn:Hstored; [contradiction|].
  injection Hrun as <- _.
  set (item := ViewItem.mk position (liveFields (Some coin))).
  exists (buildReport
            (PortfolioView.mk
               (zip_with attach (List.map unpriced (item0 :: rest)) asked)
               (clock env (ticks w)))),
    w', item, (valuate position currentPrice).
  split; [exact Hhandler|].
  split; [|repeat split].
  destruct (buildReport_lines
              (PortfolioView.mk
                 (zip_with attach (List.map unpriced (item0 :: rest)) asked)
                 (clock env (ticks w)))) as [-> _].
  apply list_elem_of_omap. exists item. split; [|reflexivity].
  apply list_elem_of_lookup. exists i. cbn [PortfolioView.items].
  rewrite lookup_zip_with.
  change (List.map unpriced (item0 :: rest)) with (unpriced <$> (item0 :: rest)).
  rewrite list_lookup_fmap, Hposition, Hquote. reflexivity.
Qed.

End ViewFacts.

(** The example of the specification: a stored position of 2 bitcoin at an
    average cost of 100, a live price of 150; the report says invested 200,
    current value 300, profit 100, that is 50 percent. *)
Lemma valuation_arithmetic_witness :
  holdings Fixture.online Fixture.runtime Fixture.owner Fixture.twoBitcoin
    = [PortfolioItem.mk "bitcoin" "BTC" "Bitcoin" 2 100 2000]
  /\ exists report w' item v,
       viewPortfolioHandler Fixture.online (fun _ => true) Fixture.runtime
         (Fixture.says "show my portfolio") Fixture.twoBitcoin
         = (Ret (true, Some (PortfolioReport report)), w')
       /\ (item, v) ∈ Report.lines report
       /\ ViewItem.item item = PortfolioItem.mk "bitcoin" "BTC" "Bitcoin" 2 100 2000
       /\ Valuation.invested v = 200%float
       /\ Valuation.currentValue v = 300%float
       /\ Valuation.profitLoss v = 100%float
       /\ Valuation.profitLossPercent v = 50%float.
Proof.
  split; [vm_compute; reflexivity|].
  destruct (valuation_arithmetic Fixture.online (fun _ => true) Fixture.runtime
              (Fixture.says "show my portfolio") Fixture.twoBitcoin 0
              (PortfolioItem.mk "bitcoin" "BTC" "Bitcoin" 2 100 2000)
              Fixture.bitcoin)
    as (report & w' & item & v & Hrun & Hline & Hitem & Hi & Hc & Hp & Hpp);
    try (vm_compute; reflexivity).
  exists report, w', item, v.
  split; [exact Hrun|]. split; [exact Hline|]. split; [exact Hitem|].
  rewrite Hi, Hc, Hp, Hpp. repeat split; vm_compute; reflexivity.
Defined.

(* ===================================================================== *)
(** * Further properties of the cache and of the resolver                 *)
(* ===================================================================== *)

Lemma append_cancel_l (a x y : string) : (a ++ x = a ++ y)%string -> x = y.
Proof.
  induction a as [|c a IH]; cbn; intros H; [exact H|].
  injection H as H. auto.
Qed.

Lemma append_length (x y : string) :
  String.length (x ++ y) = (String.length x + String.length y)%nat.
Proof.
  induction x as [|c x IH]; [reflexivity|].
  change (S (String.length (x ++ y)) = S (String.length x + String.length y)).
  now rewrite IH.
Qed.

Lemma append_cancel_r (x y c : string) : (x ++ c = y ++ c)%string -> x = y.
Proof.
  intros H.
  assert (Hlen : String.length x = String.length y).
  { apply (f_equal String.length) in H. rewrite !append_length in H. lia. }
  revert y H Hlen. induction x as [|a x IH]; intros [|b y] H Hlen;
    try discriminate; [reflexivity|].
  cbn in H. injection H as -> H. injection Hlen as Hlen.
  f_equal. auto.
Qed.

Lemma to_uint_not_nil (n : N) : N.to_uint n <> Decimal.Nil.
Proof.
  intros Hnil.
  pose proof (f_equal N.of_uint Hnil) as H0.
  rewrite DecimalN.Unsigned.of_to in H0. cbn in H0. subst n. discriminate.
Qed.

Lemma showN_inj (n m : N) : showN n = showN m -> n = m.
Proof.
  unfold showN. intros H.
  apply DecimalN.Unsigned.to_uint_inj.
  pose proof (NilZero.usu _ (to_uint_not_nil n)) as Hn.
  pose proof (NilZero.usu _ (to_uint_not_nil m)) as Hm.
  rewrite H in Hn. congruence.
Qed.

Lemma lowerChar_lowerChar (c : ascii) : lowerChar (lowerChar c) = lowerChar c.
Proof. destruct c as [[] [] [] [] [] [] [] []]; reflexivity. Qed.

Lemma lowerChar_upperChar (c : ascii) : lowerChar (upperChar c) = lowerChar c.
Proof. destruct c as [[] [] [] [] [] [] [] []]; reflexivity. Qed.

Lemma toLowerCase_toLowerCase (s : string) :
  toLowerCase (toLowerCase s) = toLowerCase s.
Proof.
  unfold toLowerCase. induction s as [|c s IH]; cbn; [reflexivity|].
  now rewrite lowerChar_lowerChar, IH.
Qed.

Lemma toLowerCase_toUpperCase (s : string) :
  toLowerCase (toUpperCase s) = toLowerCase s.
Proof.
  unfold toLowerCase, toUpperCase. induction s as [|c s IH]; cbn; [reflexivity|].
  now rewrite lowerChar_upperChar, IH.
Qed.

Section MoreCacheFacts.

Variable env : Env.

Lemma apiRequest_keeps_other_keys_aux (endpoint key : string) (w : World) :
  key <> endpoint ->
  cache (snd (apiRequest env endpoint w)) !! key = cache w !! key.
Proof.
  intros Hkey. rewrite apiRequest_cases; cbn zeta.
  destruct (cacheHit _ _); [reflexivity|].
  destruct (network env _ _) as [|status body]; [reflexivity|].
  destruct (ok status); [|reflexivity].
  destruct body; [|reflexivity].
  cbn. apply lookup_insert_ne. congruence.
Qed.

(** X1. A request changes nothing of the process but the cache entry of its
    own key, the count of clock readings and the log of external calls:
    whatever the outcome, the entry of every other key, the table and the
    generator of ids are what they were. *)
Theorem apiRequest_keeps_other_keys (endpoint key : string) (w : World) :
  key <> endpoint ->
  let w' := snd (apiRequest env endpoint w) in
  cache w' !! key = cache w !! key /\ db w' = db w /\ draws w' = draws w.
Proof.
  intros Hkey w'. split; [now apply apiRequest_keeps_other_keys_aux|].
  destruct (apiRequest_frame env endpoint w) as (Hdb & Hdraws & _). auto.
Qed.

Lemma marketsEndpoint_inj (count count' : N) (currency : string) :
  marketsEndpoint count currency = marketsEndpoint count' currency ->
  count = count'.
Proof.
  unfold marketsEndpoint. intros H.
  apply append_cancel_l, append_cancel_l, append_cancel_l in H.
  apply append_cancel_r in H. apply showN_inj, H.
Qed.

(** X2. Ranked lists of different sizes are cached under different keys: a
    request for the [count] top assets neither reads nor writes the entry of
    the list of another size, so a "top 10" answer is never used for, and
    never refreshes, the list of 100 that the resolver searches. *)
Theorem listings_of_different_sizes_are_cached_apart (count count' : N)
    (currency : string) (w : World) :
  count <> count' ->
  marketsEndpoint count currency <> marketsEndpoint count' currency
  /\ cache (snd (getTopCryptos env count currency w)) !! marketsEndpoint count' currency
      = cache w !! marketsEndpoint count' currency.
Proof.
  intros Hcount.
  assert (Hkeys : marketsEndpoint count' currency <> marketsEndpoint count currency).
  { intros H. apply Hcount. symmetry. eapply marketsEndpoint_inj, H. }
  split; [congruence|].
  unfold getTopCryptos. apply apiRequest_keeps_other_keys_aux, Hkeys.
Qed.

(** X3. [getCryptoDetails] does not turn a failure into null: its [catch]
    cannot see the rejection of the request it returns without awaiting.  It
    never returns the null of that [catch]; when the request has to call the
    price source and the call fails, it throws to its caller, the cache being
    what it was, where [getCryptoByIdOrSymbol], which awaits, returns
    null. *)
Theorem getCryptoDetails_rejects (w : World) :
  (forall id r w',
      getCryptoDetails env id w = (Ret r, w') -> exists data, r = Some data)
  /\ (forall id,
        cacheHit (cache w !! detailsEndpoint id) (clock env (ticks w)) = None ->
        failed (network env (length (fetched w)) (API_BASE_URL ++ detailsEndpoint id)) ->
        exists error w',
          getCryptoDetails env id w = (Throw error, w') /\ cache w' = cache w)
  /\ (forall identifier currency,
        cacheHit (cache w !! marketsEndpoint 100 currency) (clock env (ticks w)) = None ->
        failed (network env (length (fetched w))
                  (API_BASE_URL ++ marketsEndpoint 100 currency)) ->
        exists w',
          getCryptoByIdOrSymbol env identifier currency w = (Ret None, w')
          /\ cache w' = cache w).
Proof.
  split; [|split].
  - intros id r w'. unfold getCryptoDetails, try_return, bind.
    destruct (apiRequest env (detailsEndpoint id) w) as [[data|e] w1]; cbn.
    + intros [= <- _]. eauto.
    + discriminate.
  - intros id Hmiss Hfail. unfold getCryptoDetails, try_return, bind.
    destruct (apiRequest_failed env _ _ Hmiss Hfail) as [error Hrun].
    rewrite Hrun. eauto.
  - intros identifier currency Hmiss Hfail.
    rewrite getCryptoByIdOrSymbol_cases; cbn zeta.
    destruct (apiRequest_failed env _ _ Hmiss Hfail) as [error Hrun].
    rewrite Hrun. cbn. eauto.
Qed.

(** X4. The resolver does not see the case of the identifier: an identifier,
    its upper-case form and its lower-case form resolve alike, with the same
    result and the same effect, in every world. *)
Theorem resolver_ignores_case (identifier currency : string) (w : World) :
  getCryptoByIdOrSymbol env (toUpperCase identifier) currency w
    = getCryptoByIdOrSymbol env identifier currency w
  /\ getCryptoByIdOrSymbol env (toLowerCase identifier) currency w
      = getCryptoByIdOrSymbol env identifier currency w.
Proof.
  rewrite !getCryptoByIdOrSymbol_cases; cbn zeta.
  rewrite toLowerCase_toUpperCase, toLowerCase_toLowerCase. auto.
Qed.

End MoreCacheFacts.

(** Two different keys: a failed request for the list of 100 leaves the
    cached list of 10 alone. *)
Lemma apiRequest_keeps_other_keys_witness :
  cache (snd (apiRequest Scenario.offline Fixture.markets Scenario.topTen))
    !! marketsEndpoint 10 "usd"
  = Some (CacheEntry.mk Fixture.topCoins 1000).
Proof.
  destruct (apiRequest_keeps_other_keys Scenario.offline Fixture.markets
              (marketsEndpoint 10 "usd") Scenario.topTen) as (Hkey & _).
  - vm_compute. discriminate.
  - cbv zeta in Hkey. rewrite Hkey. vm_compute. reflexivity.
Defined.

(** After a request for the ten top assets the cache has no list of 100:
    the resolver still has to call. *)
Lemma listings_of_different_sizes_are_cached_apart_witness :
  cache Scenario.topTen !! marketsEndpoint 10 "usd"
    = Some (CacheEntry.mk Fixture.topCoins 1000)
  /\ cache Scenario.topTen !! marketsEndpoint 100 "usd" = None.
Proof.
  destruct (listings_of_different_sizes_are_cached_apart Scenario.online 10 100
              "usd" Fixture.start) as (_ & Hkept).
  - discriminate.
  - split; [vm_compute; reflexivity|].
    unfold Scenario.topTen. rewrite Hkept. reflexivity.
Defined.

(** The price source is down: the detail record of bitcoin throws, the
    resolution of bitcoin gives null. *)
Lemma getCryptoDetails_rejects_witness :
  fst (getCryptoDetails Scenario.offline "bitcoin" Fixture.start)
    = Throw NetworkError
  /\ fst (getCryptoByIdOrSymbol Scenario.offline "bitcoin" "usd" Fixture.start)
      = Ret None.
Proof.
  destruct (getCryptoDetails_rejects Scenario.offline Fixture.start)
    as (_ & Hdetails & Hresolver).
  split.
  - destruct (Hdetails "bitcoin") as (error & w' & Hrun & _);
      [reflexivity | exact I |].
    rewrite Hrun. cbn. f_equal.
    vm_compute in Hrun. injection Hrun as <- _. reflexivity.
  - destruct (Hresolver "bitcoin" "usd") as (w' & Hrun & _);
      [reflexivity | exact I |].
    rewrite Hrun. reflexivity.
Defined.

(* ===================================================================== *)
(** * Further properties of the ledger's store                            *)
(* ===================================================================== *)



Lemma sortNewestFirst_nil (l : list Memory.t) : sortNewestFirst l = [] -> l = [].
Proof.
  destruct l as [|y l]; [reflexivity|]. intros Hnil.
  assert (Hy : y ∈ sortNewestFirst (y :: l)) by (apply sortNewestFirst_elem; left).
  rewrite Hnil in Hy. inversion Hy.
Qed.

Lemma newestPortfolio_candidates (userId roomId : string) (table : list Memory.t) :
  newestPortfolio userId roomId table
    = head (sortNewestFirst (candidates userId roomId table)).
Proof. reflexivity. Qed.

Lemma newestPortfolio_None (userId roomId : string) (table : list Memory.t) :
  newestPortfolio userId roomId table = None ->
  candidates userId roomId table = [].
Proof.
  rewrite newestPortfolio_candidates. intros Hnone.
  apply sortNewestFirst_nil.
  destruct (sortNewestFirst _); [reflexivity | discriminate].
Qed.

Section MoreStoreFacts.

Variable env : Env.
Variable runtime : Runtime.t.

(** For an owner whose id is a UUID, what is held is read off the table. *)
Lemma holdings_of_table (userId : string) (w : World) :
  isUUID userId = true ->
  holdings env runtime userId w
    = match newestPortfolio userId userId (db w) with
      | Some memory => Content.items (Memory.content memory)
      | None => []
      end.
Proof.
  intros Huuid. unfold holdings. rewrite getPortfolioMemory_cases. cbn.
  unfold roomOf. rewrite Huuid. reflexivity.
Qed.

Lemma storedLastUpdated_of_table (userId : string) (w : World) :
  isUUID userId = true ->
  storedLastUpdated env runtime userId w
    = option_map (fun memory => Content.lastUpdated (Memory.content memory))
        (newestPortfolio userId userId (db w)).
Proof.
  intros Huuid. unfold storedLastUpdated. rewrite getPortfolioMemory_cases. cbn.
  unfold roomOf. rewrite Huuid.
  destruct (newestPortfolio _ _ _); reflexivity.
Qed.


(** X6. An owner whose id has not the shape of a UUID is given a fresh random
    room at every access: unless the id drawn happens to be the room of a
    stored memory, nothing is found, whatever was saved for that owner:
    no memory, no positions, and [hasPortfolio] false. *)
Theorem owner_without_uuid_finds_nothing (userId : string) (w : World) :
  isUUID userId = false ->
  (forall memory, memory ∈ db w -> Memory.roomId memory <> uuidgen env (draws w)) ->
  fst (getPortfolioMemory env runtime userId w) = Ret None
  /\ holdings env runtime userId w = []
  /\ fst (hasPortfolio env runtime userId w) = Ret false
  /\ fst (getPortfolio env runtime userId w) = Ret None.
Proof.
  intros Hshape Hfresh.
  assert (Hnone : fst (getPortfolioMemory env runtime userId w) = Ret None).
  { rewrite getPortfolioMemory_cases. cbn. f_equal.
    unfold roomOf. rewrite Hshape.
    rewrite newestPortfolio_candidates. unfold candidates.
    assert (Hroom : List.filter (inRoom (uuidgen env (draws w)) PORTFOLIO_AGENT) (db w) = []).
    { destruct (List.filter _ _) as [|m l] eqn:Hfilter; [reflexivity|].
      assert (Hm : m ∈ List.filter (inRoom (uuidgen env (draws w)) PORTFOLIO_AGENT) (db w))
        by (rewrite Hfilter; left).
      apply elem_of_bool_filter in Hm as [Hin Hroom].
      unfold inRoom in Hroom. apply andb_true_iff in Hroom as [Hroom _].
      apply String.eqb_eq in Hroom. exfalso. eapply Hfresh; eauto. }
    rewrite Hroom. reflexivity. }
  assert (Hheld : holdings env runtime userId w = []).
  { unfold holdings. rewrite Hnone. reflexivity. }
  split; [exact Hnone|]. split; [exact Hheld|]. split.
  - unfold hasPortfolio, try_catch, bind.
    destruct (getPortfolioMemory env runtime userId w) as [r w'].
    cbn in Hnone. subst r. reflexivity.
  - unfold getPortfolio, try_catch, bind.
    destruct (getPortfolioMemory env runtime userId w) as [r w'].
    cbn in Hnone. subst r. reflexivity.
Qed.

End MoreStoreFacts.


(** Alice, whose id is no UUID, buys a bitcoin; the purchase is acknowledged
    and a memory is written, but she then holds nothing. *)
Lemma owner_without_uuid_finds_nothing_witness :
  let bought :=
    addToPortfolio Scenario.online Fixture.runtime Scenario.alice "btc" 1 100
      Fixture.start in
  fst bought = Ret (Some (PortfolioItem.mk "bitcoin" "BTC" "Bitcoin" 1 100 2000))
  /\ length (db (snd bought)) = 1%nat
  /\ holdings Scenario.online Fixture.runtime Scenario.alice (snd bought) = []
  /\ fst (hasPortfolio Scenario.online Fixture.runtime Scenario.alice (snd bought))
      = Ret false.
Proof.
  cbv zeta.
  destruct (owner_without_uuid_finds_nothing Scenario.online Fixture.runtime
              Scenario.alice
              (snd (addToPortfolio Scenario.online Fixture.runtime Scenario.alice
                      "btc" 1 100 Fixture.start)))
    as (_ & Hheld & Hhas & _).
  - reflexivity.
  - intros memory Hin. vm_compute in Hin.
    apply list_elem_of_singleton in Hin. subst memory.
    vm_compute. discriminate.
  - split; [vm_compute; reflexivity|]. split; [vm_compute; reflexivity|].
    split; [exact Hheld | exact Hhas].
Defined.

Section PurchaseFacts.

Variable env : Env.
Variable runtime : Runtime.t.

(** [savePortfolio] for an owner whose id is a UUID and who has no memory: a
    memory is appended, under a fresh id. *)
Lemma savePortfolio_creates (userId : string) (portfolio : list PortfolioItem.t)
    (w : World) :
  isUUID userId = true ->
  newestPortfolio userId userId (db w) = None ->
  exists id draws',
    savePortfolio env runtime userId portfolio w
      = (Ret tt,
         mkWorld (cache w)
           (db w ++ [created runtime userId userId id portfolio
                       (clock env (ticks w)) (clock env (S (ticks w)))])
           (S (S (ticks w))) (fetched w) draws').
Proof.
  intros Huuid Hnone.
  unfold savePortfolio, try_catch, bind.
  rewrite ensureUUID_cases, getPortfolioMemory_cases.
  unfold roomOf, afterRoom. rewrite Huuid. cbn.
  rewrite ?Huuid, Hnone. cbn.
  rewrite ensureUUID_cases. unfold roomOf, afterRoom. cbn.
  destruct (isUUID (uuidgen env (draws w))); cbn; eexists _, _; reflexivity.
Qed.

Lemma candidates_after_create (userId : string) (table : list Memory.t)
    (memory : Memory.t) :
  candidates userId userId table = [] ->
  (length (List.filter (inRoom userId PORTFOLIO_AGENT) table) < 100)%nat ->
  inRoom userId PORTFOLIO_AGENT memory = true ->
  isPortfolioOf userId memory = true ->
  newestPortfolio userId userId (table ++ [memory]) = Some memory.
Proof.
  intros Hnone Hroom Hin Hmine.
  rewrite newestPortfolio_candidates. unfold candidates in *.
  rewrite List.filter_app. cbn [List.filter]. rewrite Hin.
  rewrite firstn_app.
  rewrite (take_ge (List.filter _ table)) in * by lia.
  replace (100 - length (List.filter (inRoom userId PORTFOLIO_AGENT) table))%nat
    with (S (99 - length (List.filter (inRoom userId PORTFOLIO_AGENT) table)))
    by lia.
  cbn [firstn]. rewrite firstn_nil.
  rewrite List.filter_app, Hnone. cbn. rewrite Hmine. reflexivity.
Qed.

Lemma newestPortfolio_app_out (userId roomId : string) (table : list Memory.t)
    (memory : Memory.t) :
  inRoom roomId PORTFOLIO_AGENT memory = false ->
  newestPortfolio userId roomId (table ++ [memory])
    = newestPortfolio userId roomId table.
Proof.
  intros Hout. unfold newestPortfolio.
  rewrite List.filter_app. cbn [List.filter]. rewrite Hout, app_nil_r.
  reflexivity.
Qed.

(** The common part of the first purchase of an owner without portfolio. *)
Lemma addToPortfolio_first (userId coinId : string) (quantity purchasePrice : float)
    (w : World) (coin : CryptoPrice.t) :
  isUUID userId = true ->
  storedLastUpdated env runtime userId w = None ->
  fst (getCryptoByIdOrSymbol env coinId "usd" w) = Ret (Some coin) ->
  let item := newPosition coin quantity purchasePrice (clock env (S (ticks w))) in
  exists id t1 t2 w',
    addToPortfolio env runtime userId coinId quantity purchasePrice w
      = (Ret (Some item), w')
    /\ db w' = (db w ++ [created runtime userId userId id [item] t1 t2])%list.
Proof.
  intros Huuid Hnone Hcoin item.
  destruct (getCryptoByIdOrSymbol_frame env coinId "usd" w) as (Hdb & Hdraws & Hticks).
  set (w1 := snd (getCryptoByIdOrSymbol env coinId "usd" w)) in *.
  rewrite storedLastUpdated_of_table in Hnone by exact Huuid.
  assert (Hpick : newestPortfolio userId userId (db w) = None).
  { destruct (newestPortfolio _ _ _); [discriminate | reflexivity]. }
  rewrite addToPortfolio_cases; cbn zeta. fold w1. rewrite Hcoin.
  rewrite (holdings_of_table env runtime userId w1 Huuid), Hdb, Hpick.
  cbn [findIndex app].
  unfold afterRoom. rewrite Huuid.
  destruct (savePortfolio_creates userId
              [newPosition coin quantity purchasePrice (clock env (ticks w1))]
              (ticked w1) Huuid) as (id & draws' & Hsave).
  { cbn. rewrite Hdb. exact Hpick. }
  unfold newPosition in *. rewrite Hsave. cbn.
  subst item. unfold newPosition. rewrite Hticks, Hdb.
  eexists _, _, _, _. split; reflexivity.
Qed.

(** X7. The first purchase of an owner opens the portfolio: for an owner whose
    id is a UUID and who has no portfolio memory, under a runtime whose agent
    is the one written in portfolio.ts and in a room of fewer than 100
    memories, a purchase of a coin that resolves returns the new position
    (canonical id, symbol in upper case, the quantity and price given),
    appends one memory to the table, and the owner then holds that position
    alone. *)
Theorem first_purchase_opens_portfolio (userId coinId : string)
    (quantity purchasePrice : float) (w : World) (coin : CryptoPrice.t) :
  isUUID userId = true ->
  Runtime.agentId runtime = PORTFOLIO_AGENT ->
  storedLastUpdated env runtime userId w = None ->
  (length (List.filter (inRoom userId PORTFOLIO_AGENT) (db w)) < 100)%nat ->
  fst (getCryptoByIdOrSymbol env coinId "usd" w) = Ret (Some coin) ->
  let item := newPosition coin quantity purchasePrice (clock env (S (ticks w))) in
  exists w',
    addToPortfolio env runtime userId coinId quantity purchasePrice w
      = (Ret (Some item), w')
    /\ length (db w') = S (length (db w))
    /\ holdings env runtime userId w' = [item].
Proof.
  intros Huuid Hagent Hnone Hroom Hcoin item.
  destruct (addToPortfolio_first userId coinId quantity purchasePrice w coin
              Huuid Hnone Hcoin) as (id & t1 & t2 & w' & Hrun & Hdb).
  exists w'. split; [exact Hrun|]. split.
  - rewrite Hdb, length_app. cbn. lia.
  - rewrite holdings_of_table, Hdb by exact Huuid.
    rewrite candidates_after_create; [reflexivity | | exact Hroom | |].
    + apply newestPortfolio_None.
      rewrite storedLastUpdated_of_table in Hnone by exact Huuid.
      destruct (newestPortfolio _ _ _); [discriminate | reflexivity].
    + unfold inRoom, created. cbn. rewrite Hagent, !String.eqb_refl. reflexivity.
    + unfold isPortfolioOf, created. cbn. rewrite String.eqb_refl. reflexivity.
Qed.

(** X8. Under a runtime whose agent is not the one written in portfolio.ts,
    a purchase is acknowledged but cannot be read back: for an owner whose id
    is a UUID and who has no portfolio memory, a purchase of a coin that
    resolves returns the new position and appends a memory, but that memory
    is stored for the runtime's agent while the lookup asks for the written
    one, so the owner still holds nothing and has no portfolio. *)
Theorem purchase_under_another_agent_is_lost (userId coinId : string)
    (quantity purchasePrice : float) (w : World) (coin : CryptoPrice.t) :
  isUUID userId = true ->
  Runtime.agentId runtime <> PORTFOLIO_AGENT ->
  storedLastUpdated env runtime userId w = None ->
  fst (getCryptoByIdOrSymbol env coinId "usd" w) = Ret (Some coin) ->
  let item := newPosition coin quantity purchasePrice (clock env (S (ticks w))) in
  exists w',
    addToPortfolio env runtime userId coinId quantity purchasePrice w
      = (Ret (Some item), w')
    /\ length (db w') = S (length (db w))
    /\ holdings env runtime userId w' = []
    /\ fst (hasPortfolio env runtime userId w') = Ret false.
Proof.
  intros Huuid Hagent Hnone Hcoin item.
  destruct (addToPortfolio_first userId coinId quantity purchasePrice w coin
              Huuid Hnone Hcoin) as (id & t1 & t2 & w' & Hrun & Hdb).
  exists w'. split; [exact Hrun|]. split.
  { rewrite Hdb, length_app. cbn. lia. }
  assert (Hheld : holdings env runtime userId w' = []).
  { rewrite holdings_of_table, Hdb by exact Huuid.
    rewrite newestPortfolio_app_out.
    - rewrite storedLastUpdated_of_table in Hnone by exact Huuid.
      destruct (newestPortfolio _ _ _); [discriminate | reflexivity].
    - unfold inRoom, created. cbn.
      apply andb_false_iff. right. apply String.eqb_neq. exact Hagent. }
  split; [exact Hheld|].
  unfold hasPortfolio, holdings, try_catch, bind in *.
  destruct (getPortfolioMemory env runtime userId w') as [[[m|]|e] w2];
    cbn in *; try reflexivity.
  rewrite Hheld. reflexivity.
Qed.

(** Where [addToPortfolio] leaves the table: as it was, or as one
    [savePortfolio] makes it from a world with the table as it was. *)
Lemma addToPortfolio_table (userId coinId : string) (quantity purchasePrice : float)
    (w : World) :
  let w' := snd (addToPortfolio env runtime userId coinId quantity purchasePrice w) in
  db w' = db w
  \/ exists portfolio w0,
       db w0 = db w /\ w' = snd (savePortfolio env runtime userId portfolio w0).
Proof.
  destruct (getCryptoByIdOrSymbol_frame env coinId "usd" w) as (Hdb & _).
  set (w1 := snd (getCryptoByIdOrSymbol env coinId "usd" w)) in *.
  destruct (afterRoom_frame userId w1) as (Hdb2 & _).
  rewrite addToPortfolio_cases; cbn zeta. fold w1.
  destruct (fst (getCryptoByIdOrSymbol env coinId "usd" w)) as [[coin|]|e];
    cbn; auto.
  destruct (findIndex _ _) as [i|].
  - destruct (_ !! i) as [existingItem|]; cbn.
    + right. eexists _, _. split; [|reflexivity]. cbn. congruence.
    + left. congruence.
  - right. eexists _, _. split; [|reflexivity]. cbn. congruence.
Qed.

Lemma replaceById_ids (memory : Memory.t) (portfolio : list PortfolioItem.t)
    (userId : string) (now : Z) (table : list Memory.t) :
  List.map Memory.id
    (replaceById (Memory.id memory) (rewritten memory userId portfolio now) table)
  = List.map Memory.id table.
Proof.
  unfold replaceById. rewrite List.map_map. apply List.map_ext_in.
  intros x _. destruct (String.eqb_spec (Memory.id x) (Memory.id memory)); cbn; auto.
Qed.

Lemma savePortfolio_ids (userId : string) (portfolio : list PortfolioItem.t)
    (w : World) :
  exists added,
    List.map Memory.id (db (snd (savePortfolio env runtime userId portfolio w)))
      = (List.map Memory.id (db w) ++ added)%list
    /\ (length added <= 1)%nat.
Proof.
  unfold savePortfolio, try_catch, bind.
  rewrite ensureUUID_cases, getPortfolioMemory_cases.
  destruct (afterRoom_frame userId w) as (Hdb1 & _).
  destruct (afterRoom_frame userId (afterRoom userId w)) as (Hdb2 & _).
  destruct (newestPortfolio _ _ _) as [m|]; cbn.
  - exists []. rewrite app_nil_r. split; [|cbn; lia].
    fold (rewritten m userId portfolio (clock env (ticks (afterRoom userId (afterRoom userId w))))).
    fold (replaceById (Memory.id m)
            (rewritten m userId portfolio
               (clock env (ticks (afterRoom userId (afterRoom userId w)))))
            (db (afterRoom userId (afterRoom userId w)))).
    rewrite replaceById_ids. congruence.
  - rewrite ensureUUID_cases. cbn.
    eexists [_]. split; [|cbn; lia].
    rewrite List.map_app. cbn. f_equal.
    rewrite (proj1 (afterRoom_frame _ _)). cbn. congruence.
Qed.

(** X9. A purchase of a coin the owner does not hold yet adds a position at the
    end and keeps the others: for an owner whose id is a UUID and who has a
    portfolio, in a table with distinct ids, the purchase returns the new
    position and the owner then holds the former positions, in their order,
    followed by the new one. *)
Theorem purchase_of_new_coin_is_appended (userId coinId : string)
    (quantity purchasePrice : float) (w : World) (coin : CryptoPrice.t) :
  isUUID userId = true ->
  NoDup (List.map Memory.id (db w)) ->
  storedLastUpdated env runtime userId w <> None ->
  fst (getCryptoByIdOrSymbol env coinId "usd" w) = Ret (Some coin) ->
  findIndex (holdsCoin coin) (holdings env runtime userId w) = None ->
  let item := newPosition coin quantity purchasePrice (clock env (S (ticks w))) in
  exists w',
    addToPortfolio env runtime userId coinId quantity purchasePrice w
      = (Ret (Some item), w')
    /\ holdings env runtime userId w'
        = (holdings env runtime userId w ++ [item])%list.
Proof.
  intros Huuid Hnd Hsome Hcoin Hindex item.
  destruct (getCryptoByIdOrSymbol_frame env coinId "usd" w) as (Hdb & Hdraws & Hticks).
  set (w1 := snd (getCryptoByIdOrSymbol env coinId "usd" w)) in *.
  pose proof (holdings_frame env runtime userId w w1 Hdb Hdraws) as Hsame.
  rewrite addToPortfolio_cases; cbn zeta. fold w1.
  rewrite Hcoin, Hsame. unfold holdsCoin in Hindex. rewrite Hindex.
  unfold afterRoom. rewrite Huuid, Hticks.
  eexists. split; [reflexivity|].
  apply savePortfolio_read_back.
  - exact Huuid.
  - cbn. rewrite Hdb. exact Hnd.
  - rewrite (storedLastUpdated_of_table env runtime userId _ Huuid). cbn.
    rewrite Hdb.
    rewrite (storedLastUpdated_of_table env runtime userId _ Huuid) in Hsome.
    exact Hsome.
Qed.

(** What one owner saves does not change what another owner's lookup finds. *)
Lemma savePortfolio_keeps_others (userId other : string)
    (portfolio : list PortfolioItem.t) (w : World) :
  isUUID userId = true ->
  userId <> other ->
  NoDup (List.map Memory.id (db w)) ->
  newestPortfolio other other (db (snd (savePortfolio env runtime userId portfolio w)))
    = newestPortfolio other other (db w).
Proof.
  intros Huuid Hother Hnd.
  destruct (newestPortfolio userId userId (db w)) as [m|] eqn:Hpick.
  - rewrite (savePortfolio_rewrites env runtime _ _ _ _ Huuid Hpick). cbn.
    destruct (newestPortfolio_elem _ _ _ _ Hpick) as (Hin & Hroom & Hmine).
    assert (Hnot : isPortfolioOf other m = false).
    { unfold isPortfolioOf in *. apply andb_true_iff in Hmine as [_ Hu].
      apply String.eqb_eq in Hu. rewrite Hu.
      apply andb_false_iff. right. apply String.eqb_neq. exact Hother. }
    unfold replaceById. rewrite newestPortfolio_map.
    + destruct (newestPortfolio other other (db w)) as [m'|] eqn:Hpick';
        [|reflexivity].
      cbn. destruct (String.eqb_spec (Memory.id m') (Memory.id m)) as [Hid|];
        [|reflexivity].
      destruct (newestPortfolio_elem _ _ _ _ Hpick') as (Hin' & _ & Hmine').
      assert (m' = m) as -> by (eapply NoDup_ids_same; eauto).
      congruence.
    + apply Forall_forall. intros x Hx.
      destruct (String.eqb_spec (Memory.id x) (Memory.id m)) as [Hid|]; [|auto].
      assert (x = m) as -> by (eapply NoDup_ids_same; eauto).
      split; [reflexivity|]. split; [|reflexivity].
      rewrite Hnot. unfold isPortfolioOf, rewritten. cbn.
      apply andb_false_iff. right. apply String.eqb_neq. exact Hother.
  - destruct (savePortfolio_creates userId portfolio w Huuid Hpick)
      as (id & draws' & ->). cbn.
    apply newestPortfolio_app_out.
    unfold inRoom, created. cbn.
    apply andb_false_iff. left. apply String.eqb_neq. exact Hother.
Qed.

(** X10. Owners are kept apart: a purchase by one owner, whatever its outcome,
    leaves what another owner holds exactly as it was (both ids being UUIDs,
    the table having distinct memory ids). *)
Theorem purchase_leaves_other_owners_alone (userId other coinId : string)
    (quantity purchasePrice : float) (w : World) :
  isUUID userId = true ->
  isUUID other = true ->
  userId <> other ->
  NoDup (List.map Memory.id (db w)) ->
  holdings env runtime other
    (snd (addToPortfolio env runtime userId coinId quantity purchasePrice w))
  = holdings env runtime other w.
Proof.
  intros Huuid Huuid' Hother Hnd.
  rewrite !holdings_of_table by exact Huuid'.
  destruct (addToPortfolio_table userId coinId quantity purchasePrice w)
    as [-> | (portfolio & w0 & Hdb & ->)]; [reflexivity|].
  rewrite savePortfolio_keeps_others; try assumption.
  - rewrite Hdb. reflexivity.
  - rewrite Hdb. exact Hnd.
Qed.

(** X11. A purchase never removes a memory and never changes the id of one:
    whatever the owner, the coin and the outcome, the ids of the table after
    the call are the ids before it, in the same order, followed by at most
    one new id. *)
Theorem purchase_keeps_the_table (userId coinId : string)
    (quantity purchasePrice : float) (w : World) :
  exists added,
    List.map Memory.id
      (db (snd (addToPortfolio env runtime userId coinId quantity purchasePrice w)))
      = (List.map Memory.id (db w) ++ added)%list
    /\ (length added <= 1)%nat.
Proof.
  destruct (addToPortfolio_table userId coinId quantity purchasePrice w)
    as [-> | (portfolio & w0 & Hdb & ->)].
  - exists []. rewrite app_nil_r. split; [reflexivity | cbn; lia].
  - destruct (savePortfolio_ids userId portfolio w0) as (added & Hids & Hlen).
    exists added. rewrite Hids, Hdb. auto.
Qed.

End PurchaseFacts.

(** The first purchase of the owner: 1 bitcoin at 100. *)
Lemma first_purchase_opens_portfolio_witness :
  exists w',
    addToPortfolio Fixture.online Fixture.runtime Fixture.owner "btc" 1 100
      Fixture.start
      = (Ret (Some (PortfolioItem.mk "bitcoin" "BTC" "Bitcoin" 1 100 2000)), w')
    /\ length (db w') = 1%nat
    /\ holdings Fixture.online Fixture.runtime Fixture.owner w'
        = [PortfolioItem.mk "bitcoin" "BTC" "Bitcoin" 1 100 2000].
Proof.
  destruct (first_purchase_opens_portfolio Fixture.online Fixture.runtime
              Fixture.owner "btc" 1 100 Fixture.start Fixture.bitcoin)
    as (w' & Hrun & Hlen & Hheld); try reflexivity.
  - cbn. lia.
  - exists w'. split; [exact Hrun|]. split; [exact Hlen | exact Hheld].
Defined.

(** The same purchase under another agent: acknowledged, stored, not found. *)
Lemma purchase_under_another_agent_is_lost_witness :
  exists w',
    addToPortfolio Fixture.online Scenario.foreign Fixture.owner "btc" 1 100
      Fixture.start
      = (Ret (Some (PortfolioItem.mk "bitcoin" "BTC" "Bitcoin" 1 100 2000)), w')
    /\ length (db w') = 1%nat
    /\ holdings Fixture.online Scenario.foreign Fixture.owner w' = []
    /\ fst (hasPortfolio Fixture.online Scenario.foreign Fixture.owner w')
        = Ret false.
Proof.
  destruct (purchase_under_another_agent_is_lost Fixture.online Scenario.foreign
              Fixture.owner "btc" 1 100 Fixture.start Fixture.bitcoin)
    as (w' & Hrun & Hlen & Hheld & Hhas); try reflexivity.
  - vm_compute. discriminate.
  - exists w'. split; [exact Hrun|]. split; [exact Hlen|].
    split; [exact Hheld | exact Hhas].
Defined.

(** The owner of one bitcoin buys 10 ethereum: two positions, in that
    order. *)
Lemma purchase_of_new_coin_is_appended_witness :
  exists w',
    addToPortfolio Fixture.online Fixture.runtime Fixture.owner "eth" 10 40
      Fixture.funded
      = (Ret (Some (PortfolioItem.mk "ethereum" "ETH" "Ethereum" 10 40 6000)), w')
    /\ holdings Fixture.online Fixture.runtime Fixture.owner w'
        = [PortfolioItem.mk "bitcoin" "BTC" "Bitcoin" 1 100 2000;
           PortfolioItem.mk "ethereum" "ETH" "Ethereum" 10 40 6000].
Proof.
  destruct (purchase_of_new_coin_is_appended Fixture.online Fixture.runtime
              Fixture.owner "eth" 10 40 Fixture.funded Fixture.ethereum)
    as (w' & Hrun & Hheld); try (vm_compute; reflexivity).
  - vm_compute. repeat constructor. intros H; inversion H.
  - vm_compute. discriminate.
  - exists w'. split; [exact Hrun|]. rewrite Hheld. vm_compute. reflexivity.
Defined.

(** The second owner buys more ethereum; the first owner's bitcoin is what it
    was. *)
Lemma purchase_leaves_other_owners_alone_witness :
  holdings Scenario.online Fixture.runtime Fixture.owner
    (snd (addToPortfolio Scenario.online Fixture.runtime Scenario.other
            "ethereum" 5 60 Scenario.shared))
  = [PortfolioItem.mk "bitcoin" "BTC" "Bitcoin" 1 100 2000].
Proof.
  rewrite (purchase_leaves_other_owners_alone Scenario.online Fixture.runtime
             Scenario.other Fixture.owner "ethereum" 5 60 Scenario.shared).
  - vm_compute. reflexivity.
  - reflexivity.
  - reflexivity.
  - vm_compute. discriminate.
  - vm_compute. repeat constructor.
    + intros H. apply elem_of_cons in H as [H | H]; [discriminate | inversion H].
    + intros H; inversion H.
Defined.

(* ===================================================================== *)
(** * Further properties of the valuation                                 *)
(* ===================================================================== *)

Section MoreValuationFacts.

Variable env : Env.

Lemma getCryptoByIdOrSymbol_world (idOrSymbol currency : string) (w : World) :
  snd (getCryptoByIdOrSymbol env idOrSymbol currency w)
    = snd (apiRequest env (marketsEndpoint 100 currency) w).
Proof.
  destruct (getCryptoByIdOrSymbol_returns env idOrSymbol currency w) as [r ->].
  reflexivity.
Qed.

(** Asking quotes changes the cache entry of the ranked list of 100 at most,
    and neither the table nor the generator of ids. *)
Lemma quotesWorld_frame (coinIds : list string) (w : World) :
  db (quotesWorld env coinIds w) = db w
  /\ draws (quotesWorld env coinIds w) = draws w
  /\ ticks (quotesWorld env coinIds w) = (ticks w + length coinIds)%nat
  /\ forall key,
       key <> marketsEndpoint 100 "usd" ->
       cache (quotesWorld env coinIds w) !! key = cache w !! key.
Proof.
  revert w. induction coinIds as [|coinId rest IH]; intros w; cbn.
  - repeat split; auto.
  - destruct (IH (snd (getCryptoByIdOrSymbol env coinId "usd" w)))
      as (Hdb & Hdraws & Hticks & Hcache).
    destruct (getCryptoByIdOrSymbol_frame env coinId "usd" w) as (Hdb1 & Hdraws1 & Hticks1).
    rewrite Hdb, Hdraws, Hticks. repeat split; try congruence; [lia|].
    intros key Hkey. rewrite (Hcache key Hkey), getCryptoByIdOrSymbol_world.
    apply apiRequest_keeps_other_keys_aux, Hkey.
Qed.

(** X12. A valuation reads and never writes the ledger: for every owner, world
    and behaviour of the price source, [getPortfolio] returns (it does not
    throw), the table is exactly what it was, and of the cache only the entry
    of the ranked list of 100 can have changed. *)
Theorem valuation_is_read_only (runtime : Runtime.t) (userId : string) (w : World) :
  exists r w',
    getPortfolio env runtime userId w = (Ret r, w')
    /\ db w' = db w
    /\ forall key,
         key <> marketsEndpoint 100 "usd" -> cache w' !! key = cache w !! key.
Proof.
  rewrite getPortfolio_cases; cbn zeta.
  destruct (afterRoom_frame userId w) as (Hdb & _ & Hcache & _).
  destruct (holdings env runtime userId w) as [|item rest].
  - eexists _, _. split; [reflexivity|]. split; [exact Hdb|].
    intros key _. rewrite Hcache. reflexivity.
  - eexists _, _. split; [reflexivity|].
    destruct (quotesWorld_frame (List.map PortfolioItem.coinId (item :: rest))
                (ticked (afterRoom userId w))) as (Hdb' & _ & _ & Hcache').
    split; [rewrite Hdb'; exact Hdb|].
    intros key Hkey. rewrite (Hcache' key Hkey). cbn. rewrite Hcache. reflexivity.
Qed.

(** X13. [hasPortfolio] and [getPortfolio] agree: in every world, for every
    owner, [hasPortfolio] answers true exactly when [getPortfolio] returns a
    portfolio, and that portfolio is never empty. *)
Theorem hasPortfolio_agrees_with_getPortfolio (runtime : Runtime.t)
    (userId : string) (w : World) :
  (fst (hasPortfolio env runtime userId w) = Ret true
   <-> exists portfolio, fst (getPortfolio env runtime userId w) = Ret (Some portfolio))
  /\ (forall portfolio,
        fst (getPortfolio env runtime userId w) = Ret (Some portfolio) ->
        length (PortfolioView.items portfolio)
          = length (holdings env runtime userId w)
        /\ PortfolioView.items portfolio <> []).
Proof.
  rewrite getPortfolio_cases; cbn zeta.
  assert (Hhas : fst (hasPortfolio env runtime userId w)
                 = Ret (Nat.ltb 0 (length (holdings env runtime userId w)))).
  { unfold hasPortfolio, holdings, try_catch, bind.
    rewrite getPortfolioMemory_cases. cbn.
    destruct (newestPortfolio _ _ _); reflexivity. }
  rewrite Hhas.
  destruct (holdings env runtime userId w) as [|item rest];
    cbn [fst length Nat.ltb Nat.leb].
  - split; [split|].
    + discriminate.
    + intros [portfolio H]. discriminate.
    + discriminate.
  - split; [split; eauto|].
    intros portfolio [= <-].
    destruct (attached_items (item :: rest)
                (quotes env (List.map PortfolioItem.coinId (item :: rest))
                   (ticked (afterRoom userId w)))) as [Hitems _].
    { rewrite quotes_length, length_map. reflexivity. }
    apply (f_equal (@length _)) in Hitems. rewrite length_map in Hitems.
    split; [exact Hitems|].
    intros Hnil. apply (f_equal (@length _)) in Hnil.
    assert (Hzero : length (item :: rest) = 0%nat)
      by (rewrite <- Hitems; exact Hnil).
    discriminate.
Qed.

(** With a fresh entry for the ranked list that stays fresh, quotes are
    served from the cache: no external call. *)
Lemma quotes_served_from_cache (coinIds : list string) (w : World)
    (entry : CacheEntry.t) :
  cache w !! marketsEndpoint 100 "usd" = Some entry ->
  (forall j : nat,
      (ticks w <= j)%nat -> (j < ticks w + length coinIds)%nat ->
      clock env j - CacheEntry.timestamp entry < CACHE_DURATION) ->
  fetched (quotesWorld env coinIds w) = fetched w.
Proof.
  revert w. induction coinIds as [|coinId rest IH]; intros w Hslot Hfresh; cbn;
    [reflexivity|].
  rewrite getCryptoByIdOrSymbol_world.
  rewrite (apiRequest_hit env _ _ _ Hslot) by (apply Hfresh; cbn; lia).
  cbn [snd]. rewrite IH; [reflexivity | exact Hslot|].
  intros j Hlo Hhi. apply Hfresh; cbn in *; lia.
Qed.

Lemma quotes_call_once (coinIds : list string) (w : World) :
  (forall i j : nat,
      (ticks w <= i)%nat -> (i <= j)%nat -> (j < ticks w + length coinIds)%nat ->
      clock env j - clock env i < CACHE_DURATION) ->
  (exists status data,
      network env (length (fetched w))
        (API_BASE_URL ++ marketsEndpoint 100 "usd") = Response status (Some data)
      /\ ok status = true) ->
  (length (fetched (quotesWorld env coinIds w)) <= S (length (fetched w)))%nat.
Proof.
  revert w. induction coinIds as [|coinId rest IH]; intros w Hsteady Hnet; cbn;
    [lia|].
  rewrite getCryptoByIdOrSymbol_world, apiRequest_cases; cbn zeta.
  destruct (cacheHit _ _) as [data|] eqn:Hhit.
  - cbn [snd]. apply (IH (ticked w)).
    + intros i j Hi Hij Hj. apply Hsteady; cbn in *; lia.
    + exact Hnet.
  - destruct Hnet as (status & data & -> & ->). cbn [snd].
    rewrite (quotes_served_from_cache rest _
               (CacheEntry.mk data (clock env (ticks w)))).
    + cbn. rewrite length_app. cbn. lia.
    + cbn. apply lookup_insert_eq.
    + intros j Hlo Hhi. cbn in *. apply Hsteady; lia.
Qed.

(** X14. A valuation costs at most one external call: when the readings of
    the clock made during [getPortfolio] lie within one window of the cache
    and the price source answers the next call, the valuation of a
    portfolio of any number of positions makes no more than one external
    call. *)
Theorem valuation_costs_one_call (runtime : Runtime.t) (userId : string) (w : World) :
  steady env (ticks w) (ticks w + length (holdings env runtime userId w)) ->
  (exists status data,
      network env (length (fetched w))
        (API_BASE_URL ++ marketsEndpoint 100 "usd") = Response status (Some data)
      /\ ok status = true) ->
  (length (fetched (snd (getPortfolio env runtime userId w)))
   <= S (length (fetched w)))%nat.
Proof.
  intros Hsteady Hnet. rewrite getPortfolio_cases; cbn zeta.
  destruct (afterRoom_frame userId w) as (_ & Hticks & _ & Hfetched).
  destruct (holdings env runtime userId w) as [|item rest] eqn:Hheld.
  - cbn. rewrite Hfetched. lia.
  - cbn [snd].
    pose proof (quotes_call_once (List.map PortfolioItem.coinId (item :: rest))
                  (ticked (afterRoom userId w))) as Hcalls.
    cbn [fetched ticked ticks] in Hcalls. rewrite Hfetched, Hticks in Hcalls.
    apply Hcalls.
    + intros i j Hi Hij Hj. rewrite length_map in Hj.
      apply Hsteady; cbn in *; lia.
    + exact Hnet.
Qed.

End MoreValuationFacts.

(** Two positions, a cold cache, a price source that answers: one call. *)
Lemma valuation_costs_one_call_witness :
  holdings Scenario.online Fixture.runtime Fixture.owner Scenario.cold
    = [PortfolioItem.mk "bitcoin" "BTC" "Bitcoin" 2 100 2000;
       PortfolioItem.mk "ethereum" "ETH" "Ethereum" 10 40 6000]
  /\ (length (fetched (snd (getPortfolio Scenario.online Fixture.runtime
                              Fixture.owner Scenario.cold))) <= 1)%nat
  /\ fetched (snd (getPortfolio Scenario.online Fixture.runtime Fixture.owner
                     Scenario.cold))
      = [(API_BASE_URL ++ Fixture.markets)%string].
Proof.
  split; [vm_compute; reflexivity|]. split; [|vm_compute; reflexivity].
  apply (valuation_costs_one_call Scenario.online Fixture.runtime Fixture.owner
           Scenario.cold).
  - assert (Hhi : (ticks Scenario.cold
                   + length (holdings Scenario.online Fixture.runtime Fixture.owner
                               Scenario.cold))%nat = 2%nat)
      by (vm_compute; reflexivity).
    rewrite Hhi. intros i j Hi Hij Hj.
    cbn [clock Scenario.online]. unfold Fixture.seconds, CACHE_DURATION. lia.
  - exists 200, Fixture.topCoins. split; reflexivity.
Defined.

(** The items of the portfolio [getPortfolio] returns. *)
Lemma getPortfolio_items (env : Env) (runtime : Runtime.t) (userId : string)
    (w w' : World) (portfolio : PortfolioView.t) :
  getPortfolio env runtime userId w = (Ret (Some portfolio), w') ->
  PortfolioView.items portfolio
    = zip_with attach (List.map unpriced (holdings env runtime userId w))
        (quotes env (List.map PortfolioItem.coinId (holdings env runtime userId w))
           (ticked (afterRoom userId w))).
Proof.
  rewrite getPortfolio_cases; cbn zeta.
  destruct (holdings env runtime userId w); [discriminate|].
  intros [= <- _]. reflexivity.
Qed.

Lemma unpriced_lines (stored : list PortfolioItem.t)
    (asked : list (option CryptoPrice.t)) :
  Forall (fun quote => quote = None) asked ->
  omap reportLine (zip_with attach (List.map unpriced stored) asked) = [].
Proof.
  revert asked. induction stored as [|item rest IH]; intros [|quote asked] Hall;
    cbn; try reflexivity.
  inversion Hall as [|? ? -> Hrest]; subst. cbn. apply IH, Hrest.
Qed.

Section MoreViewFacts.

Variable env : Env.
Variable viewPatternsMatch : string -> bool.

(** X15. An owner without positions is told so, and nothing else happens: on a
    request to view, when the owner holds nothing (no portfolio memory, or an
    empty one), the VIEW_PORTFOLIO handler answers that there is no portfolio
    yet and reports the message as handled; it does not throw, makes no
    external call, reads no price and writes nothing. *)
Theorem empty_portfolio_is_not_an_error (runtime : Runtime.t)
    (message : Message.t) (w : World) :
  viewPatternsMatch (toLowerCase (Message.text message)) = true ->
  holdings env runtime (Message.userId message) w = [] ->
  exists w',
    viewPortfolioHandler env viewPatternsMatch runtime message w
      = (Ret (true, Some NoPortfolioYet), w')
    /\ fetched w' = fetched w /\ cache w' = cache w /\ db w' = db w
    /\ ticks w' = ticks w.
Proof.
  intros Hview Hnone.
  unfold viewPortfolioHandler, try_catch, bind, detectPortfolioRequest.
  rewrite Hview. cbn [negb]. cbv beta.
  rewrite hasPortfolio_cases, Hnone. cbn.
  destruct (afterRoom_frame (Message.userId message) w) as (Hdb & Hticks & Hcache & Hfetched).
  eexists. split; [reflexivity|]. auto.
Qed.

(** X16. When no position gets a price, the report is empty and its overall
    percentage is not a number: on a request to view by an owner (with a UUID
    id) who holds positions none of whose quotes comes back, the handler still
    answers with a report and reports success; the report has no line, the
    totals are 0, and the overall profit in percent, 0 divided by 0 times
    100, is NaN. *)
Theorem unpriced_portfolio_reports_nan (runtime : Runtime.t)
    (message : Message.t) (w : World) :
  let userId := Message.userId message in
  let stored := holdings env runtime userId w in
  viewPatternsMatch (toLowerCase (Message.text message)) = true ->
  isUUID userId = true ->
  stored <> [] ->
  Forall (fun quote => quote = None)
    (quotes env (List.map PortfolioItem.coinId stored) (ticked w)) ->
  exists report w',
    viewPortfolioHandler env viewPatternsMatch runtime message w
      = (Ret (true, Some (PortfolioReport report)), w')
    /\ Report.lines report = []
    /\ Report.totalInvested report = 0%float
    /\ Report.totalCurrentValue report = 0%float
    /\ Report.totalProfitLoss report = 0%float
    /\ Report.totalProfitLossPercent report = PrimFloat.nan.
Proof.
  intros userId stored Hview Huuid Hheld Hquotes.
  destruct (viewPortfolioHandler_reports env viewPatternsMatch runtime message w
              Hview Huuid Hheld) as (portfolio & w' & Hrun & Hhandler).
  exists (buildReport portfolio), w'. split; [exact Hhandler|].
  pose proof (getPortfolio_items env runtime userId w w' portfolio Hrun) as Hitems.
  unfold afterRoom in Hitems. rewrite Huuid in Hitems. fold stored in Hitems.
  unfold buildReport. rewrite report_loop. cbn zeta.
  rewrite Hitems, (unpriced_lines stored _ Hquotes). cbn.
  repeat split; reflexivity.
Qed.

End MoreViewFacts.

(** An owner who bought nothing asks for the portfolio. *)
Lemma empty_portfolio_is_not_an_error_witness :
  viewPortfolioHandler Fixture.offline (fun _ => true) Fixture.runtime
    (Fixture.says "show my portfolio") Fixture.start
  = (Ret (true, Some NoPortfolioYet), Fixture.start).
Proof.
  destruct (empty_portfolio_is_not_an_error Fixture.offline (fun _ => true)
              Fixture.runtime (Fixture.says "show my portfolio") Fixture.start)
    as (w' & Hrun & _); [reflexivity | reflexivity |].
  rewrite Hrun. f_equal.
  vm_compute in Hrun. injection Hrun as <-. reflexivity.
Defined.

(** The owner of two positions asks for the portfolio while the price source
    is down and nothing is cached. *)
Lemma unpriced_portfolio_reports_nan_witness :
  exists report w',
    viewPortfolioHandler Scenario.offline (fun _ => true) Fixture.runtime
      (Fixture.says "show my portfolio") Scenario.cold
      = (Ret (true, Some (PortfolioReport report)), w')
    /\ Report.lines report = []
    /\ Report.totalProfitLossPercent report = PrimFloat.nan
    /\ length (fetched w') = 2%nat.
Proof.
  destruct (unpriced_portfolio_reports_nan Scenario.offline (fun _ => true)
              Fixture.runtime (Fixture.says "show my portfolio") Scenario.cold)
    as (report & w' & Hrun & Hlines & _ & _ & _ & Hnan);
    try (vm_compute; reflexivity).
  - vm_compute. discriminate.
  - vm_compute. repeat constructor.
  - exists report, w'. split; [exact Hrun|]. split; [exact Hlines|].
    split; [exact Hnan|].
    vm_compute in Hrun. injection Hrun as _ <-. reflexivity.
Defined.

(* ===================================================================== *)
(** * Further properties of the handlers and of the provider              *)
(* ===================================================================== *)

Lemma detectCoin_first (entries : list (string * string)) (text id : string) :
  detectCoin entries text = id ->
  id <> "" ->
  exists before term after,
    entries = (before ++ (term, id) :: after)%list
    /\ includes text term = true
    /\ Forall (fun entry => includes text (fst entry) = false) before.
Proof.
  induction entries as [|[term0 id0] rest IH]; cbn; intros Hid Hne.
  - congruence.
  - destruct (includes text term0) eqn:Hterm.
    + subst id0. exists [], term0, rest. auto.
    + destruct (IH Hid Hne) as (before & term & after & -> & Hin & Hbefore).
      exists ((term0, id0) :: before), term, after. repeat split; auto.
Qed.

Section GateFacts.

Variable quantityPatternsMatch : string -> option float.
Variable pricePatternsMatch : string -> option float.

(** X17. What [extractCoinPurchaseData] lets through: when it returns a
    purchase, a quantity and a price were both read from the message and
    neither is [<= 0], and the coin is that of the first entry of the table,
    in the table's order, whose term occurs somewhere in the lower-cased
    text (as a substring, whatever else the text mentions, wherever it
    stands). *)
Theorem extraction_result (text coinId : string) (quantity price : float) :
  extractCoinPurchaseData quantityPatternsMatch pricePatternsMatch text
    = Some (coinId, quantity, price) ->
  let normalizedText := toLowerCase text in
  quantityPatternsMatch normalizedText = Some quantity
  /\ pricePatternsMatch normalizedText = Some price
  /\ PrimFloat.leb quantity 0 = false
  /\ PrimFloat.leb price 0 = false
  /\ exists before term after,
       cryptoMap = (before ++ (term, coinId) :: after)%list
       /\ includes normalizedText term = true
       /\ Forall (fun entry => includes normalizedText (fst entry) = false) before.
Proof.
  intros Hsome normalizedText. unfold extractCoinPurchaseData in Hsome.
  fold normalizedText in Hsome.
  destruct (String.eqb_spec (detectCoin cryptoMap normalizedText) "") as [|Hcoin];
    [discriminate|].
  destruct (quantityPatternsMatch normalizedText) as [q|];
    [|cbn in Hsome; discriminate].
  destruct (PrimFloat.leb q 0) eqn:Hq; [discriminate|].
  destruct (pricePatternsMatch normalizedText) as [p|];
    [|cbn in Hsome; discriminate].
  destruct (PrimFloat.leb p 0) eqn:Hp; [discriminate|].
  injection Hsome as Hid <- <-.
  repeat split; auto.
  apply detectCoin_first; [exact Hid | rewrite <- Hid; exact Hcoin].
Qed.

End GateFacts.

(** "i sold my eth and bought 2 btc at $50": the table has bitcoin before
    ethereum. *)
Lemma extraction_result_witness :
  extractCoinPurchaseData (fun _ => Some 2%float) (fun _ => Some 50%float)
    "I sold my ETH and bought 2 BTC at $50" = Some ("bitcoin", 2%float, 50%float)
  /\ exists before term after,
       cryptoMap = (before ++ (term, "bitcoin") :: after)%list
       /\ includes "i sold my eth and bought 2 btc at $50" term = true
       /\ Forall (fun entry =>
                    includes "i sold my eth and bought 2 btc at $50" (fst entry)
                    = false) before.
Proof.
  split; [reflexivity|].
  destruct (extraction_result (fun _ => Some 2%float) (fun _ => Some 50%float)
              "I sold my ETH and bought 2 BTC at $50" "bitcoin" 2 50 eq_refl)
    as (_ & _ & _ & _ & Hentry).
  exact Hentry.
Defined.

Lemma sameMention_eq (a b : Mention) : sameMention a b = true <-> a = b.
Proof.
  destruct a, b; cbn; rewrite ?String.eqb_eq; split; try congruence;
    try discriminate.
Qed.

Lemma setAdd_elem (value m : Mention) (detected : list Mention) :
  m ∈ setAdd value detected <-> m = value \/ m ∈ detected.
Proof.
  unfold setAdd. destruct (existsb (sameMention value) detected) eqn:Hin.
  - split; [auto|]. intros [-> | H]; [|exact H].
    apply existsb_exists in Hin as (x & Hx & Hsame).
    apply sameMention_eq in Hsame. subst x. apply list_elem_of_In, Hx.
  - rewrite elem_of_app, list_elem_of_singleton. tauto.
Qed.

Lemma setAdd_NoDup (value : Mention) (detected : list Mention) :
  NoDup detected -> NoDup (setAdd value detected).
Proof.
  intros Hnd. unfold setAdd.
  destruct (existsb (sameMention value) detected) eqn:Hin; [exact Hnd|].
  apply NoDup_app. split; [exact Hnd|]. split.
  - intros x Hx Hv. apply list_elem_of_singleton in Hv. subst x.
    assert (Hyes : existsb (sameMention value) detected = true).
    { apply existsb_exists. exists value. split.
      - apply list_elem_of_In, Hx.
      - apply sameMention_eq. reflexivity. }
    congruence.
  - apply NoDup_singleton.
Qed.

(** The loop of [extractCryptoMentions], from any set. *)
Lemma mentions_loop (words : list string) (detected : list Mention) :
  let result :=
    List.fold_left
      (fun detectedCoins word =>
         match lookupMention word with
         | Some value => setAdd value detectedCoins
         | None => detectedCoins
         end)
      words detected in
  (NoDup detected -> NoDup result)
  /\ forall m,
       m ∈ result
       <-> m ∈ detected \/ exists word, word ∈ words /\ lookupMention word = Some m.
Proof.
  revert detected. induction words as [|word words IH]; intros detected; cbn.
  - split; [auto|]. intros m. split; [auto|].
    intros [H | (word & Hin & _)]; [exact H | inversion Hin].
  - destruct (lookupMention word) as [value|] eqn:Hword.
    + destruct (IH (setAdd value detected)) as [Hnd Helem].
      split; [intros H; apply Hnd, setAdd_NoDup, H|].
      intros m. rewrite Helem, setAdd_elem. split.
      * intros [[-> | H] | (word' & Hin & Hm)]; auto.
        -- right. exists word. split; [left | exact Hword].
        -- right. exists word'. split; [right; exact Hin | exact Hm].
      * intros [H | (word' & Hin & Hm)]; auto.
        apply elem_of_cons in Hin as [-> | Hin].
        -- left. left. congruence.
        -- right. eauto.
    + destruct (IH detected) as [Hnd Helem].
      split; [exact Hnd|].
      intros m. rewrite Helem. split.
      * intros [H | (word' & Hin & Hm)]; auto.
        right. exists word'. split; [right; exact Hin | exact Hm].
      * intros [H | (word' & Hin & Hm)]; auto.
        apply elem_of_cons in Hin as [-> | Hin]; [congruence|].
        right. eauto.
Qed.

Lemma ownEntry_In (entries : list (string * string)) (word id : string) :
  ownEntry entries word = Some id -> In (word, id) entries.
Proof.
  induction entries as [|[term id0] rest IH]; cbn; [discriminate|].
  destruct (String.eqb_spec term word) as [-> |]; [|auto].
  intros [= ->]. auto.
Qed.

(** X18. [extractCryptoMentions] reports each coin once and by whole words
    only: its result has no duplicates, whatever the number of times and the
    spellings under which a coin is mentioned, and a value is in the result
    exactly when some piece of the lower-cased text, cut at the runs of
    non-word characters, is a key under which the map gives that value. *)
Theorem mentions_are_distinct_whole_words (text : string) :
  NoDup (extractCryptoMentions text)
  /\ forall m,
       m ∈ extractCryptoMentions text
       <-> exists word,
             word ∈ splitNonWord (toLowerCase text) /\ lookupMention word = Some m.
Proof.
  unfold extractCryptoMentions; cbn zeta.
  destruct (mentions_loop (splitNonWord (toLowerCase text)) []) as [Hnd Helem].
  split; [apply Hnd; constructor|].
  intros m. rewrite (Helem m). split.
  - intros [H | H]; [inversion H | exact H].
  - auto.
Qed.

(** X19. Mentions do not depend on the case of the message, and what is
    detected is an id of the map unless the message contains, as a word, a
    name that the map object inherits: when neither "constructor" nor
    "__proto__" is a piece of the lower-cased text, every detected value is
    an id written in the map; when one of them is, it is detected as well,
    although it is no coin. *)
Theorem mentions_are_ids_of_the_map (text : string) :
  extractCryptoMentions (toUpperCase text) = extractCryptoMentions text
  /\ extractCryptoMentions (toLowerCase text) = extractCryptoMentions text
  /\ (forall m,
        m ∈ extractCryptoMentions text ->
        (exists term id, m = Coin id /\ In (term, id) mentionMap)
        \/ (exists key,
              m = Inherited key /\ In key inheritedKeys
              /\ key ∈ splitNonWord (toLowerCase text)))
  /\ (forall key,
        In key inheritedKeys ->
        key ∈ splitNonWord (toLowerCase text) ->
        Inherited key ∈ extractCryptoMentions text).
Proof.
  split; [|split; [|split]].
  - unfold extractCryptoMentions. now rewrite toLowerCase_toUpperCase.
  - unfold extractCryptoMentions. now rewrite toLowerCase_toLowerCase.
  - intros m Hm.
    unfold extractCryptoMentions in Hm; cbn zeta in Hm.
    destruct (mentions_loop (splitNonWord (toLowerCase text)) []) as [_ Helem].
    apply Helem in Hm as [Hm | (word & Hword & Hlook)]; [inversion Hm|].
    unfold lookupMention in Hlook.
    destruct (ownEntry mentionMap word) as [id|] eqn:Hown.
    + injection Hlook as <-. left. exists word, id. split; [reflexivity|].
      apply ownEntry_In, Hown.
    + destruct (existsb (String.eqb word) inheritedKeys) eqn:Hinh; [|discriminate].
      injection Hlook as <-. right. exists word. split; [reflexivity|].
      split; [|exact Hword].
      apply existsb_exists in Hinh as (key & Hkey & Heq).
      apply String.eqb_eq in Heq. subst key. exact Hkey.
  - intros key Hkey Hword.
    unfold extractCryptoMentions; cbn zeta.
    destruct (mentions_loop (splitNonWord (toLowerCase text)) []) as [_ Helem].
    apply Helem. right. exists key. split; [exact Hword|].
    destruct Hkey as [<- | [<- | []]]; reflexivity.
Qed.

(** "BTC", "bitcoin" and "Bitcoin" are one coin; "constructor" is detected
    too. *)
Lemma mentions_are_ids_of_the_map_witness :
  extractCryptoMentions "Is BTC or bitcoin above Ethereum? Bitcoin constructor"
    = [Coin "bitcoin"; Coin "ethereum"; Inherited "constructor"]
  /\ Inherited "constructor"
      ∈ extractCryptoMentions "Is BTC or bitcoin above Ethereum? Bitcoin constructor".
Proof.
  split; [vm_compute; reflexivity|].
  destruct (mentions_are_ids_of_the_map
              "Is BTC or bitcoin above Ethereum? Bitcoin constructor")
    as (_ & _ & _ & Hinherited).
  apply Hinherited.
  - left. reflexivity.
  - vm_compute. repeat (first [left | right]).
Defined.

Section ProviderFacts.

Variable env : Env.
Variable directPatternMatch : string -> bool.
Variable recommendationPatternMatch : string -> bool.

Lemma apiRequest_calls (endpoint : string) (w : World) :
  (length (fetched (snd (apiRequest env endpoint w))) <= S (length (fetched w)))%nat.
Proof.
  rewrite apiRequest_cases; cbn zeta.
  destruct (cacheHit _ _); [cbn; lia|].
  destruct (network env _ _) as [|status body]; cbn; [rewrite length_app; cbn; lia|].
  destruct (ok status); [destruct body|]; cbn; rewrite length_app; cbn; lia.
Qed.

Lemma collectOne_run (coinId : Mention) (coinData : list CoinDatum.t) (w : World) :
  exists out w',
    collectOne env coinId coinData w = (Ret out, w')
    /\ db w' = db w
    /\ (length (fetched w') <= S (length (fetched w)))%nat
    /\ (length out <= S (length coinData))%nat.
Proof.
  unfold collectOne, try_catch, bind.
  destruct coinId as [id|key]; cbn [resolveMention].
  - destruct (getCryptoByIdOrSymbol_returns env id "usd" w) as [r Hr].
    destruct (getCryptoByIdOrSymbol_frame env id "usd" w) as (Hdb & _).
    pose proof (apiRequest_calls (marketsEndpoint 100 "usd") w) as Hcalls.
    rewrite Hr in *. cbn [snd] in Hdb.
    destruct r as [coin|]; cbn; eexists _, _; (split; [reflexivity|]);
      repeat split; try assumption; try lia.
    rewrite length_app. cbn. lia.
  - cbn. eexists _, _. split; [reflexivity|]. repeat split; lia.
Qed.

(** The loop of the provider: it returns, keeps the table, and makes at most
    one external call and one element of [coinData] per coin. *)
Lemma collectCoinData_run (coinIds : list Mention) (coinData : list CoinDatum.t)
    (w : World) :
  exists out w',
    collectCoinData env coinIds coinData w = (Ret out, w')
    /\ db w' = db w
    /\ (length (fetched w') <= length (fetched w) + length coinIds)%nat
    /\ (length out <= length coinData + length coinIds)%nat.
Proof.
  revert coinData w. induction coinIds as [|coinId rest IH]; intros coinData w.
  - cbn. eexists _, _. split; [reflexivity|]. repeat split; lia.
  - cbn [collectCoinData]. unfold bind.
    destruct (collectOne_run coinId coinData w) as (mid & w1 & -> & Hdb1 & Hf1 & Hout1).
    destruct (IH mid w1) as (out & w' & -> & Hdb' & Hf & Hout).
    eexists _, _. split; [reflexivity|].
    cbn [length]. repeat split; [congruence | lia | lia].
Qed.

(** X20. The provider is bounded and harmless: for every message, state and
    behaviour of the price source, [cryptoProvider.get] returns (it does not
    throw), makes at most three external calls however many coins the message
    mentions, leaves the table as it was, and when it returns a context that
    context lists between one and three coins. *)
Theorem provider_is_bounded (runtime : Runtime.t) (message : Message.t)
    (state : option (option CryptoStateData.t)) (w : World) :
  exists context state' w',
    cryptoProviderGet env directPatternMatch recommendationPatternMatch runtime
      message state w = (Ret (context, state'), w')
    /\ db w' = db w
    /\ (length (fetched w') <= length (fetched w) + 3)%nat
    /\ (forall info,
          context = Some info ->
          (1 <= length (ContextInfo.coins info) <= 3)%nat).
Proof.
  unfold cryptoProviderGet, try_catch.
  destruct (String.eqb (Message.userId message) (Runtime.agentId runtime)).
  { cbn. eexists _, _, _. split; [reflexivity|].
    repeat split; [lia | discriminate | discriminate]. }
  destruct (Nat.eqb (length (extractCryptoMentions (Message.text message))) 0).
  { cbn. eexists _, _, _. split; [reflexivity|].
    repeat split; [lia | discriminate | discriminate]. }
  unfold bind at 1.
  destruct (collectCoinData_run (take 3 (extractCryptoMentions (Message.text message)))
              [] w) as (out & w' & -> & Hdb & Hf & Hout).
  assert (Hthree : (length (take 3 (extractCryptoMentions (Message.text message))) <= 3)%nat).
  { rewrite length_take. lia. }
  cbn [length] in Hout.
  destruct (Nat.eqb_spec (length out) 0) as [Hzero | Hpos].
  { cbn. eexists _, _, _. split; [reflexivity|].
    repeat split; [exact Hdb | lia | discriminate | discriminate]. }
  destruct state as [cryptoData|]; cbn.
  - eexists _, _, _. split; [reflexivity|].
    split; [exact Hdb|]. split; [cbn; lia|].
    intros info [= <-]. cbn. lia.
  - eexists _, _, _. split; [reflexivity|].
    split; [exact Hdb|]. split; [lia|].
    intros info [= <-]. cbn. lia.
Qed.

(** X21. The provider stays silent, and asks nothing, when there is nothing to
    say: for a message of the agent itself, or a message that mentions no
    coin, it returns the empty context and the state it was given, and the
    world is exactly what it was (no external call, no reading of the
    clock). *)
Theorem provider_stays_silent (runtime : Runtime.t) (message : Message.t)
    (state : option (option CryptoStateData.t)) (w : World) :
  Message.userId message = Runtime.agentId runtime
  \/ extractCryptoMentions (Message.text message) = [] ->
  cryptoProviderGet env directPatternMatch recommendationPatternMatch runtime
    message state w = (Ret (None, state), w).
Proof.
  intros Hquiet. unfold cryptoProviderGet, try_catch.
  destruct (String.eqb_spec (Message.userId message) (Runtime.agentId runtime))
    as [|Hother]; [reflexivity|].
  destruct Hquiet as [Hself | Hnone]; [contradiction|].
  rewrite Hnone. reflexivity.
Qed.

End ProviderFacts.

(** Five coins are mentioned; on a day when no cache entry is ever fresh the
    provider calls three times, not five, and lists the one coin whose call
    was answered. *)
Lemma provider_is_bounded_witness :
  length (extractCryptoMentions "btc eth sol doge ada") = 5%nat
  /\ exists info state' w',
       cryptoProviderGet Fixture.degraded (fun _ => false) (fun _ => false)
         Fixture.runtime (Scenario.says "btc eth sol doge ada") None Fixture.start
         = (Ret (Some info, state'), w')
       /\ length (fetched w') = 3%nat
       /\ length (ContextInfo.coins info) = 1%nat.
Proof.
  split; [vm_compute; reflexivity|].
  destruct (provider_is_bounded Fixture.degraded (fun _ => false) (fun _ => false)
              Fixture.runtime (Scenario.says "btc eth sol doge ada") None
              Fixture.start) as (context & state' & w' & Hrun & _).
  destruct context as [info|]; [|vm_compute in Hrun; discriminate].
  exists info, state', w'. split; [exact Hrun|].
  vm_compute in Hrun. injection Hrun as <- _ <-. split; reflexivity.
Defined.

(** A message about the weather. *)
Lemma provider_stays_silent_witness :
  cryptoProviderGet Fixture.online (fun _ => true) (fun _ => true) Fixture.runtime
    (Scenario.says "Will it rain on my bitcoins tomorrow?") (Some None)
    Fixture.start
  = (Ret (None, Some None), Fixture.start).
Proof.
  apply (provider_stays_silent Fixture.online (fun _ => true) (fun _ => true)
           Fixture.runtime (Scenario.says "Will it rain on my bitcoins tomorrow?")
           (Some None) Fixture.start).
  right. vm_compute. reflexivity.
Defined.

(* ===================================================================== *)
(** * The CRYPTO_PRICE handler                                            *)
(* ===================================================================== *)

Section PriceActionFacts.

Variable env : Env.
Variable topPatternMatch : string -> option N.
Variable otherIsEmptyLike : bool.
Variable otherShape : DetailShape.
Variable directPatternMatch : string -> bool.
Variable recommendationPatternMatch : string -> bool.

(** [getCryptoDetails] is its request: same result, same effect, the payload
    under [Some]. *)
Lemma getCryptoDetails_cases (id : string) (w : World) :
  getCryptoDetails env id w =
    match fst (apiRequest env (detailsEndpoint id) w) with
    | Ret data => (Ret (Some data), snd (apiRequest env (detailsEndpoint id) w))
    | Throw error => (Throw error, snd (apiRequest env (detailsEndpoint id) w))
    end.
Proof.
  unfold getCryptoDetails, try_return, bind.
  destruct (apiRequest env (detailsEndpoint id) w) as [[data|error] w']; reflexivity.
Qed.

Lemma answerTop_run (count : N) (w : World) :
  answers 1 (answerTop env otherIsEmptyLike count) w.
Proof.
  unfold answers, answerTop, getTopCryptos, try_catch, bind.
  destruct (apiRequest_frame env (marketsEndpoint count "usd") w) as (Hdb & Hdraws & _).
  pose proof (apiRequest_calls env (marketsEndpoint count "usd") w) as Hcalls.
  destruct (apiRequest env (marketsEndpoint count "usd") w) as [[[[|c coins]|]|e] w'];
    cbn [fst snd] in *; try destruct otherIsEmptyLike; cbn;
    eexists _, _, _; (split; [reflexivity|]); repeat split; try assumption; lia.
Qed.

Lemma answerMention_run (coinId : Mention) (w : World) :
  answers 1 (answerMention env coinId) w.
Proof.
  unfold answers, answerMention, try_catch, bind.
  destruct coinId as [id|key]; cbn [resolveMention].
  - destruct (getCryptoByIdOrSymbol_returns env id "usd" w) as [r Hr].
    destruct (getCryptoByIdOrSymbol_frame env id "usd" w) as (Hdb & Hdraws & _).
    pose proof (apiRequest_calls env (marketsEndpoint 100 "usd") w) as Hcalls.
    rewrite Hr in *. cbn [snd] in Hdb, Hdraws.
    set (w1 := snd (apiRequest env (marketsEndpoint 100 "usd") w)) in *.
    clearbody w1.
    destruct r as [coin|]; cbn; eexists _, _, _; (split; [reflexivity|]);
      repeat split; try assumption; lia.
  - cbn. eexists _, _, _. split; [reflexivity|]. repeat split; lia.
Qed.

Lemma answerDirect_run (coinId : Mention) (w : World) :
  answers 2 (answerDirect env otherShape coinId) w.
Proof.
  unfold answers, answerDirect, try_catch. unfold bind at 1.
  destruct coinId as [id|key]; cbn [resolveMention].
  - destruct (getCryptoByIdOrSymbol_returns env id "usd" w) as [r Hr].
    destruct (getCryptoByIdOrSymbol_frame env id "usd" w) as (Hdb & Hdraws & _).
    pose proof (apiRequest_calls env (marketsEndpoint 100 "usd") w) as Hcalls.
    rewrite Hr in *. cbn [snd] in Hdb, Hdraws.
    set (w1 := snd (apiRequest env (marketsEndpoint 100 "usd") w)) in *.
    clearbody w1.
    destruct r as [coin|].
    + unfold bind. rewrite getCryptoDetails_cases.
      destruct (apiRequest_frame env (detailsEndpoint (CryptoPrice.id coin)) w1)
        as (Hdb2 & Hdraws2 & _).
      pose proof (apiRequest_calls env (detailsEndpoint (CryptoPrice.id coin)) w1)
        as Hcalls2.
      destruct (apiRequest env (detailsEndpoint (CryptoPrice.id coin)) w1)
        as [[data|e] w2]; cbn [fst snd] in *.
      * destruct (detailShape otherShape data); cbn;
          eexists _, _, _; (split; [reflexivity|]);
          repeat split; try congruence; lia.
      * cbn. eexists _, _, _. split; [reflexivity|].
        repeat split; try congruence; lia.
    + cbn. eexists _, _, _. split; [reflexivity|].
      repeat split; try assumption; lia.
  - cbn. eexists _, _, _. split; [reflexivity|]. repeat split; lia.
Qed.

Lemma answers_more (n m : nat) (c : M (bool * option PriceReply)) (w : World) :
  (n <= m)%nat -> answers n c w -> answers m c w.
Proof.
  intros Hle (handled & reply & w' & Hrun & Hdb & Hdraws & Hcalls).
  exists handled, reply, w'. repeat split; try assumption. lia.
Qed.

(** The handler, once its own [catch] is known not to run. *)
Lemma caught_answers (n : nat) (c : M (bool * option PriceReply))
    (h : Error -> M (bool * option PriceReply)) (w : World) :
  answers n c w -> try_catch c h w = c w.
Proof.
  intros (handled & reply & w' & Hrun & _). unfold try_catch. rewrite Hrun.
  reflexivity.
Qed.

(** X22. The CRYPTO_PRICE handler is bounded and harmless: for every message,
    every state data of the provider and every behaviour of the price source
    it returns a boolean (no error leaves it), makes at most two external
    calls, and leaves the table of memories and the generator of ids as they
    were; and it ends without a reply only when it returns false having done
    nothing at all (no call, no reading of the clock). *)
Theorem price_handler_is_bounded (message : Message.t)
    (state : option CryptoStateData.t) (w : World) :
  exists handled reply w',
    cryptoActionHandler env topPatternMatch otherIsEmptyLike otherShape
      message state w = (Ret (handled, reply), w')
    /\ db w' = db w
    /\ draws w' = draws w
    /\ (length (fetched w') <= length (fetched w) + 2)%nat
    /\ (reply = None -> handled = false /\ w' = w).
Proof.
  assert (Hlift : forall c : M (bool * option PriceReply),
            answers 2 c w ->
            exists handled reply w',
              c w = (Ret (handled, reply), w')
              /\ db w' = db w /\ draws w' = draws w
              /\ (length (fetched w') <= length (fetched w) + 2)%nat
              /\ (reply = None -> handled = false /\ w' = w)).
  { intros c (handled & reply & w' & Hrun & Hdb & Hdraws & Hcalls).
    exists handled, (Some reply), w'. repeat split; try assumption; discriminate. }
  assert (Hquiet : forall (handled : bool) (reply : option PriceReply),
            (reply = None -> handled = false) ->
            exists handled' reply' w',
              (Ret (handled, reply), w) = (Ret (handled', reply'), w')
              /\ db w' = db w /\ draws w' = draws w
              /\ (length (fetched w') <= length (fetched w) + 2)%nat
              /\ (reply' = None -> handled' = false /\ w' = w)).
  { intros handled reply Hsilent. exists handled, reply, w.
    repeat split; try lia. auto. }
  assert (Hwithout : forall h,
            exists handled reply w',
              try_catch (answerWithoutState env (Message.text message)) h w
                = (Ret (handled, reply), w')
              /\ db w' = db w /\ draws w' = draws w
              /\ (length (fetched w') <= length (fetched w) + 2)%nat
              /\ (reply = None -> handled = false /\ w' = w)).
  { intros h. unfold answerWithoutState.
    destruct (extractCryptoMentions (Message.text message)) as [|coinId rest].
    - apply Hquiet. reflexivity.
    - pose proof (answerMention_run coinId w) as Hrun.
      rewrite (caught_answers 1 _ _ _ Hrun).
      apply Hlift, (answers_more 1); [lia | exact Hrun]. }
  unfold cryptoActionHandler; cbn zeta.
  destruct (topPatternMatch (Message.text message)) as [count|].
  { pose proof (answerTop_run count w) as Hrun.
    rewrite (caught_answers 1 _ _ _ Hrun).
    apply Hlift, (answers_more 1); [lia | exact Hrun]. }
  destruct state as [cryptoData|]; [|apply Hwithout].
  destruct (CryptoStateData.contextType cryptoData).
  - destruct (CryptoStateData.coins cryptoData) as [|coin rest];
      apply Hquiet; discriminate.
  - destruct (extractCryptoMentions (Message.text message)) as [|coinId rest] eqn:Hm.
    + unfold answerWithoutState. rewrite Hm. apply Hquiet. reflexivity.
    + pose proof (answerDirect_run coinId w) as Hrun.
      rewrite (caught_answers 2 _ _ _ Hrun). apply Hlift, Hrun.
  - destruct (CryptoStateData.coins cryptoData) as [|coin rest];
      apply Hquiet; discriminate.
Qed.

(** X23. The provider and the handler, one after the other on the same
    message.  When the provider, given a state object, offers a context, and
    the message is no "top N" request and is either a recommendation request
    or no direct request, then the provider has left its data in the state,
    and the handler run on that state returns true with a reply about the
    first coin of the context (the recommendation text for a recommendation
    request, the mention text otherwise) without asking the price source
    again: the world is exactly what the provider left. *)
Theorem handler_answers_from_provider_state (runtime : Runtime.t)
    (message : Message.t) (before : option CryptoStateData.t) (w : World)
    (info : ContextInfo.t) (state' : option (option CryptoStateData.t))
    (w1 : World) :
  cryptoProviderGet env directPatternMatch recommendationPatternMatch runtime
    message (Some before) w = (Ret (Some info, state'), w1) ->
  topPatternMatch (Message.text message) = None ->
  recommendationPatternMatch (toLowerCase (Message.text message)) = true
  \/ directPatternMatch (toLowerCase (Message.text message)) = false ->
  exists data coin,
    state' = Some (Some data)
    /\ CryptoStateData.coins data = ContextInfo.coins info
    /\ head (ContextInfo.coins info) = Some coin
    /\ cryptoActionHandler env topPatternMatch otherIsEmptyLike otherShape
         message (Some data) w1
       = (Ret (true,
               Some (if recommendationPatternMatch (toLowerCase (Message.text message))
                     then Recommendation_ coin else Mentioned coin)),
          w1).
Proof.
  intros Hrun Htop Hkind. unfold cryptoProviderGet, try_catch in Hrun.
  destruct (String.eqb (Message.userId message) (Runtime.agentId runtime));
    [discriminate|].
  destruct (Nat.eqb (length (extractCryptoMentions (Message.text message))) 0);
    [discriminate|].
  unfold bind at 1 in Hrun.
  destruct (collectCoinData_run env
              (take 3 (extractCryptoMentions (Message.text message))) [] w)
    as (out & w' & Hloop & _).
  rewrite Hloop in Hrun.
  destruct out as [|coin rest]; [discriminate|].
  cbn in Hrun. injection Hrun as <- <- <-.
  eexists _, coin. split; [reflexivity|]. split; [reflexivity|].
  split; [reflexivity|].
  unfold cryptoActionHandler; cbn zeta. rewrite Htop. cbn.
  destruct (recommendationPatternMatch (toLowerCase (Message.text message))).
  - reflexivity.
  - destruct Hkind as [|Hdirect]; [discriminate|]. rewrite Hdirect. reflexivity.
Qed.

(** X24. A detail record that cannot be fetched costs the whole answer.  The
    message is no "top N" request and its first mention is a coin that the
    resolver finds; the request for the detail record of that coin has to call
    the price source and the call fails.  Then, under state data of a direct
    request, the handler replies that the details could not be fetched and
    returns false, after two requests, without the summary of the coin it has
    just resolved; the same message without state data gets that summary and
    true. *)
Theorem failed_details_discard_the_summary (message : Message.t)
    (cryptoData : CryptoStateData.t) (id : string) (rest : list Mention)
    (coin : CryptoPrice.t) (w w1 : World) :
  topPatternMatch (Message.text message) = None ->
  extractCryptoMentions (Message.text message) = Coin id :: rest ->
  CryptoStateData.contextType cryptoData = DirectRequest ->
  getCryptoByIdOrSymbol env id "usd" w = (Ret (Some coin), w1) ->
  cacheHit (cache w1 !! detailsEndpoint (CryptoPrice.id coin))
    (clock env (ticks w1)) = None ->
  failed (network env (length (fetched w1))
            (API_BASE_URL ++ detailsEndpoint (CryptoPrice.id coin))) ->
  cryptoActionHandler env topPatternMatch otherIsEmptyLike otherShape
    message (Some cryptoData) w
    = (Ret (false, Some DetailsFailed),
       called (API_BASE_URL ++ detailsEndpoint (CryptoPrice.id coin)) w1)
  /\ cryptoActionHandler env topPatternMatch otherIsEmptyLike otherShape
       message None w
     = (Ret (true, Some (Summary coin)), w1).
Proof.
  intros Htop Hmention Hkind Hcoin Hmiss Hfail.
  destruct (apiRequest_failed env _ _ Hmiss Hfail) as [error Hdetails].
  unfold cryptoActionHandler; cbn zeta. rewrite Htop. split.
  - rewrite Hkind, Hmention.
    unfold answerDirect, try_catch. unfold bind at 1. cbn [resolveMention].
    rewrite Hcoin. unfold bind. rewrite getCryptoDetails_cases, Hdetails.
    reflexivity.
  - unfold answerWithoutState. rewrite Hmention.
    unfold answerMention, try_catch, bind. cbn [resolveMention].
    rewrite Hcoin. reflexivity.
Qed.

End PriceActionFacts.

(** Somebody asks whether to buy bitcoin; the provider resolves the coin and
    the handler answers from what the provider left in the state. *)
Lemma handler_answers_from_provider_state_witness :
  exists info state' w1 data coin,
    cryptoProviderGet Scenario.online (fun _ => false) (fun _ => true)
      Fixture.runtime (Scenario.says "should I buy btc?") (Some None)
      Fixture.start = (Ret (Some info, state'), w1)
    /\ state' = Some (Some data)
    /\ CoinDatum.name coin = "Bitcoin"
    /\ cryptoActionHandler Scenario.online (fun _ => None) false Unrenderable
         (Scenario.says "should I buy btc?") (Some data) w1
       = (Ret (true, Some (Recommendation_ coin)), w1).
Proof.
  eexists _, _, _.
  assert (Hrun : cryptoProviderGet Scenario.online (fun _ => false) (fun _ => true)
            Fixture.runtime (Scenario.says "should I buy btc?") (Some None)
            Fixture.start = (Ret (Some _, _), _)) by (vm_compute; reflexivity).
  destruct (handler_answers_from_provider_state Scenario.online (fun _ => None)
              false Unrenderable (fun _ => false) (fun _ => true)
              Fixture.runtime (Scenario.says "should I buy btc?") None
              Fixture.start _ _ _ Hrun eq_refl (or_introl eq_refl))
    as (data & coin & Hstate & _ & Hhead & Hanswer).
  exists data, coin. split; [exact Hrun|]. split; [exact Hstate|].
  split; [|exact Hanswer].
  vm_compute in Hhead. injection Hhead as <-. reflexivity.
Defined.

(** The list of the market is had, the detail record is not: the direct
    request ends without the summary that the same message gets when the
    provider left no data. *)
Lemma failed_details_discard_the_summary_witness :
  cryptoActionHandler Scenario.listingOnly (fun _ => None) false Renderable
    (Scenario.says "price of btc?")
    (Some (CryptoStateData.mk [] DirectRequest 0)) Fixture.start
    = (Ret (false, Some DetailsFailed),
       called (API_BASE_URL ++ detailsEndpoint "bitcoin")
         (snd (getCryptoByIdOrSymbol Scenario.listingOnly "bitcoin" "usd"
                 Fixture.start)))
  /\ cryptoActionHandler Scenario.listingOnly (fun _ => None) false Renderable
       (Scenario.says "price of btc?") None Fixture.start
     = (Ret (true, Some (Summary Fixture.bitcoin)),
        snd (getCryptoByIdOrSymbol Scenario.listingOnly "bitcoin" "usd"
               Fixture.start)).
Proof.
  apply (failed_details_discard_the_summary Scenario.listingOnly (fun _ => None)
           false Renderable (Scenario.says "price of btc?")
           (CryptoStateData.mk [] DirectRequest 0) "bitcoin" []
           Fixture.bitcoin Fixture.start
           (snd (getCryptoByIdOrSymbol Scenario.listingOnly "bitcoin" "usd"
                   Fixture.start))).
  - reflexivity.
  - vm_compute. reflexivity.
  - reflexivity.
  - vm_compute. reflexivity.
  - vm_compute. reflexivity.
  - vm_compute. exact I.
Defined.
